(** * AutoCompresor: the batch compression core

    A shallow embedding of [src/core/compressor.py], [src/core/file_manager.py]
    and the parts of [src/core/logger.py] and [src/core/config_manager.py]
    they call, followed by the properties of the engine.

    Layout:
    - Python strings, [pathlib] names and [str.format];
    - the world the engine runs in: file system, logger, engine flags;
    - [FileManager], [CustomLogger] and [CompressorEngine], method by method;
    - the properties. *)

From Stdlib Require Import ZArith Ascii String List Bool Lia.
From stdpp Require Import base option list gmap strings pretty.

Local Open Scope string_scope.
Local Open Scope Z_scope.

(** ** Python strings *)

Module PyStr.

  (** [s.rfind(c)]: index of the last occurrence, [None] for Python's -1. *)
Fixpoint rfind (c : ascii) (s : string) : option nat :=
    match s with
    | EmptyString => None
    | String a s' =>
        match rfind c s' with
        | Some i => Some (S i)
        | None => if Ascii.eqb a c then Some 0%nat else None
        end
    end.

  (** [s[:i]] and [s[i:]]. *)
Fixpoint take (i : nat) (s : string) : string :=
    match i, s with
    | S i', String a s' => String a (take i' s')
    | _, _ => EmptyString
    end.

Fixpoint drop (i : nat) (s : string) : string :=
    match i, s with
    | S i', String _ s' => drop i' s'
    | _, _ => s
    end.

  (** [s.lower()] on the ASCII letters; other bytes are kept. *)
Definition lower_ascii (a : ascii) : ascii :=
    let n := nat_of_ascii a in
    if ((65 <=? n) && (n <=? 90))%nat then ascii_of_nat (n + 32) else a.

Fixpoint lower (s : string) : string :=
    match s with
    | EmptyString => EmptyString
    | String a s' => String (lower_ascii a) (lower s')
    end.

  (** [s.upper()], likewise. *)
Definition upper_ascii (a : ascii) : ascii :=
    let n := nat_of_ascii a in
    if ((97 <=? n) && (n <=? 122))%nat then ascii_of_nat (n - 32) else a.

Fixpoint upper (s : string) : string :=
    match s with
    | EmptyString => EmptyString
    | String a s' => String (upper_ascii a) (upper s')
    end.

  (** Truth value of a string: [if s:]. *)
Definition truthy (s : string) : bool :=
    match s with EmptyString => false | _ => true end.

  (** [str(n)] for an [int]. *)
Definition of_Z (n : Z) : string := pretty n.
Definition of_nat (n : nat) : string := pretty n.

Fixpoint all_digits (s : string) : bool :=
    match s with
    | EmptyString => true
    | String a s' =>
        let n := nat_of_ascii a in
        ((48 <=? n) && (n <=? 57))%nat && all_digits s'
    end.

Fixpoint digits_value (acc : Z) (s : string) : Z :=
    match s with
    | EmptyString => acc
    | String a s' => digits_value (10 * acc + (Z.of_nat (nat_of_ascii a) - 48)) s'
    end.

Fixpoint mem (c : ascii) (s : string) : bool :=
    match s with
    | EmptyString => false
    | String a s' => Ascii.eqb a c || mem c s'
    end.

  (** [sep.join(l)]. *)
Fixpoint join (sep : string) (l : list string) : string :=
    match l with
    | [] => ""
    | [x] => x
    | x :: l' => x ++ sep ++ join sep l'
    end.

End PyStr.

(** ** [pathlib.Path], as the normalised path string

    A path is its string, components separated by a slash.  [name],
    [parent], [stem] and [suffix] follow [pathlib.PurePath]. *)

Abbreviation Path := string (only parsing).

Module PyPath.

Definition slash : ascii := "/"%char.
Definition dot : ascii := "."%char.

Definition name (p : Path) : string :=
    match PyStr.rfind slash p with
    | Some i => PyStr.drop (S i) p
    | None => p
    end.

Definition parent (p : Path) : Path :=
    match PyStr.rfind slash p with
    | Some i => PyStr.take i p
    | None => ""
    end.

  (** [parent / child] *)
Definition join (d : Path) (child : string) : Path :=
    match d with
    | EmptyString => child
    | _ => d ++ "/" ++ child
    end.

  (** [i = name.rfind('.')] with [0 < i < len(name) - 1]. *)
Definition suffix_index (nm : string) : option nat :=
    match PyStr.rfind dot nm with
    | Some i =>
        if ((0 <? i) && (S i <? String.length nm))%nat then Some i else None
    | None => None
    end.

Definition suffix (p : Path) : string :=
    let nm := name p in
    match suffix_index nm with
    | Some i => PyStr.drop i nm
    | None => ""
    end.

Definition stem (p : Path) : string :=
    let nm := name p in
    match suffix_index nm with
    | Some i => PyStr.take i nm
    | None => nm
    end.

End PyPath.

(** ** Exceptions *)

Inductive exn : Type :=
| KeyError (key : string)
| ValueError (msg : string)
| IndexError (msg : string)
| OtherError (msg : string)         (* AttributeError, TypeError, zlib.error, shutil.Error *)
| FileNotFoundError (p : Path)
| FileExistsError (p : Path)
| IsADirectoryError (p : Path)
| NotADirectoryError (p : Path)
| PermissionError (p : Path)
| BadZipFile (p : Path).

(** [str(e)], as the engine stores it in its error lists. *)
Definition exn_str (e : exn) : string :=
  match e with
  | KeyError k => "'" ++ k ++ "'"
  | ValueError m => m
  | IndexError m => m
  | OtherError m => m
  | FileNotFoundError p => "[Errno 2] No such file or directory: '" ++ p ++ "'"
  | FileExistsError p => "[Errno 17] File exists: '" ++ p ++ "'"
  | IsADirectoryError p => "[Errno 21] Is a directory: '" ++ p ++ "'"
  | NotADirectoryError p => "[Errno 20] Not a directory: '" ++ p ++ "'"
  | PermissionError p => "[Errno 13] Permission denied: '" ++ p ++ "'"
  | BadZipFile _ => "File is not a zip file"
  end.

Definition is_KeyError (e : exn) : bool :=
  match e with KeyError _ => true | _ => false end.

Inductive result (A : Type) : Type :=
| Ok (a : A)
| Err (e : exn).
Arguments Ok {A} a.
Arguments Err {A} e.

(** [l.append(x)] *)
Definition py_append {A} (l : list A) (x : A) : list A := (l ++ [x])%list.

(** ** [str.format] with keyword arguments

    The template scanner of CPython ([MarkupIterator_next] and [parse_field]),
    one character at a time.  Fields are rendered as soon as they are closed,
    so the first failure from the left is the one raised.  What a value does
    with a non-empty format specification, with [!r] and [!a], and with an
    attribute or index path is left to the [Formatter] at hand. *)

Inductive pyval : Type :=
| VStr (s : string)
| VInt (n : Z).

Definition py_str (v : pyval) : string :=
  match v with
  | VStr s => s
  | VInt n => PyStr.of_Z n
  end.

Record Formatter : Type := {
  (** [format(v, spec)] for a non-empty [spec] *)
  format_spec : pyval -> string -> result string;
  (** [repr(v)] and [ascii(v)] *)
  py_repr : pyval -> string;
  py_ascii : pyval -> string;
  (** the attribute and index path after the first name of a field *)
  field_path : pyval -> string -> result pyval
}.

Module Fmt.
Section WithFormatter.

Context (F : Formatter).

Definition kwargs := list (string * pyval).

Fixpoint lookup (k : string) (kw : kwargs) : option pyval :=
    match kw with
    | [] => None
    | (k', v) :: kw' => if String.eqb k' k then Some v else lookup k kw'
    end.

  (** Split a field name at the first ['.'] or ['[']. *)
Fixpoint split_first (s : string) : string * string :=
    match s with
    | EmptyString => ("", "")
    | String a s' =>
        if (Ascii.eqb a "."%char || Ascii.eqb a "["%char)%bool then ("", s)
        else let '(x, r) := split_first s' in (String a x, r)
    end.

Definition PY_SSIZE_T_MAX : Z := 9223372036854775807.

  (** [get_field_object] with an empty tuple of positional arguments. *)
Definition get_field_object (kw : kwargs) (field_name : string) : result pyval :=
    let '(first, rest) := split_first field_name in
    match first with
    | EmptyString =>
        Err (IndexError "Replacement index 0 out of range for positional args tuple")
    | _ =>
        if PyStr.all_digits first then
          if PY_SSIZE_T_MAX <? PyStr.digits_value 0 first
          then Err (ValueError "Too many decimal digits in format string")
          else Err (IndexError ("Replacement index " ++ first ++
                                " out of range for positional args tuple"))
        else
          match lookup first kw with
          | None => Err (KeyError first)
          | Some v =>
              match rest with
              | EmptyString => Ok v
              | _ => field_path F v rest
              end
          end
    end.

Definition do_conversion (conv : option ascii) (v : pyval) : result pyval :=
    match conv with
    | None => Ok v
    | Some c =>
        if Ascii.eqb c "r"%char then Ok (VStr (py_repr F v))
        else if Ascii.eqb c "s"%char then Ok (VStr (py_str v))
        else if Ascii.eqb c "a"%char then Ok (VStr (py_ascii F v))
        else Err (ValueError ("Unknown conversion specifier " ++ String c ""))
    end.

Definition py_format (v : pyval) (spec : string) : result string :=
    match spec with
    | EmptyString => Ok (py_str v)
    | _ => format_spec F v spec
    end.

  (** Where the scanner stands. *)
Inductive mode : Type :=
  | Lit (pending : option ascii)
  | Name (in_bracket : bool) (nm : string)
  | Conv0 (nm : string)
  | Conv1 (nm : string) (c : ascii)
  | Spec (nm : string) (conv : option ascii) (spec : string) (depth : nat) (nested : bool).

Definition snoc (s : string) (a : ascii) : string := s ++ String a "".

Section Render.
    (** [expand spec]: the rendering of a nested format specification. *)
Variable expand : string -> result string.
Variable kw : kwargs.

Definition render_field (nm : string) (conv : option ascii)
               (spec : string) (nested : bool) : result string :=
      match get_field_object kw nm with
      | Err e => Err e
      | Ok v =>
          match do_conversion conv v with
          | Err e => Err e
          | Ok v' =>
              if nested then
                match expand spec with
                | Err e => Err e
                | Ok spec' => py_format v' spec'
                end
              else py_format v' spec
          end
      end.

Definition close_field (out : string) (nm : string) (conv : option ascii)
               (spec : string) (nested : bool) : result (string * mode) :=
      match render_field nm conv spec nested with
      | Err e => Err e
      | Ok s => Ok (out ++ s, Lit None)
      end.

Definition name_step (out : string) (in_bracket : bool) (nm : string)
               (a : ascii) : result (string * mode) :=
      if in_bracket then
        Ok (out, Name (negb (Ascii.eqb a "]"%char)) (snoc nm a))
      else if Ascii.eqb a "{"%char then
        Err (ValueError "unexpected '{' in field name")
      else if Ascii.eqb a "["%char then Ok (out, Name true (snoc nm a))
      else if Ascii.eqb a "}"%char then close_field out nm None "" false
      else if Ascii.eqb a ":"%char then Ok (out, Spec nm None "" 1 false)
      else if Ascii.eqb a "!"%char then Ok (out, Conv0 nm)
      else Ok (out, Name false (snoc nm a)).

Definition step (out : string) (m : mode) (a : ascii) : result (string * mode) :=
      match m with
      | Lit None =>
          if (Ascii.eqb a "{"%char || Ascii.eqb a "}"%char)%bool
          then Ok (out, Lit (Some a))
          else Ok (snoc out a, Lit None)
      | Lit (Some b) =>
          if Ascii.eqb b "}"%char then
            if Ascii.eqb a "}"%char then Ok (snoc out a, Lit None)
            else Err (ValueError "Single '}' encountered in format string")
          else
            if Ascii.eqb a "{"%char then Ok (snoc out a, Lit None)
            else name_step out false "" a
      | Name br nm => name_step out br nm a
      | Conv0 nm => Ok (out, Conv1 nm a)
      | Conv1 nm c =>
          if Ascii.eqb a "}"%char then close_field out nm (Some c) "" false
          else if Ascii.eqb a ":"%char then Ok (out, Spec nm (Some c) "" 1 false)
          else Err (ValueError "expected ':' after conversion specifier")
      | Spec nm conv spec depth nested =>
          if Ascii.eqb a "{"%char
          then Ok (out, Spec nm conv (snoc spec a) (S depth) true)
          else if Ascii.eqb a "}"%char then
            match depth with
            | 1%nat => close_field out nm conv spec nested
            | _ => Ok (out, Spec nm conv (snoc spec a) (Nat.pred depth) nested)
            end
          else Ok (out, Spec nm conv (snoc spec a) depth nested)
      end.

    (** The end of the template. *)
Definition finish (out : string) (m : mode) : result string :=
      match m with
      | Lit None => Ok out
      | Lit (Some b) =>
          if Ascii.eqb b "}"%char
          then Err (ValueError "Single '}' encountered in format string")
          else Err (ValueError "Single '{' encountered in format string")
      | Name _ _ => Err (ValueError "expected '}' before end of string")
      | Conv0 _ =>
          Err (ValueError "end of string while looking for conversion specifier")
      | Conv1 _ _ => Err (ValueError "unmatched '{' in format spec")
      | Spec _ _ _ _ _ => Err (ValueError "unmatched '{' in format spec")
      end.

Fixpoint scan (out : string) (m : mode) (s : string) : result string :=
      match s with
      | EmptyString => finish out m
      | String a s' =>
          match step out m a with
          | Err e => Err e
          | Ok (out', m') => scan out' m' s'
          end
      end.
End Render.

  (** [build_string] with its recursion budget. *)
Fixpoint build_string (recursion_depth : nat) (kw : kwargs) (template : string)
    : result string :=
    match recursion_depth with
    | O => Err (ValueError "Max string recursion exceeded")
    | S d => scan (build_string d kw) kw "" (Lit None) template
    end.

  (** [template.format] applied to the keyword arguments [kw] *)
Definition format (template : string) (kw : kwargs) : result string :=
    build_string 2 kw template.

End WithFormatter.
End Fmt.

(** ** The world

    The file system is a finite map from path strings to nodes.  A regular
    file carries its size, its permission bits and, when it is a readable zip
    archive, the archive's directory.  The top directory is the empty path. *)

Record zentry : Type := ZEntry {
  e_name : string;
  e_size : Z;          (* [ZipInfo.file_size] *)
  e_crc_ok : bool      (* the stored data matches its CRC *)
}.

Inductive node : Type :=
| NFile (size : Z) (readable writable : bool) (zip : option (list zentry))
| NDir (readable writable : bool).

Module SessionStats.
Record t : Type := mk {
    session_id : string;
    ended : bool;                    (* [end_time is not None] *)
    total_files : nat;
    processed_files : nat;
    failed_files : nat;
    skipped_files : nat;
    total_original_size : Z;
    total_compressed_size : Z;
    errors : list string;
    warnings : list string
  }.
End SessionStats.

Record log_record : Type := LogRecord {
  lr_level : string;
  lr_message : string;
  lr_file_path : option string
}.

(** [CustomLogger]: the queue of records and the session bookkeeping. *)
Record Logger : Type := {
  log_queue : list log_record;
  current_session : option SessionStats.t;
  sessions_history : list SessionStats.t
}.

(** What the two UI callbacks were called with. *)
Inductive ui_event : Type :=
| Progress (current total : nat) (current_file : string)
| FileStatus (operation filename status : string).

(** [CompressorEngine]'s own attributes. *)
Record Engine : Type := {
  is_running : bool;
  is_paused : bool;
  should_stop : bool;
  pause_event : bool;                (* [_pause_event.is_set()] *)
  progress_callback : bool;          (* a callback is registered *)
  file_callback : bool;
  last_session_stats : option SessionStats.t;
  file_counter : Z
}.

(** Calls made by the controlling thread. *)
Inductive signal : Type := SigPause | SigResume | SigStop.

(** What the controlling thread does around one turn of the loop: before the
    stop flag is read, and while the worker waits on the pause event. *)
Record slot : Type := Slot {
  before_check : list signal;
  while_waiting : list signal
}.

Record World : Type := {
  fs : gmap string node;
  logger : Logger;
  engine : Engine;
  backup_operations : list (string * string);   (* [FileManager.backup_operations] *)
  ui : list ui_event;
  script : list slot
}.

Definition set_fs (f : gmap string node -> gmap string node) (w : World) : World :=
  {| fs := f (fs w); logger := logger w; engine := engine w;
     backup_operations := backup_operations w; ui := ui w; script := script w |}.
Definition set_logger (f : Logger -> Logger) (w : World) : World :=
  {| fs := fs w; logger := f (logger w); engine := engine w;
     backup_operations := backup_operations w; ui := ui w; script := script w |}.
Definition set_engine (f : Engine -> Engine) (w : World) : World :=
  {| fs := fs w; logger := logger w; engine := f (engine w);
     backup_operations := backup_operations w; ui := ui w; script := script w |}.
Definition set_backup_operations (f : list (string * string) -> list (string * string))
           (w : World) : World :=
  {| fs := fs w; logger := logger w; engine := engine w;
     backup_operations := f (backup_operations w); ui := ui w; script := script w |}.
Definition set_ui (f : list ui_event -> list ui_event) (w : World) : World :=
  {| fs := fs w; logger := logger w; engine := engine w;
     backup_operations := backup_operations w; ui := f (ui w); script := script w |}.
Definition set_script (f : list slot -> list slot) (w : World) : World :=
  {| fs := fs w; logger := logger w; engine := engine w;
     backup_operations := backup_operations w; ui := ui w; script := f (script w) |}.

(** The clock, read as [datetime.now().strftime(...)]. *)
Record Clock : Type := {
  fecha : string;          (* %Y-%m-%d *)
  fecha_corta : string;    (* %Y%m%d *)
  hora : string;           (* %H-%M-%S *)
  timestamp : string       (* %Y%m%d_%H%M%S *)
}.

(** What the engine takes from outside the repository's code. *)
Record Env : Type := {
  now : Clock;
  (** [ConfigManager.get_naming_patterns()] *)
  naming_patterns : list (string * string);
  formatter : Formatter;
  (** [fnmatch.fnmatch(name, pattern)] *)
  fnmatch : string -> string -> bool;
  (** size on disk of the archive of a file of the given size, per level *)
  deflated_size : Z -> Path -> Z -> Z;
  (** places where written data does not read back intact *)
  bad_media : Path -> bool;
  (** the text of [f'{ratio:.1f}'] for a compressed and an original size *)
  ratio_text : Z -> Z -> string
}.

(** ** Computations: state, exceptions, and a blocked thread *)

Inductive outcome (A : Type) : Type :=
| Ret (a : A)
| Raise (e : exn)
| Hang.
Arguments Ret {A} a.
Arguments Raise {A} e.
Arguments Hang {A}.

Definition M (A : Type) : Type := World -> outcome A * World.

Definition ret {A} (a : A) : M A := fun w => (Ret a, w).
Definition raise {A} (e : exn) : M A := fun w => (Raise e, w).
Definition hang {A} : M A := fun w => (Hang, w).

Definition bind {A B} (m : M A) (k : A -> M B) : M B :=
  fun w =>
    match m w with
    | (Ret a, w') => k a w'
    | (Raise e, w') => (Raise e, w')
    | (Hang, w') => (Hang, w')
    end.

(** [try: m except Exception as e: h e] *)
Definition try_except {A} (m : M A) (h : exn -> M A) : M A :=
  fun w =>
    match m w with
    | (Raise e, w') => h e w'
    | r => r
    end.

(** [try: m finally: f] *)
Definition try_finally {A} (m : M A) (f : M unit) : M A :=
  fun w =>
    match m w with
    | (Ret a, w') =>
        match f w' with
        | (Ret _, w'') => (Ret a, w'')
        | (Raise e, w'') => (Raise e, w'')
        | (Hang, w'') => (Hang, w'')
        end
    | (Raise e, w') =>
        match f w' with
        | (Ret _, w'') => (Raise e, w'')
        | (Raise e', w'') => (Raise e', w'')
        | (Hang, w'') => (Hang, w'')
        end
    | (Hang, w') => (Hang, w')
    end.

Definition gets {A} (f : World -> A) : M A := fun w => (Ret (f w), w).
Definition modify (f : World -> World) : M unit := fun w => (Ret tt, f w).
Definition lift {A} (r : result A) : M A :=
  match r with Ok a => ret a | Err e => raise e end.

Declare Scope m_scope.
Delimit Scope m_scope with M.
Notation "'let!' x ':=' m 'in' k" := (bind m (fun x => k))
  (at level 10, x pattern, m at level 100, k at level 200) : m_scope.
Notation "m ';;;' k" := (bind m (fun _ => k))
  (at level 100, k at level 200, right associativity) : m_scope.
Local Open Scope m_scope.

Definition when (b : bool) (m : M unit) : M unit := if b then m else ret tt.

(** [for x in l: body x] *)
Fixpoint for_each {A} (l : list A) (body : A -> M unit) : M unit :=
  match l with
  | [] => ret tt
  | x :: l' => body x ;;; for_each l' body
  end.

(** ** The file system calls the engine makes ([os], [pathlib], [shutil], [zipfile]) *)

Module Os.

Abbreviation FS := (gmap string node) (only parsing).

Definition exists_ (p : Path) : M bool :=
    gets (fun w => match fs w !! p with Some _ => true | None => false end).

Definition is_dir (p : Path) : M bool :=
    gets (fun w => match fs w !! p with Some (NDir _ _) => true | _ => false end).

Definition is_file (p : Path) : M bool :=
    gets (fun w => match fs w !! p with Some (NFile _ _ _ _) => true | _ => false end).

  (** [os.access(p, os.R_OK)] and [os.access(p, os.W_OK)] *)
Definition access_R (p : Path) : M bool :=
    gets (fun w => match fs w !! p with
                   | Some (NFile _ r _ _) => r
                   | Some (NDir r _) => r
                   | None => false
                   end).

Definition access_W (p : Path) : M bool :=
    gets (fun w => match fs w !! p with
                   | Some (NFile _ _ wr _) => wr
                   | Some (NDir _ wr) => wr
                   | None => false
                   end).

  (** [p.stat().st_size] *)
Definition stat_size (p : Path) : M Z :=
    fun w => match fs w !! p with
             | Some (NFile sz _ _ _) => (Ret sz, w)
             | Some (NDir _ _) => (Ret 4096, w)
             | None => (Raise (FileNotFoundError p), w)
             end.

  (** A new entry can be made in the directory that holds [p]. *)
Definition parent_check (p : Path) (m : FS) : result unit :=
    match m !! PyPath.parent p with
    | Some (NDir _ true) => Ok tt
    | Some (NDir _ false) => Err (PermissionError p)
    | Some (NFile _ _ _ _) => Err (NotADirectoryError p)
    | None => Err (FileNotFoundError p)
    end.

  (** [os.mkdir(p)] *)
Definition mkdir1 (p : Path) (m : FS) : result FS :=
    match m !! p with
    | Some _ => Err (FileExistsError p)
    | None =>
        match parent_check p m with
        | Ok _ => Ok (<[p := NDir true true]> m)
        | Err e => Err e
        end
    end.

Definition is_dir_in (p : Path) (m : FS) : bool :=
    match m !! p with Some (NDir _ _) => true | _ => false end.

  (** [Path.mkdir(parents=True, exist_ok=True)]; each level of the
      recursion is one level up, so the length of the path bounds it. *)
Fixpoint mkdir_rec (fuel : nat) (p : Path) (m : FS) : result FS :=
    match mkdir1 p m with
    | Ok m' => Ok m'
    | Err (FileNotFoundError q) =>
        if String.eqb (PyPath.parent p) p then Err (FileNotFoundError q)
        else
          match fuel with
          | O => Err (FileNotFoundError q)
          | S fuel' =>
              match mkdir_rec fuel' (PyPath.parent p) m with
              | Err e => Err e
              | Ok m1 =>
                  match mkdir1 p m1 with
                  | Ok m2 => Ok m2
                  | Err e => if is_dir_in p m1 then Ok m1 else Err e
                  end
              end
          end
    | Err e => if is_dir_in p m then Ok m else Err e
    end.

Definition mkdir_parents (p : Path) : M unit :=
    fun w => match mkdir_rec (String.length p) p (fs w) with
             | Ok m' => (Ret tt, set_fs (fun _ => m') w)
             | Err e => (Raise e, w)
             end.

  (** [p.unlink()], [os.unlink(p)]: the directory that holds the file has to
      allow the removal. *)
Definition unlink (p : Path) : M unit :=
    fun w => match fs w !! p with
             | None => (Raise (FileNotFoundError p), w)
             | Some (NDir _ _) => (Raise (IsADirectoryError p), w)
             | Some (NFile _ _ _ _) =>
                 match parent_check p (fs w) with
                 | Ok _ => (Ret tt, set_fs (delete p) w)
                 | Err e => (Raise e, w)
                 end
             end.

Definition dir_writable (p : Path) (m : FS) : bool :=
    match m !! p with Some (NDir _ true) => true | _ => false end.

  (** [shutil.copy2(src, dst)] of a regular file: [open(src, 'rb')], then
      [open(dst, 'wb')], which makes the file or empties the one that is there,
      then the content and [copystat]: the copy has the size, the content and
      the permissions of the source. *)
Definition copy2 (src dst : Path) : M unit :=
    fun w =>
      let m := fs w in
      let dst := if is_dir_in dst m then PyPath.join dst (PyPath.name src) else dst in
      match m !! src with
      | None => (Raise (FileNotFoundError src), w)
      | Some (NDir _ _) => (Raise (IsADirectoryError src), w)
      | Some (NFile sz r wr z) =>
          if String.eqb dst src then
            (Raise (OtherError ("'" ++ src ++ "' and '" ++ dst ++ "' are the same file")), w)
          else if negb r then (Raise (PermissionError src), w)
          else
            match m !! dst with
            | Some (NDir _ _) => (Raise (IsADirectoryError dst), w)
            | Some (NFile _ _ false _) => (Raise (PermissionError dst), w)
            | Some (NFile _ _ true _) =>
                (Ret tt, set_fs (<[dst := NFile sz r wr z]>) w)
            | None =>
                match parent_check dst m with
                | Ok _ => (Ret tt, set_fs (<[dst := NFile sz r wr z]>) w)
                | Err e => (Raise e, w)
                end
            end
      end.

  (** [os.rename(src, dst)] goes through: both directories allow it, and a
      directory does not take the place of a file. *)
Definition rename_allowed (nd : node) (src dst : Path) (m : FS) : bool :=
    dir_writable (PyPath.parent src) m && dir_writable (PyPath.parent dst) m
    && negb (match nd, m !! dst with
             | NDir _ _, Some (NFile _ _ _ _) => true
             | _, _ => false
             end).

  (** [shutil.move(src, dst)]: the destination is looked for inside [dst]
      when that is a directory, and must not be there; then [os.rename]; and
      when the rename raises, for a regular file, [copy2] followed by
      [os.unlink(src)], so that a removal that fails leaves the copy behind.
      A directory is carried by the rename as the one entry it is; the copy
      of a tree that [shutil.move] falls back on for a directory is not
      followed, and the error of the rename is raised: the engine moves the
      regular files of a scan and what it moved of them. *)
Definition move (src dst : Path) : M unit :=
    fun w =>
      let m := fs w in
      let real_dst :=
        if is_dir_in dst m then PyPath.join dst (PyPath.name src) else dst in
      if is_dir_in dst m && String.eqb dst src then (Ret tt, w)
      else if is_dir_in dst m && bool_decide (is_Some (m !! real_dst)) then
        (Raise (OtherError ("Destination path '" ++ real_dst ++ "' already exists")), w)
      else
        match m !! src with
        | None => (Raise (FileNotFoundError src), w)
        | Some nd =>
            if String.eqb real_dst src then (Ret tt, w)
            else if rename_allowed nd src real_dst m
            then (Ret tt, set_fs (fun m => <[real_dst := nd]> (delete src m)) w)
            else
              match nd with
              | NFile _ _ _ _ => (copy2 src real_dst ;;; unlink src) w
              | NDir _ _ => (Raise (PermissionError real_dst), w)
              end
        end.

  (** [path.iterdir()], in the order the map lists its keys. *)
Definition children (d : Path) (m : FS) : list Path :=
    filter (fun p => PyPath.parent p = d ∧ p ≠ d) (map fst (map_to_list m)).

Definition iterdir (d : Path) : M (list Path) :=
    fun w => match fs w !! d with
             | Some (NDir true _) => (Ret (children d (fs w)), w)
             | Some (NDir false _) => (Raise (PermissionError d), w)
             | Some (NFile _ _ _ _) => (Raise (NotADirectoryError d), w)
             | None => (Raise (FileNotFoundError d), w)
             end.

End Os.

(** ** [zipfile.ZipFile] *)

Module Zip.
Section WithEnv.

Context (E : Env).

  (** [ZipFile(zip_path, 'w', ...)] opens with [io.open(zip_path, 'w+b')]:
      the file is created, or emptied when it is there. *)
Definition open_w (zip_path : Path) : M unit :=
    fun w =>
      match fs w !! zip_path with
      | Some (NDir _ _) => (Raise (IsADirectoryError zip_path), w)
      | Some (NFile _ r wr _) =>
          if wr then (Ret tt, set_fs (<[zip_path := NFile 0 r wr None]>) w)
          else (Raise (PermissionError zip_path), w)
      | None =>
          match Os.parent_check zip_path (fs w) with
          | Ok _ => (Ret tt, set_fs (<[zip_path := NFile 0 true true None]>) w)
          | Err e => (Raise e, w)
          end
      end.

  (** [ZipFile.close()]: the directory of the archive is written. *)
Definition close_w (zip_path : Path) (entries : list zentry) (sz : Z) : M unit :=
    modify (set_fs (fun m =>
      match m !! zip_path with
      | Some (NFile _ r wr _) => <[zip_path := NFile sz r wr (Some entries)]> m
      | _ => m
      end)).

Definition empty_archive_size : Z := 22.

  (** [with ZipFile(zip_path, 'w', ZIP_DEFLATED, compresslevel=level) as zipf:
        zipf.write(filename, arcname)]
      The archive is closed on the way out, also when [write] raises; a level
      zlib refuses leaves the write handle open, and closing raises. *)
Definition write_file (zip_path : Path) (level : Z) (filename : Path)
             (arcname : string) : M unit :=
    open_w zip_path ;;;
    let! src := gets (fun w => fs w !! filename) in
    let ok := negb (bad_media E zip_path) in
    match src with
    | None =>
        close_w zip_path [] empty_archive_size ;;;
        raise (FileNotFoundError filename)
    | Some (NDir _ _) =>
        close_w zip_path [ZEntry (arcname ++ "/") 0 ok]
                (deflated_size E level filename 0)
    | Some (NFile sz r _ _) =>
        if negb r then
          close_w zip_path [] empty_archive_size ;;;
          raise (PermissionError filename)
        else if negb ((-1 <=? level) && (level <=? 9)) then
          raise (ValueError "Can't close the ZIP file while there is another write handle open on it. Close the first handle before closing the zip.")
        else
          close_w zip_path [ZEntry arcname sz ok] (deflated_size E level filename sz)
    end.

  (** [ZipFile(zip_path, 'r')] *)
Definition open_r (zip_path : Path) : M (list zentry) :=
    fun w =>
      match fs w !! zip_path with
      | None => (Raise (FileNotFoundError zip_path), w)
      | Some (NDir _ _) => (Raise (IsADirectoryError zip_path), w)
      | Some (NFile _ r _ z) =>
          if r then
            match z with
            | Some es => (Ret es, w)
            | None => (Raise (BadZipFile zip_path), w)
            end
          else (Raise (PermissionError zip_path), w)
      end.

  (** [zipf.testzip()]: the name of the first member that fails its CRC. *)
Definition testzip (es : list zentry) : option string :=
    e_name <$> List.find (fun e => negb (e_crc_ok e)) es.

Definition namelist (es : list zentry) : list string := map e_name es.

  (** [zipf.getinfo(name)]: the last member written under that name. *)
Definition getinfo (nm : string) (es : list zentry) : result zentry :=
    match List.find (fun e => String.eqb (e_name e) nm) (rev es) with
    | Some e => Ok e
    | None => Err (KeyError ("There is no item named '" ++ nm ++ "' in the archive"))
    end.

End WithEnv.
End Zip.

(** ** [CustomLogger] *)

Module CustomLogger.
Section WithEnv.

Context (E : Env).

Definition set_queue (f : list log_record -> list log_record) (l : Logger) : Logger :=
    {| log_queue := f (log_queue l); current_session := current_session l;
       sessions_history := sessions_history l |}.

Definition set_session (f : option SessionStats.t -> option SessionStats.t)
             (l : Logger) : Logger :=
    {| log_queue := log_queue l; current_session := f (current_session l);
       sessions_history := sessions_history l |}.

Definition set_history (f : list SessionStats.t -> list SessionStats.t)
             (l : Logger) : Logger :=
    {| log_queue := log_queue l; current_session := current_session l;
       sessions_history := f (sessions_history l) |}.

  (** The record goes on the queue, which has no bound. *)
Definition log_operation (level message : string) (file_path : option string) : M unit :=
    modify (set_logger (set_queue (fun q => py_append q (LogRecord level message file_path)))).

Definition end_session : M (option SessionStats.t) :=
    let! cur := gets (fun w => current_session (logger w)) in
    match cur with
    | None => ret None
    | Some stats0 =>
        let stats :=
          SessionStats.mk (SessionStats.session_id stats0) true
            (SessionStats.total_files stats0) (SessionStats.processed_files stats0)
            (SessionStats.failed_files stats0) (SessionStats.skipped_files stats0)
            (SessionStats.total_original_size stats0)
            (SessionStats.total_compressed_size stats0)
            (SessionStats.errors stats0) (SessionStats.warnings stats0) in
        log_operation "INFO"
          ("Sesión completada: " ++ PyStr.of_nat (SessionStats.processed_files stats)
           ++ " éxitos, " ++ PyStr.of_nat (SessionStats.failed_files stats)
           ++ " errores, " ++ PyStr.of_nat (SessionStats.skipped_files stats)
           ++ " omitidos") None ;;;
        modify (set_logger (set_history (fun h => py_append h stats))) ;;;
        modify (set_logger (set_session (fun _ => None))) ;;;
        ret (Some stats)
    end.

Definition start_session : M string :=
    let session_id := "session_" ++ timestamp (now E) in
    let! cur := gets (fun w => current_session (logger w)) in
    (match cur with
     | Some _ => end_session ;;; ret tt
     | None => ret tt
     end) ;;;
    modify (set_logger (set_session (fun _ =>
      Some (SessionStats.mk session_id false 0 0 0 0 0 0 [] [])))) ;;;
    log_operation "INFO" ("Sesión iniciada: " ++ session_id) None ;;;
    ret session_id.

Definition update_stats (f : SessionStats.t -> SessionStats.t) : M unit :=
    modify (set_logger (set_session (fun c => f <$> c))).

  (** [update_session_stats(total_files=n)] *)
Definition update_session_stats_total_files (n : nat) : M unit :=
    update_stats (fun s =>
      SessionStats.mk (SessionStats.session_id s) (SessionStats.ended s) n
        (SessionStats.processed_files s) (SessionStats.failed_files s)
        (SessionStats.skipped_files s) (SessionStats.total_original_size s)
        (SessionStats.total_compressed_size s) (SessionStats.errors s)
        (SessionStats.warnings s)).

Definition with_error_msg (message : string) (error_msg : option string) : string :=
    match error_msg with
    | Some m => if PyStr.truthy m then message ++ ": " ++ m else message
    | None => message
    end.

Definition append_msg (file_name : string) (error_msg : option string)
             (l : list string) : list string :=
    match error_msg with
    | Some m => if PyStr.truthy m then py_append l (file_name ++ ": " ++ m) else l
    | None => l
    end.

Definition log_file_operation (operation : string) (file_path : string)
             (status : string) (original_size compressed_size : Z)
             (error_msg : option string) : M unit :=
    let file_name := PyPath.name file_path in
    if String.eqb status "success" then
      let message :=
        if (0 <? compressed_size) && (0 <? original_size)
        then PyStr.upper operation ++ " - " ++ file_name ++ " (Reducido "
             ++ ratio_text E compressed_size original_size ++ "%)"
        else PyStr.upper operation ++ " - " ++ file_name in
      log_operation "SUCCESS" message (Some file_path) ;;;
      update_stats (fun s =>
        SessionStats.mk (SessionStats.session_id s) (SessionStats.ended s)
          (SessionStats.total_files s) (S (SessionStats.processed_files s))
          (SessionStats.failed_files s) (SessionStats.skipped_files s)
          (SessionStats.total_original_size s + original_size)
          (SessionStats.total_compressed_size s + compressed_size)
          (SessionStats.errors s) (SessionStats.warnings s))
    else if String.eqb status "error" then
      log_operation "ERROR" (with_error_msg ("ERROR - " ++ file_name) error_msg)
                    (Some file_path) ;;;
      update_stats (fun s =>
        SessionStats.mk (SessionStats.session_id s) (SessionStats.ended s)
          (SessionStats.total_files s) (SessionStats.processed_files s)
          (S (SessionStats.failed_files s)) (SessionStats.skipped_files s)
          (SessionStats.total_original_size s) (SessionStats.total_compressed_size s)
          (append_msg file_name error_msg (SessionStats.errors s))
          (SessionStats.warnings s))
    else if String.eqb status "skip" then
      log_operation "WARNING" (with_error_msg ("SKIP - " ++ file_name) error_msg)
                    (Some file_path) ;;;
      update_stats (fun s =>
        SessionStats.mk (SessionStats.session_id s) (SessionStats.ended s)
          (SessionStats.total_files s) (SessionStats.processed_files s)
          (SessionStats.failed_files s) (S (SessionStats.skipped_files s))
          (SessionStats.total_original_size s) (SessionStats.total_compressed_size s)
          (SessionStats.errors s)
          (append_msg file_name error_msg (SessionStats.warnings s)))
    else ret tt.

End WithEnv.
End CustomLogger.

(** ** [file_manager.py] *)

Module ConflictResolution.
Inductive t : Type := RENAME | OVERWRITE | SKIP | ASK.

Definition value (c : t) : string :=
    match c with
    | RENAME => "rename"
    | OVERWRITE => "overwrite"
    | SKIP => "skip"
    | ASK => "ask"
    end.

  (** [ConflictResolution(s)]: the member with that value, or [ValueError]. *)
Definition of_value (s : string) : result t :=
    if String.eqb s "rename" then Ok RENAME
    else if String.eqb s "overwrite" then Ok OVERWRITE
    else if String.eqb s "skip" then Ok SKIP
    else if String.eqb s "ask" then Ok ASK
    else Err (ValueError ("'" ++ s ++ "' is not a valid ConflictResolution")).
End ConflictResolution.

Module FileInfo.
  (** [modified_time] and [checksum] play no part in the engine. *)
Record t : Type := mk {
    path : Path;
    name : string;
    size : Z;
    extension : string;
    is_readable : bool;
    is_writable : bool
  }.

Definition from_path (file_path : Path) : M t :=
    try_except
      (let! sz := Os.stat_size file_path in
       let! r := Os.access_R file_path in
       let! wr := Os.access_W file_path in
       ret (mk file_path (PyPath.name file_path) sz
               (PyStr.lower (PyPath.suffix file_path)) r wr))
      (fun _ =>
         ret (mk file_path (PyPath.name file_path) 0
                 (PyStr.lower (PyPath.suffix file_path)) false false)).
End FileInfo.

(** [for x in l: acc = body acc x] *)
Fixpoint fold_m {A B} (body : B -> A -> M B) (l : list A) (acc : B) : M B :=
  match l with
  | [] => ret acc
  | x :: l' => let! acc' := body acc x in fold_m body l' acc'
  end.

Module FileManager.
Section WithEnv.

Context (E : Env).

Definition _log (level message : string) (file_path : option string) : M unit :=
    CustomLogger.log_operation level message file_path.

Definition _matches_filters (filename : string) (filters : list string) : bool :=
    match filters with
    | [] => true
    | _ =>
        if bool_decide ("*" ∈ filters) then true
        else existsb (fun pattern =>
                        fnmatch E (PyStr.lower filename) (PyStr.lower pattern)) filters
    end.

  (** The inner [process_files(path)] of [scan_directory]; [files] is the
      list it appends to.  A directory below [path] has a longer path, so
      the number of nodes bounds the depth. *)
Fixpoint process_files (fuel : nat) (include_subfolders : bool)
           (file_filters : list string) (path : Path) (files : list FileInfo.t)
    : M (list FileInfo.t) :=
    try_except
      (let! items := Os.iterdir path in
       fold_m (fun files item =>
         let! isf := Os.is_file item in
         if isf then
           if _matches_filters (PyPath.name item) file_filters then
             let! file_info := FileInfo.from_path item in
             if FileInfo.is_readable file_info then ret (py_append files file_info)
             else
               _log "WARNING" ("Archivo no legible: " ++ PyPath.name item) (Some item) ;;;
               ret files
           else ret files
         else
           let! isd := Os.is_dir item in
           if isd && include_subfolders then
             match fuel with
             | O => ret files
             | S fuel' => process_files fuel' include_subfolders file_filters item files
             end
           else ret files) items files)
      (fun e =>
         match e with
         | PermissionError _ =>
             _log "WARNING" ("Sin permisos para acceder a: " ++ path) None ;;;
             ret files
         | _ =>
             _log "ERROR" ("Error al procesar directorio " ++ path ++ ": " ++ exn_str e)
                  None ;;;
             ret files
         end).

Definition scan_directory (directory : Path) (include_subfolders : bool)
             (file_filters : list string) : M (list FileInfo.t) :=
    let! ex := Os.exists_ directory in
    if negb ex then
      _log "ERROR" ("El directorio no existe: " ++ directory) None ;;; ret []
    else
      let! isd := Os.is_dir directory in
      if negb isd then
        _log "ERROR" ("La ruta no es un directorio: " ++ directory) None ;;; ret []
      else
        let file_filters := match file_filters with [] => ["*"] | _ => file_filters end in
        try_except
          (let! n := gets (fun w => size (fs w)) in
           let! files := process_files n include_subfolders file_filters directory [] in
           _log "INFO" ("Encontrados " ++ PyStr.of_nat (length files)
                        ++ " archivos en " ++ directory) None ;;;
           ret files)
          (fun e =>
             _log "ERROR" ("Error al escanear directorio: " ++ exn_str e) None ;;;
             ret []).

Definition create_backup_folder (backup_path : Path) : M bool :=
    try_except
      (Os.mkdir_parents backup_path ;;;
       let! wr := Os.access_W backup_path in
       if negb wr then
         _log "ERROR" ("Sin permisos de escritura en: " ++ backup_path) None ;;;
         ret false
       else
         _log "INFO" ("Carpeta de respaldo lista: " ++ backup_path) None ;;;
         ret true)
      (fun e =>
         _log "ERROR" ("Error al crear carpeta de respaldo: " ++ exn_str e) None ;;;
         ret false).

  (** The [while True] of [_generate_unique_name]; it leaves within 9999
      turns, which is the [fuel] it is started with. *)
Fixpoint unique_name_loop (fuel : nat) (base extension parent : string)
           (counter : Z) : M Path :=
    match fuel with
    | O => hang
    | S fuel' =>
        let new_name := base ++ "_" ++ PyStr.of_Z counter ++ extension in
        let new_path := PyPath.join parent new_name in
        let! ex := Os.exists_ new_path in
        if negb ex then ret new_path
        else
          let counter := counter + 1 in
          if 9999 <? counter then
            let new_name := base ++ "_" ++ timestamp (now E) ++ extension in
            ret (PyPath.join parent new_name)
          else unique_name_loop fuel' base extension parent counter
    end.

Definition _generate_unique_name (file_path : Path) : M Path :=
    let base := PyPath.stem file_path in
    let extension := PyPath.suffix file_path in
    let parent := PyPath.parent file_path in
    unique_name_loop 9999 base extension parent 1.

Definition _resolve_conflict (destination : Path) (resolution : ConflictResolution.t)
    : M (option Path) :=
    match resolution with
    | ConflictResolution.OVERWRITE => ret (Some destination)
    | ConflictResolution.SKIP => ret None
    | ConflictResolution.RENAME =>
        let! p := _generate_unique_name destination in ret (Some p)
    | ConflictResolution.ASK =>
        let! p := _generate_unique_name destination in ret (Some p)
    end.

Definition move_to_backup (file_path backup_folder : Path)
             (conflict_resolution : ConflictResolution.t) : M (option Path) :=
    let! ex := Os.exists_ file_path in
    if negb ex then
      _log "ERROR" ("Archivo no existe: " ++ file_path) None ;;; ret None
    else
      let! created := create_backup_folder backup_folder in
      if negb created then ret None
      else
        try_except
          (let destination := PyPath.join backup_folder (PyPath.name file_path) in
           let! dex := Os.exists_ destination in
           let! resolved :=
             (if dex then _resolve_conflict destination conflict_resolution
              else ret (Some destination)) in
           match resolved with
           | None =>
               _log "WARNING" ("Operación cancelada por conflicto: "
                               ++ PyPath.name file_path) None ;;;
               ret None
           | Some destination =>
               Os.move file_path destination ;;;
               modify (set_backup_operations
                         (fun l => py_append l (file_path, destination))) ;;;
               _log "SUCCESS" ("Archivo movido a respaldo: " ++ PyPath.name file_path)
                    (Some destination) ;;;
               ret (Some destination)
           end)
          (fun e =>
             _log "ERROR" ("Error al mover archivo " ++ PyPath.name file_path
                           ++ ": " ++ exn_str e) None ;;;
             ret None).

  (** The ['readable'] entry of [validate_permissions(directory)]. *)
Definition validate_permissions_readable (directory : Path) : M bool :=
    let! ex := Os.exists_ directory in
    if ex then Os.access_R directory else ret false.

  (** One turn of the loop of [rollback_backup_operations]. *)
Definition rollback_one (reverted_count : nat) (op : string * string) : M nat :=
    let '(original_path, backup_path) := op in
    try_except
      (let! ex := Os.exists_ backup_path in
       if ex then
         Os.move backup_path original_path ;;;
         let reverted_count := S reverted_count in
         _log "INFO" ("Operación revertida: " ++ PyPath.name original_path) None ;;;
         ret reverted_count
       else ret reverted_count)
      (fun e =>
         _log "ERROR" ("Error al revertir " ++ PyPath.name original_path ++ ": "
                       ++ exn_str e) None ;;;
         ret reverted_count).

Definition rollback_backup_operations : M nat :=
    let! operations := gets backup_operations in
    let! reverted_count := fold_m rollback_one (rev operations) 0%nat in
    modify (set_backup_operations (fun _ => [])) ;;;
    ret reverted_count.

  (** [clear_processed_files()]; the set [processed_files] is never added
      to and is left out. *)
Definition clear_processed_files : M unit :=
    modify (set_backup_operations (fun _ => [])).

  (** [max(files, key=lambda f: f.size)] and [min(...)] from the first file
      on: the first of the largest, the first of the smallest. *)
Fixpoint max_by_size (best : FileInfo.t) (files : list FileInfo.t) : FileInfo.t :=
    match files with
    | [] => best
    | f :: files' =>
        max_by_size (if FileInfo.size best <? FileInfo.size f then f else best) files'
    end.

Fixpoint min_by_size (best : FileInfo.t) (files : list FileInfo.t) : FileInfo.t :=
    match files with
    | [] => best
    | f :: files' =>
        min_by_size (if FileInfo.size f <? FileInfo.size best then f else best) files'
    end.

  (** The dictionary [{'name': ..., 'size': ..., 'path': ...}]. *)
Record file_entry : Type := FileEntry {
    fe_name : string;
    fe_size : Z;
    fe_path : string
  }.

Definition entry_of (f : FileInfo.t) : file_entry :=
    FileEntry (FileInfo.name f) (FileInfo.size f) (FileInfo.path f).

  (** The dictionary [get_file_statistics] returns. *)
Record file_statistics : Type := FileStatistics {
    total_files : nat;
    total_size : Z;
    average_size : Z;
    extensions : gmap string nat;
    largest_file : option file_entry;
    smallest_file : option file_entry
  }.

  (** [extensions[ext] = extensions.get(ext, 0) + 1] *)
Definition count_extension (extensions : gmap string nat) (file_info : FileInfo.t)
    : gmap string nat :=
    let ext := if PyStr.truthy (FileInfo.extension file_info)
               then FileInfo.extension file_info else "sin_extension" in
    <[ext := S (default 0%nat (extensions !! ext))]> extensions.

Definition get_file_statistics (files : list FileInfo.t) : file_statistics :=
    match files with
    | [] => FileStatistics 0 0 0 ∅ None None
    | first :: others =>
        let total_size := fold_left (fun acc f => acc + FileInfo.size f) files 0 in
        let extensions := fold_left count_extension files ∅ in
        let largest := max_by_size first others in
        let smallest := min_by_size first others in
        FileStatistics (length files) total_size
                       (total_size / Z.of_nat (length files))
                       extensions
                       (Some (entry_of largest)) (Some (entry_of smallest))
    end.

End WithEnv.
End FileManager.

(** ** [compressor.py] *)

Module CompressionConfig.
  (** [file_filters = None] is the empty list: both stand for [["*"]]. *)
Record t : Type := mk {
    source_folder : string;
    backup_folder : string;
    naming_pattern : string;
    include_subfolders : bool;
    file_filters : list string;
    compression_level : Z;
    conflict_resolution : string;
    verify_integrity : bool;
    max_workers : Z;
    custom_pattern : string
  }.
End CompressionConfig.

Module CompressionResult.
  (** [execution_time] is wall-clock time and is left out. *)
Record t : Type := mk {
    success : bool;
    processed_files : nat;
    failed_files : nat;
    skipped_files : nat;
    total_size_saved : Z;
    errors : list string;
    session_id : string
  }.

Definition total_files (r : t) : nat :=
    (processed_files r + failed_files r + skipped_files r)%nat.
End CompressionResult.

(** The dictionary [_compress_single_file] returns, by its ['status']. *)
Inductive file_result : Type :=
| RSuccess (zip_path : Path) (original_size compressed_size size_saved : Z)
| RSkip (reason : string)
| RError (error : string).

(** The counters [_process_files] keeps in its local variables. *)
Record tally : Type := Tally {
  processed : nat;
  failed : nat;
  skipped : nat;
  total_saved : Z;
  errors : list string
}.

(** [_extract_invoice_number]: the five patterns, tried against the
    upper-cased name the way [re.search] tries them. *)
Module Invoice.

Definition is_upper (a : ascii) : bool :=
    let n := nat_of_ascii a in ((65 <=? n) && (n <=? 90))%nat.
Definition is_digit (a : ascii) : bool :=
    let n := nat_of_ascii a in ((48 <=? n) && (n <=? 57))%nat.

  (** Length of the longest prefix made of characters in the class. *)
Fixpoint span (cls : ascii -> bool) (s : string) : nat :=
    match s with
    | String a s' => if cls a then S (span cls s') else O
    | EmptyString => O
    end.

Definition starts_with (c : ascii) (s : string) : bool :=
    match s with String a _ => Ascii.eqb a c | EmptyString => false end.

  (** [[A-Z]{lo,hi}] followed by [rest], longest run of letters first. *)
Fixpoint letters_then (tries : list nat) (s : string)
           (rest : string -> option nat) : option nat :=
    match tries with
    | [] => None
    | k :: tries' =>
        if (k <=? span is_upper s)%nat then
          match rest (PyStr.drop k s) with
          | Some n => Some (k + n)%nat
          | None => letters_then tries' s rest
          end
        else letters_then tries' s rest
    end.

  (** [\d{lo,hi}] and [\d+] at the end of a pattern: as many as there are. *)
Definition digits_between (lo hi : nat) (s : string) : option nat :=
    let d := span is_digit s in
    if (lo <=? d)%nat then Some (Nat.min d hi) else None.

Definition digits_some (s : string) : option nat :=
    let d := span is_digit s in
    if (1 <=? d)%nat then Some d else None.

  (** A separator and then the digits. *)
Definition sep_then (c : ascii) (rest : string -> option nat) (s : string)
    : option nat :=
    if starts_with c s then
      match rest (PyStr.drop 1 s) with
      | Some n => Some (S n)
      | None => None
      end
    else None.

  (** [A-Z]+ gives back letters one at a time. *)
Definition all_runs (s : string) : list nat := rev (seq 1 (span is_upper s)).

Definition pattern1 (s : string) : option nat :=
    letters_then [4; 3]%nat s (digits_between 3 6).
Definition pattern2 (s : string) : option nat :=
    letters_then (all_runs s) s digits_some.
Definition pattern3 (s : string) : option nat := digits_between 3 6 s.
Definition pattern4 (s : string) : option nat :=
    letters_then [4; 3; 2]%nat s (sep_then "-"%char (digits_between 3 6)).
Definition pattern5 (s : string) : option nat :=
    letters_then (all_runs s) s (sep_then "_"%char digits_some).

  (** An anchored pattern matches at the start only. *)
Definition match_start (pat : string -> option nat) (s : string) : option string :=
    match pat s with
    | Some n => Some (PyStr.take n s)
    | None => None
    end.

  (** An unanchored one at the leftmost place where it does. *)
Fixpoint search (pat : string -> option nat) (s : string) : option string :=
    match pat s with
    | Some n => Some (PyStr.take n s)
    | None =>
        match s with
        | String _ s' => search pat s'
        | EmptyString => None
        end
    end.

Definition _extract_invoice_number (filename : string) : string :=
    let u := PyStr.upper filename in
    match match_start pattern1 u with
    | Some g => g
    | None =>
    match match_start pattern2 u with
    | Some g => g
    | None =>
    match match_start pattern3 u with
    | Some g => g
    | None =>
    match search pattern4 u with
    | Some g => g
    | None =>
    match search pattern5 u with
    | Some g => g
    | None => filename
    end end end end end.

End Invoice.

Module CompressorEngine.
Section WithEnv.

Context (E : Env).

Definition set_is_running (b : bool) (e : Engine) : Engine :=
    {| is_running := b; is_paused := is_paused e; should_stop := should_stop e;
       pause_event := pause_event e; progress_callback := progress_callback e;
       file_callback := file_callback e; last_session_stats := last_session_stats e;
       file_counter := file_counter e |}.
Definition set_is_paused (b : bool) (e : Engine) : Engine :=
    {| is_running := is_running e; is_paused := b; should_stop := should_stop e;
       pause_event := pause_event e; progress_callback := progress_callback e;
       file_callback := file_callback e; last_session_stats := last_session_stats e;
       file_counter := file_counter e |}.
Definition set_should_stop (b : bool) (e : Engine) : Engine :=
    {| is_running := is_running e; is_paused := is_paused e; should_stop := b;
       pause_event := pause_event e; progress_callback := progress_callback e;
       file_callback := file_callback e; last_session_stats := last_session_stats e;
       file_counter := file_counter e |}.
Definition set_pause_event (b : bool) (e : Engine) : Engine :=
    {| is_running := is_running e; is_paused := is_paused e; should_stop := should_stop e;
       pause_event := b; progress_callback := progress_callback e;
       file_callback := file_callback e; last_session_stats := last_session_stats e;
       file_counter := file_counter e |}.
Definition set_last_session_stats (s : option SessionStats.t) (e : Engine) : Engine :=
    {| is_running := is_running e; is_paused := is_paused e; should_stop := should_stop e;
       pause_event := pause_event e; progress_callback := progress_callback e;
       file_callback := file_callback e; last_session_stats := s;
       file_counter := file_counter e |}.
Definition set_file_counter (n : Z) (e : Engine) : Engine :=
    {| is_running := is_running e; is_paused := is_paused e; should_stop := should_stop e;
       pause_event := pause_event e; progress_callback := progress_callback e;
       file_callback := file_callback e; last_session_stats := last_session_stats e;
       file_counter := n |}.

Definition log_operation := @CustomLogger.log_operation.
Definition log_file_operation := CustomLogger.log_file_operation E.

  (** *** Control: [pause], [resume], [stop] *)

Definition pause : M unit :=
    let! running := gets (fun w => is_running (engine w)) in
    when running
      (modify (set_engine (set_is_paused true)) ;;;
       modify (set_engine (set_pause_event false)) ;;;
       log_operation "INFO" "Proceso pausado" None).

Definition resume : M unit :=
    let! running := gets (fun w => is_running (engine w)) in
    let! paused := gets (fun w => is_paused (engine w)) in
    when (running && paused)
      (modify (set_engine (set_is_paused false)) ;;;
       modify (set_engine (set_pause_event true)) ;;;
       log_operation "INFO" "Proceso reanudado" None).

Definition stop : M unit :=
    let! running := gets (fun w => is_running (engine w)) in
    when running
      (modify (set_engine (set_should_stop true)) ;;;
       modify (set_engine (set_pause_event true)) ;;;
       log_operation "INFO" "Deteniendo proceso..." None).

Definition deliver (s : signal) : M unit :=
    match s with
    | SigPause => pause
    | SigResume => resume
    | SigStop => stop
    end.

  (** The controlling thread's calls for this turn are taken off the script. *)
Definition next_slot : M slot :=
    fun w =>
      match script w with
      | [] => (Ret (Slot [] []), w)
      | s :: rest => (Ret s, set_script (fun _ => rest) w)
      end.

  (** [self._pause_event.wait()] *)
Definition wait_pause_event (s : slot) : M unit :=
    let! set := gets (fun w => pause_event (engine w)) in
    if set then ret tt
    else
      for_each (while_waiting s) deliver ;;;
      let! set := gets (fun w => pause_event (engine w)) in
      if set then ret tt else hang.

  (** *** Names *)

Definition lookup_pattern (k : string) : option string :=
    snd <$> List.find (fun kv => String.eqb (fst kv) k) (naming_patterns E).

  (** [patterns[k]] *)
Definition patterns_item (k : string) : M string :=
    match lookup_pattern k with
    | Some v => ret v
    | None => raise (KeyError k)
    end.

Definition variables (now : Clock) (base_name : string) (counter : Z)
             (file_info : FileInfo.t) : Fmt.kwargs :=
    [ ("fecha", VStr (fecha now));
      ("fecha_corta", VStr (fecha_corta now));
      ("hora", VStr (hora now));
      ("timestamp", VStr (timestamp now));
      ("nombre_original", VStr base_name);
      ("contador", VInt counter);
      ("extension_original", VStr (FileInfo.extension file_info));
      ("numero_factura", VStr (Invoice._extract_invoice_number base_name)) ].

Definition _generate_zip_name (file_info : FileInfo.t) (config : CompressionConfig.t)
    : M string :=
    let base_name := PyPath.stem (FileInfo.path file_info) in
    let! pattern :=
      (if String.eqb (CompressionConfig.naming_pattern config) "personalizado"
          && PyStr.truthy (CompressionConfig.custom_pattern config)
       then ret (CompressionConfig.custom_pattern config)
       else
         (* the default is looked up before [get] is called *)
         let! dflt := patterns_item "fecha_archivo" in
         ret (default dflt (lookup_pattern (CompressionConfig.naming_pattern config)))) in
    let now := now E in
    let! counter := gets (fun w => file_counter (engine w)) in
    let variables := variables now base_name counter file_info in
    let! zip_name :=
      try_except
        (let! zip_name := lift (Fmt.format (formatter E) pattern variables) in
         modify (set_engine (fun e => set_file_counter (file_counter e + 1) e)) ;;;
         ret zip_name)
        (fun e =>
           match e with
           | KeyError _ =>
               log_operation "WARNING"
                 ("Error en patrón de nomenclatura: " ++ exn_str e) None ;;;
               ret (fecha now ++ "_" ++ base_name)
           | _ => raise e
           end) in
    ret (zip_name ++ ".zip").

  (** *** One file *)

Definition _verify_zip_integrity (zip_path : Path) (original_file : FileInfo.t)
    : M bool :=
    try_except
      (let! zipf := Zip.open_r zip_path in
       let bad_file := Zip.testzip zipf in
       if match bad_file with Some nm => PyStr.truthy nm | None => false end
       then ret false
       else
         let names := Zip.namelist zipf in
         if negb (bool_decide (FileInfo.name original_file ∈ names)) then ret false
         else
           let! info := lift (Zip.getinfo (FileInfo.name original_file) zipf) in
           if negb (e_size info =? FileInfo.size original_file) then ret false
           else ret true)
      (fun _ => ret false).

Definition call_file_callback (operation filename status : string) : M unit :=
    let! registered := gets (fun w => file_callback (engine w)) in
    when registered
      (modify (set_ui (fun l => py_append l (FileStatus operation filename status)))).

  (** The head of [_compress_single_file]: the name, and what to do when the
      archive is there already.  [None] is the skip. *)
Definition resolve_zip_path (file_info : FileInfo.t) (config : CompressionConfig.t)
    : M (option Path) :=
    let! zip_name := _generate_zip_name file_info config in
    let zip_path := PyPath.join (PyPath.parent (FileInfo.path file_info)) zip_name in
    let! ex := Os.exists_ zip_path in
    if ex then
      let! conflict_res :=
        lift (ConflictResolution.of_value
                (CompressionConfig.conflict_resolution config)) in
      match conflict_res with
      | ConflictResolution.SKIP =>
          log_file_operation "compress" (FileInfo.path file_info) "skip" 0 0
                             (Some "Archivo ZIP ya existe") ;;;
          ret None
      | ConflictResolution.RENAME =>
          let! p := FileManager._generate_unique_name E zip_path in ret (Some p)
      | _ => ret (Some zip_path)
      end
    else ret (Some zip_path).

Definition integrity_error_msg : string := "Verificación de integridad falló".

  (** Its body from the creation of the archive on, for the path settled on. *)
Definition write_archive (file_info : FileInfo.t) (config : CompressionConfig.t)
             (zip_path : Path) : M file_result :=
    let original_size := FileInfo.size file_info in
    Zip.write_file E zip_path (CompressionConfig.compression_level config)
                   (FileInfo.path file_info) (FileInfo.name file_info) ;;;
    let! verified :=
      (if CompressionConfig.verify_integrity config
       then _verify_zip_integrity zip_path file_info
       else ret true) in
    if negb verified then
      Os.unlink zip_path ;;;
      let error_msg := integrity_error_msg in
      log_file_operation "compress" (FileInfo.path file_info) "error" 0 0
                         (Some error_msg) ;;;
      ret (RError error_msg)
    else
      let! compressed_size := Os.stat_size zip_path in
      let size_saved := original_size - compressed_size in
      log_file_operation "compress" (FileInfo.path file_info) "success"
                         original_size compressed_size None ;;;
      call_file_callback "compress" (FileInfo.name file_info) "success" ;;;
      ret (RSuccess zip_path original_size compressed_size size_saved).

  (** The [except Exception as e] of [_compress_single_file]. *)
Definition compress_failed (file_info : FileInfo.t) (e : exn) : M file_result :=
    let error_msg := exn_str e in
    log_file_operation "compress" (FileInfo.path file_info) "error" 0 0
                       (Some error_msg) ;;;
    call_file_callback "compress" (FileInfo.name file_info) "error" ;;;
    ret (RError error_msg).

Definition _compress_single_file (file_info : FileInfo.t)
             (config : CompressionConfig.t) : M file_result :=
    try_except
      (let! target := resolve_zip_path file_info config in
       match target with
       | None => ret (RSkip "ZIP ya existe")
       | Some zip_path => write_archive file_info config zip_path
       end)
      (compress_failed file_info).

  (** *** The run *)

Definition _validate_config (config : CompressionConfig.t) : M (list string) :=
    let errors : list string := [] in
    let source_path := CompressionConfig.source_folder config in
    let! ex := Os.exists_ source_path in
    let! isd := Os.is_dir source_path in
    let errors :=
      if negb ex then
        py_append errors ("Carpeta origen no existe: " ++ source_path)
      else if negb isd then
        py_append errors ("La ruta origen no es un directorio: " ++ source_path)
      else errors in
    let! readable := FileManager.validate_permissions_readable source_path in
    let errors :=
      if negb readable
      then py_append errors ("Sin permisos de lectura en carpeta origen")
      else errors in
    let level := CompressionConfig.compression_level config in
    let errors :=
      if negb ((0 <=? level) && (level <=? 9))
      then py_append errors ("Nivel de compresión debe estar entre 0 y 9")
      else errors in
    let naming_pattern := CompressionConfig.naming_pattern config in
    let errors :=
      if negb (bool_decide (is_Some (lookup_pattern naming_pattern)))
         && negb (String.eqb naming_pattern "personalizado")
      then py_append errors ("Patrón de nomenclatura inválido: " ++ naming_pattern)
      else errors in
    ret errors.

Definition call_progress_callback (current total : nat) (current_file : string)
    : M unit :=
    let! registered := gets (fun w => progress_callback (engine w)) in
    when registered
      (modify (set_ui (fun l => py_append l (Progress current total current_file)))).

  (** The [except Exception as e] of the loop body.  The counters are local
      variables updated in place, so [t] is what they hold when the exception
      is raised. *)
Definition on_exception (file_info : FileInfo.t) (t : tally) (e : exn) : M tally :=
    let error_msg :=
      "Error procesando " ++ FileInfo.name file_info ++ ": " ++ exn_str e in
    log_file_operation "compress" (FileInfo.path file_info) "error" 0 0
                       (Some error_msg) ;;;
    ret (Tally (processed t) (S (failed t)) (skipped t) (total_saved t)
               (py_append (errors t) error_msg)).

  (** The [try] of the loop body for one file. *)
Definition process_one (file_info : FileInfo.t) (config : CompressionConfig.t)
             (t : tally) : M tally :=
    try_except
      (let! result := _compress_single_file file_info config in
       match result with
       | RSuccess _ _ _ size_saved =>
           let t1 := Tally (S (processed t)) (failed t) (skipped t)
                           (total_saved t + size_saved) (errors t) in
           try_except
             (let backup_path := CompressionConfig.backup_folder config in
              let! conflict_res :=
                lift (ConflictResolution.of_value
                        (CompressionConfig.conflict_resolution config)) in
              let! moved_path :=
                FileManager.move_to_backup E (FileInfo.path file_info) backup_path
                                           conflict_res in
              match moved_path with
              | None =>
                  log_operation "WARNING"
                    ("No se pudo mover a respaldo: " ++ FileInfo.name file_info) None ;;;
                  ret t1
              | Some _ => ret t1
              end)
             (on_exception file_info t1)
       | RError error =>
           ret (Tally (processed t) (S (failed t)) (skipped t) (total_saved t)
                      (py_append (errors t) error))
       | RSkip _ =>
           ret (Tally (processed t) (failed t) (S (skipped t)) (total_saved t)
                      (errors t))
       end)
      (on_exception file_info t).

  (** [for i, file_info in enumerate(files)], from index [i] on. *)
Fixpoint process_loop (i total_files : nat) (files : list FileInfo.t)
           (config : CompressionConfig.t) (t : tally) : M tally :=
    match files with
    | [] => ret t
    | file_info :: rest =>
        let! s := next_slot in
        for_each (before_check s) deliver ;;;
        let! stopping := gets (fun w => should_stop (engine w)) in
        if stopping then
          log_operation "INFO" "Proceso detenido por el usuario" None ;;;
          ret t
        else
          wait_pause_event s ;;;
          call_progress_callback (i + 1) total_files (FileInfo.name file_info) ;;;
          let! t' := process_one file_info config t in
          process_loop (S i) total_files rest config t'
    end.

Definition _process_files (files : list FileInfo.t) (config : CompressionConfig.t)
    : M CompressionResult.t :=
    let total_files := length files in
    let! t := process_loop 0 total_files files config (Tally 0 0 0 0 []) in
    let total_processed := (processed t + failed t + skipped t)%nat in
    when (negb (total_processed =? total_files)%nat)
      (log_operation "WARNING"
         ("Discrepancia en conteo: " ++ PyStr.of_nat total_processed
          ++ " procesados vs " ++ PyStr.of_nat total_files ++ " encontrados") None) ;;;
    ret (CompressionResult.mk (failed t =? 0)%nat (processed t) (failed t) (skipped t)
                              (total_saved t) (errors t) "").

Definition failed_result (errors : list string) (session_id : string)
    : CompressionResult.t :=
    CompressionResult.mk false 0 0 0 0 errors session_id.

(** The end of the [try] block: the session id is put on the result of
    [_process_files] and the summary is logged. *)
Definition report (session_id : string) (result : CompressionResult.t)
  : M CompressionResult.t :=
    let result :=
      CompressionResult.mk
        (CompressionResult.success result)
        (CompressionResult.processed_files result)
        (CompressionResult.failed_files result)
        (CompressionResult.skipped_files result)
        (CompressionResult.total_size_saved result)
        (CompressionResult.errors result) session_id in
    log_operation "INFO"
      ("Proceso completado: "
       ++ PyStr.of_nat (CompressionResult.processed_files result)
       ++ " éxitos, "
       ++ PyStr.of_nat (CompressionResult.failed_files result)
       ++ " errores") None ;;;
    ret result.

(** The [try] block of [compress_files]. *)
Definition run_session (config : CompressionConfig.t) (session_id : string)
  : M CompressionResult.t :=
    let! validation_errors := _validate_config config in
    match validation_errors with
    | _ :: _ =>
        let error_msg := PyStr.join "; " validation_errors in
        log_operation "ERROR" ("Configuración inválida: " ++ error_msg) None ;;;
        ret (failed_result validation_errors session_id)
    | [] =>
        let source_path := CompressionConfig.source_folder config in
        log_operation "INFO" ("Escaneando directorio: " ++ source_path) None ;;;
        let! files :=
          FileManager.scan_directory E source_path
            (CompressionConfig.include_subfolders config)
            (CompressionConfig.file_filters config) in
        match files with
        | [] =>
            log_operation "WARNING" "No se encontraron archivos para procesar" None ;;;
            ret (CompressionResult.mk true 0 0 0 0 [] session_id)
        | _ :: _ =>
            CustomLogger.update_session_stats_total_files (length files) ;;;
            log_operation "INFO"
              ("Encontrados " ++ PyStr.of_nat (length files) ++ " archivos en "
               ++ CompressionConfig.source_folder config) None ;;;
            let backup_path := CompressionConfig.backup_folder config in
            let! created := FileManager.create_backup_folder backup_path in
            if negb created then
              let error_msg :=
                "No se pudo crear carpeta de respaldo: " ++ backup_path in
              log_operation "ERROR" error_msg None ;;;
              ret (failed_result [error_msg] session_id)
            else
              let! result := _process_files files config in
              report session_id result
        end
    end.

(** Its [except Exception as e]. *)
Definition critical_failure (session_id : string) (e : exn) : M CompressionResult.t :=
    let error_msg := "Error crítico en el proceso de compresión: " ++ exn_str e in
    log_operation "ERROR" error_msg None ;;;
    ret (failed_result [error_msg] session_id).

(** Its [finally]. *)
Definition finish_session : M unit :=
    modify (set_engine (set_is_running false)) ;;;
    let! session_stats := CustomLogger.end_session in
    modify (set_engine (set_last_session_stats session_stats)).

(** What [compress_files] sets before anything else. *)
Definition reset_run (w : World) : World :=
    set_engine (set_file_counter 1)
      (set_engine (set_should_stop false) (set_engine (set_is_running true) w)).

Definition compress_files (config : CompressionConfig.t) : M CompressionResult.t :=
    modify (set_engine (set_is_running true)) ;;;
    modify (set_engine (set_should_stop false)) ;;;
    modify (set_engine (set_file_counter 1)) ;;;
    let! session_id := CustomLogger.start_session E in
    try_finally
      (try_except (run_session config session_id) (critical_failure session_id))
      finish_session.

End WithEnv.
End CompressorEngine.

(** * Vocabulary of the properties *)


(** ** Reasoning about computations *)

(** [m] leaves the part [f] of the world as it found it. *)
Definition preserves {A X} (f : World -> X) (m : M A) : Prop :=
  forall w, f (snd (m w)) = f w.

(** [m] never blocks; [m] always returns a value. *)
Definition no_hang {A} (m : M A) : Prop := forall w, fst (m w) <> Hang.
Definition total {A} (m : M A) : Prop := forall w, exists a, fst (m w) = Ret a.

(** What [m] returns and what it does to the files depend on the files only. *)
Definition fs_only {A} (m : M A) : Prop :=
  forall w1 w2, fs w1 = fs w2 ->
    fst (m w1) = fst (m w2) /\ fs (snd (m w1)) = fs (snd (m w2)).

(** ** Renaming on a conflict *)

(** The [n]-th name the renaming loop tries for [file_path], and the name it
    falls back on. *)
Definition candidate (file_path : Path) (n : Z) : Path :=
  PyPath.join (PyPath.parent file_path)
    (PyPath.stem file_path ++ "_" ++ PyStr.of_Z n ++ PyPath.suffix file_path).

Definition timestamp_name (E : Env) (file_path : Path) : Path :=
  PyPath.join (PyPath.parent file_path)
    (PyPath.stem file_path ++ "_" ++ timestamp (now E) ++ PyPath.suffix file_path).

Definition present (w : World) (p : Path) : Prop := is_Some (fs w !! p).

(** [p] is the first candidate from [from] up to 9999 that is free, or the
    time-stamped name when none of them is. *)
Definition unique_name_result (E : Env) (w : World) (file_path : Path)
           (from : Z) (p : Path) : Prop :=
  (exists n, from <= n <= 9999
             /\ ~ present w (candidate file_path n)
             /\ (forall k, from <= k < n -> present w (candidate file_path k))
             /\ p = candidate file_path n)
  \/ ((forall k, from <= k <= 9999 -> present w (candidate file_path k))
      /\ p = timestamp_name E file_path).

(** ** A sample installation

    A source folder with two invoices, the default patterns, and an engine
    that has not run yet. *)

Module Sample.

Definition plain_formatter : Formatter :=
  {| format_spec := fun _ _ => Err (ValueError "Invalid format specifier");
     py_repr := py_str;
     py_ascii := py_str;
     field_path := fun _ p => Err (OtherError ("no such attribute or index: " ++ p)) |}.

Definition clock : Clock :=
  {| fecha := "2024-03-05"; fecha_corta := "20240305";
     hora := "10-11-12"; timestamp := "20240305_101112" |}.

Definition env : Env :=
  {| now := clock;
     naming_patterns :=
       [ ("fecha_archivo", "{fecha}_{nombre_original}");
         ("archivo_fecha", "{nombre_original}_{fecha}");
         ("contador_archivo", "{contador}_{nombre_original}");
         ("timestamp_archivo", "{timestamp}_{nombre_original}");
         ("nombre_original", "{nombre_original}");
         ("personalizado", "{fecha_archivo}") ];
     formatter := plain_formatter;
     fnmatch := fun _ _ => true;
     deflated_size := fun _ _ sz => sz / 2 + 122;
     bad_media := fun _ => false;
     ratio_text := fun _ _ => "50.0" |}.

Definition fresh_engine : Engine :=
  {| is_running := false; is_paused := false; should_stop := false;
     pause_event := true; progress_callback := true; file_callback := true;
     last_session_stats := None; file_counter := 1 |}.

Definition fresh_logger : Logger :=
  {| log_queue := []; current_session := None; sessions_history := [] |}.

Definition world_of (files : list (string * node)) : World :=
  {| fs := list_to_map files; logger := fresh_logger; engine := fresh_engine;
     backup_operations := []; ui := []; script := [] |}.

Definition invoices : list (string * node) :=
  [ ("", NDir true true);
    ("src", NDir true true);
    ("src/A.pdf", NFile 1000 true true None);
    ("src/B.pdf", NFile 2000 true true None) ].

Definition world : World := world_of invoices.

Definition config : CompressionConfig.t :=
  CompressionConfig.mk "src" "respaldo" "contador_archivo" false [] 6 "rename" true 4 "".

(** The backup folder already holds two files called like [A.pdf]. *)
Definition crowded_backup : World :=
  world_of (invoices ++
            [ ("respaldo", NDir true true);
              ("respaldo/A.pdf", NFile 10 true true None);
              ("respaldo/A_1.pdf", NFile 10 true true None) ])%list.

End Sample.

(** ** Naming *)

(** The template [_generate_zip_name] formats: the custom one when the
    pattern is ["personalizado"] and the custom string is not empty, else the
    configured one with ["fecha_archivo"] for a default. *)
Definition chosen_pattern (E : Env) (config : CompressionConfig.t) : result string :=
  if String.eqb (CompressionConfig.naming_pattern config) "personalizado"
     && PyStr.truthy (CompressionConfig.custom_pattern config)
  then Ok (CompressionConfig.custom_pattern config)
  else
    match CompressorEngine.lookup_pattern E "fecha_archivo" with
    | None => Err (KeyError "fecha_archivo")
    | Some dflt =>
        Ok (default dflt
              (CompressorEngine.lookup_pattern E (CompressionConfig.naming_pattern config)))
    end.

(** The template applied to the file with the counter at [counter]. *)
Definition rendered (E : Env) (file_info : FileInfo.t) (pattern : string)
           (counter : Z) : result string :=
  Fmt.format (formatter E) pattern
    (CompressorEngine.variables (now E) (PyPath.stem (FileInfo.path file_info))
                                counter file_info).

Definition fallback_name (E : Env) (file_info : FileInfo.t) : string :=
  fecha (now E) ++ "_" ++ PyPath.stem (FileInfo.path file_info).

Definition counter_of (w : World) : Z := file_counter (engine w).

Definition bump_counter (w : World) : World :=
  set_engine (fun e => CompressorEngine.set_file_counter (file_counter e + 1) e) w.

Definition warn_pattern (e : exn) (w : World) : World :=
  set_logger (CustomLogger.set_queue (fun q =>
    py_append q (LogRecord "WARNING"
                   ("Error en patrón de nomenclatura: " ++ exn_str e) None))) w.

(** The custom template of the sample that closes a brace too many. *)
Definition Sample_stray_brace : CompressionConfig.t :=
  CompressionConfig.mk "src" "respaldo" "personalizado" false [] 6 "rename" true 4
                       "{fecha}}".

Definition Sample_file_A : FileInfo.t :=
  FileInfo.mk "src/A.pdf" "A.pdf" 1000 ".pdf" true true.

(** ** The run *)

(** [m] changes the part [f] of the world exactly as [m0] does. *)
Definition changes_like {A B X} (f : World -> X) (m : M A) (m0 : M B) : Prop :=
  forall w, f (snd (m w)) = f (snd (m0 w)).

(** The controlling thread never calls [stop]. *)
Definition quiet (s : slot) : Prop :=
  (SigStop ∉ before_check s) /\ (SigStop ∉ while_waiting s).

Definition never_stopped (w : World) : Prop :=
  should_stop (engine w) = false /\ Forall quiet (script w).

Definition tally_sum (t : tally) : nat := (processed t + failed t + skipped t)%nat.

(** What stays the same from the top of a turn to the call that processes
    the file. *)
Definition kept (w : World) :=
  (counter_of w, fs w, backup_operations w, should_stop (engine w)).

Definition turn_frame (w w1 : World) : Prop :=
  kept w1 = kept w /\ script w1 = tail (script w).

(** ** The counter in the names *)



Definition Sample_file_B : FileInfo.t :=
  FileInfo.mk "src/B.pdf" "B.pdf" 2000 ".pdf" true true.

Definition Sample_files : list FileInfo.t := [Sample_file_A; Sample_file_B].

(** Everything but the logger. *)
Definition beside_logger (w : World) :=
  (fs w, engine w, backup_operations w, ui w, script w).

(** The backup folder is made or not; the rest is logging. *)
Definition beside_logger_fs (w : World) :=
  (engine w, backup_operations w, ui w, script w).

(** ** The counts *)

Definition empty_tally : tally := Tally 0 0 0 0 [].

(** At every point between two files the three counters add up to the
    number of files gone through: the loop up to the [k]-th file is a stage
    of the loop over all, and it ends with a sum of [k]. *)
Definition running_counts (E : Env) (cfg : CompressionConfig.t)
           (files : list FileInfo.t) : Prop :=
  forall w n k,
    never_stopped w -> (k <= length files)%nat ->
    CompressorEngine.process_loop E 0 n files cfg empty_tally w
    = bind (CompressorEngine.process_loop E 0 n (take k files) cfg empty_tally)
           (fun t_k => CompressorEngine.process_loop E k n (drop k files) cfg t_k) w
    /\ forall t_k w_k,
        CompressorEngine.process_loop E 0 n (take k files) cfg empty_tally w
        = (Ret t_k, w_k) ->
        tally_sum t_k = k.

(** A run in which every prior state of the engine is overwritten. *)
Definition with_counter (c : Z) (w : World) : World :=
  set_engine (CompressorEngine.set_file_counter c) w.

Definition with_is_running (b : bool) (w : World) : World :=
  set_engine (CompressorEngine.set_is_running b) w.

(** ** Starting a run *)

(** The claim that a start on a running engine is turned down: it raises, or
    it returns a failure and leaves the files alone. *)
Definition second_start_rejected (E : Env) (cfg : CompressionConfig.t) (w : World)
  : Prop :=
  is_running (engine w) = true ->
  (exists e w', CompressorEngine.compress_files E cfg w = (Raise e, w'))
  \/ (exists r w', CompressorEngine.compress_files E cfg w = (Ret r, w')
                   /\ CompressionResult.success r = false
                   /\ fs w' = fs w).

(** An engine in the middle of a run over the sample. *)
Definition Sample_running : World := with_is_running true Sample.world.

(** The sample with nothing in the source folder. *)
Definition Sample_empty : World :=
  Sample.world_of [ ("", NDir true true); ("src", NDir true true) ].

(** ** Validation *)

(** What [_validate_config] asks for: the source is a readable directory,
    the level is between 0 and 9, and the pattern is a configured one or
    ["personalizado"]. *)
Definition validated (E : Env) (cfg : CompressionConfig.t) (w : World) : Prop :=
  (exists wr, fs w !! CompressionConfig.source_folder cfg = Some (NDir true wr))
  /\ 0 <= CompressionConfig.compression_level cfg <= 9
  /\ (is_Some (CompressorEngine.lookup_pattern E (CompressionConfig.naming_pattern cfg))
      \/ CompressionConfig.naming_pattern cfg = "personalizado").

(** Validity in the words of the specification: as above, with a custom
    pattern asked to be non-empty and the backup root asked to be creatable. *)
Definition spec_valid (E : Env) (cfg : CompressionConfig.t) (w : World) : Prop :=
  (exists wr, fs w !! CompressionConfig.source_folder cfg = Some (NDir true wr))
  /\ 0 <= CompressionConfig.compression_level cfg <= 9
  /\ (is_Some (CompressorEngine.lookup_pattern E (CompressionConfig.naming_pattern cfg))
      \/ (CompressionConfig.naming_pattern cfg = "personalizado"
          /\ CompressionConfig.custom_pattern cfg <> ""))
  /\ fst (FileManager.create_backup_folder (CompressionConfig.backup_folder cfg) w)
     = Ret true.

(** The run is a failure that touched nothing. *)
Definition fails_untouched (E : Env) (cfg : CompressionConfig.t) (w : World) : Prop :=
  exists r w',
    CompressorEngine.compress_files E cfg w = (Ret r, w')
    /\ CompressionResult.success r = false
    /\ CompressionResult.total_files r = 0%nat
    /\ fs w' = fs w.

(** Between two states of the file system nothing was removed or replaced;
    at most directories were made. *)
Definition only_new_dirs (m m' : gmap string node) : Prop :=
  forall q, m' !! q = m !! q \/ (m !! q = None /\ m' !! q = Some (NDir true true)).

(** The two ways a run ends before the loop: the validation finds errors, or
    it passes, files are found, and the backup folder cannot be made. *)
Definition refused (E : Env) (cfg : CompressionConfig.t) (w : World)
           (errs : list string) : Prop :=
  (~ validated E cfg w
   /\ fst (CompressorEngine._validate_config E cfg w) = Ret errs)
  \/ (validated E cfg w
      /\ (exists files,
             files <> []
             /\ fst (FileManager.scan_directory E (CompressionConfig.source_folder cfg)
                       (CompressionConfig.include_subfolders cfg)
                       (CompressionConfig.file_filters cfg) w) = Ret files)
      /\ fst (FileManager.create_backup_folder (CompressionConfig.backup_folder cfg) w)
         = Ret false
      /\ errs = ["No se pudo crear carpeta de respaldo: "
                 ++ CompressionConfig.backup_folder cfg]).

(** The sample with an empty source folder and a file where the backup
    folder should go. *)
Definition Sample_blocked_backup : World :=
  Sample.world_of [ ("", NDir true true); ("src", NDir true true);
                    ("respaldo", NFile 5 true true None) ].

Definition Sample_bad_level : CompressionConfig.t :=
  CompressionConfig.mk "src" "respaldo" "contador_archivo" false [] 12 "rename" true 4 "".

(** ** Relocation *)

(** The sample with the backup folder holding a file called like [A.pdf],
    and the policy that skips on a conflict. *)
Definition Sample_backup_taken : World :=
  Sample.world_of (Sample.invoices ++
                   [ ("respaldo", NDir true true);
                     ("respaldo/A.pdf", NFile 10 true true None) ])%list.

Definition Sample_skip : CompressionConfig.t :=
  CompressionConfig.mk "src" "respaldo" "contador_archivo" false [] 6 "skip" true 4 "".

(** The world after [A.pdf] of the sample was compressed, and after the
    attempt to move it that followed. *)
Definition Sample_after_compress : World :=
  snd (CompressorEngine._compress_single_file Sample.env Sample_file_A Sample_skip
         Sample_backup_taken).

Definition Sample_after_move : World :=
  snd (FileManager.move_to_backup Sample.env "src/A.pdf" "respaldo"
         ConflictResolution.SKIP Sample_after_compress).

(** Between two states of the file system the file at [p] stayed where it
    was; any other path holds what it held, or a directory that was made, or
    a copy of the file at [p], which may stand where another file stood. *)
Definition source_kept (p : Path) (m m' : gmap string node) : Prop :=
  m' !! p = m !! p
  /\ forall q, m' !! q = m !! q
               \/ (m !! q = None /\ m' !! q = Some (NDir true true))
               \/ (q <> p /\ m' !! q = m !! p).

(** What [process_one] comes to when the archive was made, at [zp] in the
    world [w1], and the original could not be moved. *)
Definition counted_processed_with_warning (E : Env) (f : FileInfo.t)
           (cfg : CompressionConfig.t) (t : tally) (w w1 : World) (zp : Path) : Prop :=
  exists t' w',
    CompressorEngine.process_one E f cfg t w = (Ret t', w')
    /\ processed t' = S (processed t)
    /\ failed t' = failed t
    /\ skipped t' = skipped t
    /\ errors t' = errors t
    /\ last (log_queue (logger w'))
       = Some (LogRecord "WARNING"
                 ("No se pudo mover a respaldo: " ++ FileInfo.name f) None)
    /\ (exists sz r wr e, fs w1 !! zp = Some (NFile sz r wr (Some [e])))
    /\ source_kept (FileInfo.path f) (fs w1) (fs w')
    /\ backup_operations w' = backup_operations w1.

(** A source folder that cannot be written, which holds [A.pdf] and, from
    an earlier run, its archive; the backup folder is in place. *)
Definition Sample_read_only_source : World :=
  Sample.world_of [ ("", NDir true true);
                    ("src", NDir true false);
                    ("src/A.pdf", NFile 1000 true true None);
                    ("src/A.zip", NFile 5 true true None);
                    ("respaldo", NDir true true) ].

Definition Sample_in_place : CompressionConfig.t :=
  CompressionConfig.mk "src" "respaldo" "nombre_original" false [] 6 "overwrite" true 4 "".

(** ** An archive among the sources *)

(** A source folder that holds a zip file, named by the pattern that keeps
    the original name, under the policy that overwrites. *)
Definition Sample_zip_source : World :=
  Sample.world_of [ ("", NDir true true);
                    ("src", NDir true true);
                    ("src/report.zip",
                     NFile 100 true true (Some [ZEntry "report.txt" 300 true])) ].

Definition Sample_overwrite : CompressionConfig.t :=
  CompressionConfig.mk "src" "respaldo" "nombre_original" false [] 6 "overwrite" true 4 "".

Definition Sample_empty_custom : CompressionConfig.t :=
  CompressionConfig.mk "src" "respaldo" "personalizado" false [] 6 "rename" true 4 "".

(** ** Runs that are not paused *)

(** The controlling thread never calls [pause], and the engine is not
    waiting to be resumed. *)
Definition unpaused (s : slot) : Prop := SigPause ∉ before_check s.

Definition never_paused (w : World) : Prop :=
  pause_event (engine w) = true /\ Forall unpaused (script w).

Definition pause_state (w : World) := (pause_event (engine w), script w).

(** From a world that is not paused [m] does not block, and it leaves one
    that is not paused. *)
Definition stays_unpaused {A} (m : M A) : Prop :=
  forall w, never_paused w -> fst (m w) <> Hang /\ never_paused (snd (m w)).

(** * More of the engine and of the file manager *)

(** ** Computations under a condition on the world *)

(** From a world where [P] holds, [m] returns a value of which [Q] holds or
    raises an exception of which [R] holds; a blocked [m] is not
    constrained. *)
Definition triple {A} (P : World -> Prop) (m : M A)
           (Q : A -> World -> Prop) (R : exn -> World -> Prop) : Prop :=
  forall w, P w ->
    match m w with
    | (Ret a, w') => Q a w'
    | (Raise e, w') => R e w'
    | (Hang, _) => True
    end.

Definition no_raise {A} (m : M A) : Prop := forall w e, fst (m w) <> Raise e.

Definition never {A} : A -> World -> Prop := fun _ _ => False.

(** ** The session of a run *)

Definition session_of (w : World) : option SessionStats.t :=
  current_session (logger w).

(** The open session is the one called [sid], and its counters are those
    of [t]. *)
Definition session_agrees (sid : string) (t : tally)
           (c : option SessionStats.t) : Prop :=
  exists s, c = Some s
    /\ SessionStats.session_id s = sid
    /\ SessionStats.processed_files s = processed t
    /\ SessionStats.failed_files s = failed t
    /\ SessionStats.skipped_files s = skipped t
    /\ SessionStats.total_original_size s - SessionStats.total_compressed_size s
       = total_saved t.

Definition agree (sid : string) (t : tally) (w : World) : Prop :=
  session_agrees sid t (session_of w).

(** The counters of a file's outcome added to those of [t]. *)
Definition bump (r : file_result) (t : tally) : tally :=
  match r with
  | RSuccess _ _ _ size_saved =>
      Tally (S (processed t)) (failed t) (skipped t) (total_saved t + size_saved)
            (errors t)
  | RError error =>
      Tally (processed t) (S (failed t)) (skipped t) (total_saved t)
            (py_append (errors t) error)
  | RSkip _ =>
      Tally (processed t) (failed t) (S (skipped t)) (total_saved t) (errors t)
  end.

Definition tally_of (r : CompressionResult.t) : tally :=
  Tally (CompressionResult.processed_files r) (CompressionResult.failed_files r)
        (CompressionResult.skipped_files r) (CompressionResult.total_size_saved r)
        (CompressionResult.errors r).

(** What a run that returned [r] leaves: the engine idle, no session open,
    and the session of the run closed, kept as the last of the history and
    as the engine's last statistics. *)
Definition run_closed (r : CompressionResult.t) (w' : World) : Prop :=
  is_running (engine w') = false
  /\ current_session (logger w') = None
  /\ exists s,
       last_session_stats (engine w') = Some s
       /\ last (sessions_history (logger w')) = Some s
       /\ SessionStats.ended s = true
       /\ SessionStats.session_id s = CompressionResult.session_id r.

(** The statistics the engine keeps of its last run are the counters of the
    result. *)
Definition stats_match (r : CompressionResult.t) (w' : World) : Prop :=
  exists s,
    last_session_stats (engine w') = Some s
    /\ SessionStats.processed_files s = CompressionResult.processed_files r
    /\ SessionStats.failed_files s = CompressionResult.failed_files r
    /\ SessionStats.skipped_files s = CompressionResult.skipped_files r
    /\ SessionStats.total_original_size s - SessionStats.total_compressed_size s
       = CompressionResult.total_size_saved r.

(** ** Stopping and pausing *)

(** The loop was told to stop before the turn: nothing was done to the
    files, the counters are as they were, and the stop is logged. *)
Definition stopped_at (t t' : tally) (w w' : World) : Prop :=
  t' = t
  /\ fs w' = fs w
  /\ backup_operations w' = backup_operations w
  /\ counter_of w' = counter_of w
  /\ should_stop (engine w') = true
  /\ last (log_queue (logger w'))
     = Some (LogRecord "INFO" "Proceso detenido por el usuario" None).

(** The sample with a stop requested before the first file is looked at. *)
Definition Sample_stop_first : World :=
  set_script (fun _ => [Slot [SigStop] []]) Sample.world.

(** The sample with a pause left pending by an earlier run. *)
Definition Sample_pause_pending : World :=
  set_engine (CompressorEngine.set_pause_event false)
    (set_engine (CompressorEngine.set_is_paused true) Sample.world).

(** The sample in the middle of a run. *)
Definition Sample_mid_run : World :=
  set_engine (CompressorEngine.set_is_running true) Sample.world.

(** The control calls one after the other. *)
Definition pause_end_resume : M unit :=
  CompressorEngine.pause ;;; CompressorEngine.finish_session ;;; CompressorEngine.resume.

Definition pause_resume : M unit :=
  CompressorEngine.pause ;;; CompressorEngine.resume.

(** ** The backup folder *)

Definition writable_dir (m : gmap string node) (p : Path) : Prop :=
  exists r, m !! p = Some (NDir r true).

(** What a call of [create_backup_folder] comes to. *)
Definition backup_folder_made (p : Path) (w : World) (created : bool) (w' : World)
  : Prop :=
  (created = true <-> writable_dir (fs w') p)
  /\ only_new_dirs (fs w) (fs w')
  /\ (created = false -> fs w' = fs w)
  /\ beside_logger_fs w' = beside_logger_fs w.

(** ** Relocation and its undoing *)

(** Where [move_to_backup] first means to put the file. *)
Definition backup_target (backup_folder file_path : Path) : Path :=
  PyPath.join backup_folder (PyPath.name file_path).

(** The world after [A.pdf] of the sample was moved to the crowded backup
    folder under the renaming policy. *)
Definition Sample_moved : World :=
  snd (FileManager.move_to_backup Sample.env "src/A.pdf" "respaldo"
         ConflictResolution.RENAME Sample.crowded_backup).

(** ** The scan *)

(** [f] is what [FileInfo.from_path] reads of a regular file that can be
    read. *)
Definition describes (m : gmap string node) (f : FileInfo.t) : Prop :=
  exists sz wr z,
    m !! FileInfo.path f = Some (NFile sz true wr z)
    /\ f = FileInfo.mk (FileInfo.path f) (PyPath.name (FileInfo.path f)) sz
                       (PyStr.lower (PyPath.suffix (FileInfo.path f))) true wr.

(** What the scan keeps of one entry of a directory. *)
Definition scan_item (E : Env) (filters : list string) (m : gmap string node)
           (item : Path) : option FileInfo.t :=
  match m !! item with
  | Some (NFile sz r wr _) =>
      if FileManager._matches_filters E (PyPath.name item) filters && r
      then Some (FileInfo.mk item (PyPath.name item) sz
                             (PyStr.lower (PyPath.suffix item)) r wr)
      else None
  | _ => None
  end.

(** [files] are the readable regular files directly in [d] whose names pass
    the filters, each once. *)
Definition flat_scan_of (E : Env) (d : Path) (filters : list string)
           (m : gmap string node) (files : list FileInfo.t) : Prop :=
  (forall f, f ∈ files <->
             describes m f
             /\ PyPath.parent (FileInfo.path f) = d
             /\ FileManager._matches_filters E (FileInfo.name f) filters = true)
  /\ NoDup (FileInfo.path <$> files).

(** [f] is a file the scan may return: a regular file that can be read,
    read as it stands, with a name that passes the filters. *)
Definition scanned_ok (E : Env) (filters : list string) (m : gmap string node)
           (f : FileInfo.t) : Prop :=
  describes m f /\ FileManager._matches_filters E (FileInfo.name f) filters = true.

(** ** Statistics of a list of files *)

(** The key a file is counted under in the table of extensions. *)
Definition extension_key (f : FileInfo.t) : string :=
  if PyStr.truthy (FileInfo.extension f) then FileInfo.extension f
  else "sin_extension".

Definition sum_of_sizes (files : list FileInfo.t) : Z :=
  foldr (fun f acc => FileInfo.size f + acc) 0 files.

(** [lo] and [hi] are files of the list, of the least and of the greatest
    size. *)
Definition extremes (files : list FileInfo.t) (lo hi : FileInfo.t) : Prop :=
  lo ∈ files /\ hi ∈ files
  /\ forall f, f ∈ files -> FileInfo.size lo <= FileInfo.size f <= FileInfo.size hi.

Definition Sample_three : list FileInfo.t :=
  [ FileInfo.mk "src/A.pdf" "A.pdf" 1000 ".pdf" true true;
    FileInfo.mk "src/B.PDF" "B.PDF" 2001 ".pdf" true true;
    FileInfo.mk "src/notes" "notes" 10 "" true true ].

(** ** Invoice numbers *)

(** Some character of [s] is in the class. *)
Fixpoint has_char (cls : ascii -> bool) (s : string) : bool :=
  match s with
  | EmptyString => false
  | String a s' => cls a || has_char cls s'
  end.

(** The name is made of ASCII characters: the case in which the bytes of the
    string are the characters that [str.upper] and the patterns see. *)
Definition is_ascii_name (s : string) : bool :=
  negb (has_char (fun a => (128 <=? nat_of_ascii a)%nat) s).

(** ** A file that goes through *)

(** The archive [_compress_single_file] writes for [f]: one member under the
    name of the file, of its size. *)
Definition archive_of (E : Env) (cfg : CompressionConfig.t) (f : FileInfo.t) : node :=
  NFile (deflated_size E (CompressionConfig.compression_level cfg)
                       (FileInfo.path f) (FileInfo.size f))
        true true
        (Some [ZEntry (FileInfo.name f) (FileInfo.size f) true]).

(** Where the archive of [f] goes when the template renders [s]. *)
Definition archive_path (f : FileInfo.t) (s : string) : Path :=
  PyPath.join (PyPath.parent (FileInfo.path f)) (s ++ ".zip").

(** Everything is in place for [f]: the file is as it was scanned, the
    place of its archive is free in a directory that can be written, zlib
    takes the level, what is written reads back, and the backup folder is
    there with room for the file. *)
Record ready (E : Env) (cfg : CompressionConfig.t) (f : FileInfo.t) (s : string)
       (w : World) (wr : bool) (z : option (list zentry)) : Prop := {
  ready_file : fs w !! FileInfo.path f = Some (NFile (FileInfo.size f) true wr z);
  ready_zip_free : fs w !! archive_path f s = None;
  ready_zip_dir : Os.dir_writable (PyPath.parent (archive_path f s)) (fs w) = true;
  ready_level : -1 <= CompressionConfig.compression_level cfg <= 9;
  ready_media : bad_media E (archive_path f s) = false;
  ready_backup : Os.dir_writable (CompressionConfig.backup_folder cfg) (fs w) = true;
  ready_target_free :
    fs w !! backup_target (CompressionConfig.backup_folder cfg) (FileInfo.path f) = None;
  ready_target_other :
    backup_target (CompressionConfig.backup_folder cfg) (FileInfo.path f)
    <> archive_path f s;
  ready_source_dir : Os.dir_writable (PyPath.parent (FileInfo.path f)) (fs w) = true;
  ready_target_dir :
    Os.dir_writable
      (PyPath.parent (backup_target (CompressionConfig.backup_folder cfg)
                                    (FileInfo.path f))) (fs w) = true
}.

(** The sample with the backup folder in place. *)
Definition Sample_with_backup : World :=
  Sample.world_of (Sample.invoices ++ [ ("respaldo", NDir true true) ])%list.

(** ** What the progress callback was told *)

(** The calls of the progress callback so far, oldest first. *)
Definition progress_seen (w : World) : list (nat * nat * string) :=
  omap (fun e => match e with
                 | Progress current total current_file =>
                     Some (current, total, current_file)
                 | FileStatus _ _ _ => None
                 end) (ui w).

(** One call for each file from index [i] on: its rank counted from 1, the
    number of files, its name. *)
Fixpoint progress_calls (i total : nat) (files : list FileInfo.t)
  : list (nat * nat * string) :=
  match files with
  | [] => []
  | f :: rest => ((i + 1)%nat, total, FileInfo.name f) :: progress_calls (S i) total rest
  end.

(** The calls so far, and whether a callback is registered. *)
Definition seen_and_asked (w : World) :=
  (progress_seen w, progress_callback (engine w)).

(** The world after the loop went over the files of the sample. *)
Definition Sample_processed : World :=
  snd (CompressorEngine._process_files Sample.env Sample_files Sample.config
         Sample.world).

(** ** A conflict policy that is not of the enumeration *)

Definition Sample_unknown_policy : CompressionConfig.t :=
  CompressionConfig.mk "src" "respaldo" "contador_archivo" false [] 6 "replace" true 4 "".

(** ** A stop while the run is paused *)

(** The sample in the middle of a run, where the controlling thread pauses
    before the worker looks at the stop flag and stops while it waits. *)
Definition Sample_stop_in_pause : World :=
  set_script (fun _ => [Slot [SigPause] [SigStop]]) Sample_mid_run.

(** * Properties *)

(** ** Combinators *)

Section Combinators.
Context {A B : Type} {X : Type} (f : World -> X).

Lemma preserves_ret (a : A) : preserves f (ret a).
Proof. intros w; reflexivity. Qed.

Lemma preserves_raise (e : exn) : preserves f (@raise A e).
Proof. intros w; reflexivity. Qed.

Lemma preserves_hang : preserves f (@hang A).
Proof. intros w; reflexivity. Qed.

Lemma preserves_gets (g : World -> A) : preserves f (gets g).
Proof. intros w; reflexivity. Qed.

Lemma preserves_lift (r : result A) : preserves f (lift r).
Proof. destruct r; intros w; reflexivity. Qed.

Lemma preserves_modify (g : World -> World) :
    (forall w, f (g w) = f w) -> preserves f (modify g).
Proof. intros H w; apply H. Qed.

Lemma preserves_bind (m : M A) (k : A -> M B) :
    preserves f m -> (forall a, preserves f (k a)) -> preserves f (bind m k).
Proof.
    intros Hm Hk w. unfold bind.
    specialize (Hm w). destruct (m w) as [[a | e |] w1]; simpl in *; auto.
    rewrite (Hk a w1). exact Hm.
Qed.

Lemma preserves_try_except (m : M A) (h : exn -> M A) :
    preserves f m -> (forall e, preserves f (h e)) -> preserves f (try_except m h).
Proof.
    intros Hm Hh w. unfold try_except.
    specialize (Hm w). destruct (m w) as [[a | e |] w1]; simpl in *; auto.
    rewrite (Hh e w1). exact Hm.
Qed.

Lemma preserves_try_finally (m : M A) (fin : M unit) :
    preserves f m -> preserves f fin -> preserves f (try_finally m fin).
Proof.
    intros Hm Hf w. unfold try_finally.
    specialize (Hm w). destruct (m w) as [[a | e |] w1]; simpl in *; auto;
      specialize (Hf w1); destruct (fin w1) as [[[] | e' |] w2]; simpl in *;
      congruence.
Qed.

Lemma preserves_for_each (l : list A) (body : A -> M unit) :
    (forall x, preserves f (body x)) -> preserves f (for_each l body).
Proof.
    intros Hb. induction l as [| x l IH]; simpl.
    - intros w; reflexivity.
    - intros w. unfold bind. specialize (Hb x w).
      destruct (body x w) as [[[] | e |] w1]; simpl in *; auto.
      rewrite (IH w1). exact Hb.
Qed.

Lemma preserves_fold_m (body : B -> A -> M B) (l : list A) (acc : B) :
    (forall b x, preserves f (body b x)) -> preserves f (fold_m body l acc).
Proof.
    intros Hb. revert acc. induction l as [| x l IH]; intros acc; simpl.
    - intros w; reflexivity.
    - intros w. unfold bind. specialize (Hb acc x w).
      destruct (body acc x w) as [[b | e |] w1]; simpl in *; auto.
      rewrite (IH b w1). exact Hb.
Qed.
End Combinators.

Lemma preserves_when {X} (f : World -> X) (b : bool) (m : M unit) :
  preserves f m -> preserves f (when b m).
Proof. destruct b; simpl; auto. intros _ w; reflexivity. Qed.

Section Totality.
Context {A B : Type}.

Lemma total_no_hang (m : M A) : total m -> no_hang m.
Proof. intros H w Hh. destruct (H w) as [a Ha]. congruence. Qed.

Lemma total_ret (a : A) : total (ret a).
Proof. intros w; eexists; reflexivity. Qed.

Lemma total_gets (g : World -> A) : total (gets g).
Proof. intros w; eexists; reflexivity. Qed.

Lemma total_modify (g : World -> World) : total (modify g).
Proof. intros w; eexists; reflexivity. Qed.

Lemma total_bind (m : M A) (k : A -> M B) :
    total m -> (forall a, total (k a)) -> total (bind m k).
Proof.
    intros Hm Hk w. unfold bind. destruct (Hm w) as [a Ha].
    destruct (m w) as [o w1]; simpl in *; subst o. apply Hk.
Qed.

Lemma total_try_except (m : M A) (h : exn -> M A) :
    no_hang m -> (forall e, total (h e)) -> total (try_except m h).
Proof.
    intros Hm Hh w. unfold try_except. specialize (Hm w).
    destruct (m w) as [[a | e |] w1]; simpl in *.
    - eexists; reflexivity.
    - apply Hh.
    - congruence.
Qed.

Lemma no_hang_ret (a : A) : no_hang (ret a).
Proof. intros w; discriminate. Qed.

Lemma no_hang_raise (e : exn) : no_hang (@raise A e).
Proof. intros w; discriminate. Qed.

Lemma no_hang_gets (g : World -> A) : no_hang (gets g).
Proof. intros w; discriminate. Qed.

Lemma no_hang_lift (r : result A) : no_hang (lift r).
Proof. destruct r; intros w; discriminate. Qed.

Lemma no_hang_bind (m : M A) (k : A -> M B) :
    no_hang m -> (forall a, no_hang (k a)) -> no_hang (bind m k).
Proof.
    intros Hm Hk w. unfold bind. specialize (Hm w).
    destruct (m w) as [[a | e |] w1]; simpl in *.
    - apply Hk.
    - discriminate.
    - exfalso; apply Hm; reflexivity.
Qed.

Lemma no_hang_try_except (m : M A) (h : exn -> M A) :
    no_hang m -> (forall e, no_hang (h e)) -> no_hang (try_except m h).
Proof.
    intros Hm Hh w. unfold try_except. specialize (Hm w).
    destruct (m w) as [[a | e |] w1]; simpl in *.
    - discriminate.
    - apply Hh.
    - exact Hm.
Qed.
End Totality.

Lemma no_hang_modify (g : World -> World) : no_hang (modify g).
Proof. intros w; discriminate. Qed.

Lemma total_when (b : bool) (m : M unit) : total m -> total (when b m).
Proof. destruct b; simpl; auto. intros _. apply total_ret. Qed.

Lemma no_hang_when (b : bool) (m : M unit) : no_hang m -> no_hang (when b m).
Proof. destruct b; simpl; auto. intros _. apply no_hang_ret. Qed.

Lemma total_for_each {A} (l : list A) (body : A -> M unit) :
  (forall x, total (body x)) -> total (for_each l body).
Proof.
  intros Hb. induction l as [| x l IH]; simpl.
  - apply total_ret.
  - apply total_bind; auto.
Qed.

Lemma no_hang_fold_m {A B} (body : B -> A -> M B) (l : list A) (acc : B) :
  (forall b x, no_hang (body b x)) -> no_hang (fold_m body l acc).
Proof.
  intros Hb. revert acc. induction l as [| x l IH]; intros acc; simpl.
  - apply no_hang_ret.
  - apply no_hang_bind; auto.
Qed.

(** ** Moving a file *)

(** [shutil.move] changes the files only, and it returns or raises. *)
Lemma copy2_preserves {X} (f : World -> X) src dst :
  (forall g w, f (set_fs g w) = f w) -> preserves f (Os.copy2 src dst).
Proof. intros Hf w. unfold Os.copy2. repeat case_match; cbn [snd]; auto. Qed.

Lemma unlink_preserves {X} (f : World -> X) p :
  (forall g w, f (set_fs g w) = f w) -> preserves f (Os.unlink p).
Proof. intros Hf w. unfold Os.unlink. repeat case_match; cbn [snd]; auto. Qed.

Lemma move_preserves {X} (f : World -> X) src dst :
  (forall g w, f (set_fs g w) = f w) -> preserves f (Os.move src dst).
Proof.
  intros Hf w. unfold Os.move. repeat case_match; cbn [snd]; auto.
  all: apply (preserves_bind f _ _ (copy2_preserves f _ _ Hf)
                (fun _ => unlink_preserves f _ Hf)).
Qed.

Lemma copy2_no_hang src dst : no_hang (Os.copy2 src dst).
Proof. intros w. unfold Os.copy2. repeat case_match; discriminate. Qed.

Lemma unlink_no_hang p : no_hang (Os.unlink p).
Proof. intros w. unfold Os.unlink. repeat case_match; discriminate. Qed.

Lemma move_no_hang src dst : no_hang (Os.move src dst).
Proof.
  intros w. unfold Os.move. repeat case_match; try discriminate.
  all: apply (no_hang_bind _ _ (copy2_no_hang _ _) (fun _ => unlink_no_hang _)).
Qed.

Section FsOnly.
Context {A B : Type}.

Lemma fs_only_ret (a : A) : fs_only (ret a).
Proof. intros w1 w2 H; split; [reflexivity | exact H]. Qed.

Lemma fs_only_raise (e : exn) : fs_only (@raise A e).
Proof. intros w1 w2 H; split; [reflexivity | exact H]. Qed.

Lemma fs_only_lift (r : result A) : fs_only (lift r).
Proof. destruct r; intros w1 w2 H; (split; [reflexivity | exact H]). Qed.

Lemma fs_only_gets (g : World -> A) :
    (forall w1 w2, fs w1 = fs w2 -> g w1 = g w2) -> fs_only (gets g).
Proof. intros Hg w1 w2 H; split; simpl; [f_equal; auto | exact H]. Qed.

Lemma fs_only_modify (g : World -> World) :
    (forall w1 w2, fs w1 = fs w2 -> fs (g w1) = fs (g w2)) -> fs_only (modify g).
Proof. intros Hg w1 w2 H; split; simpl; auto. Qed.

Lemma fs_only_bind (m : M A) (k : A -> M B) :
    fs_only m -> (forall a, fs_only (k a)) -> fs_only (bind m k).
Proof.
    intros Hm Hk w1 w2 H. unfold bind. destruct (Hm w1 w2 H) as [Ho Hf].
    destruct (m w1) as [o1 u1], (m w2) as [o2 u2]; simpl in *; subst o2.
    destruct o1 as [a | e |]; simpl; [apply Hk; exact Hf | auto | auto].
Qed.

Lemma fs_only_try_except (m : M A) (h : exn -> M A) :
    fs_only m -> (forall e, fs_only (h e)) -> fs_only (try_except m h).
Proof.
    intros Hm Hh w1 w2 H. unfold try_except. destruct (Hm w1 w2 H) as [Ho Hf].
    destruct (m w1) as [o1 u1], (m w2) as [o2 u2]; simpl in *; subst o2.
    destruct o1 as [a | e |]; simpl; [auto | apply Hh; exact Hf | auto].
Qed.

Lemma fs_only_fold_m (body : B -> A -> M B) (l : list A) (acc : B) :
    (forall b x, fs_only (body b x)) -> fs_only (fold_m body l acc).
Proof.
    intros Hb. revert acc. induction l as [| x l IH]; intros acc; simpl.
    - intros w1 w2 H; split; [reflexivity | exact H].
    - intros w1 w2 H. unfold bind. destruct (Hb acc x w1 w2 H) as [Ho Hf].
      destruct (body acc x w1) as [o1 u1], (body acc x w2) as [o2 u2];
        simpl in *; subst o2.
      destruct o1 as [b | e |]; simpl; [apply IH; exact Hf | auto | auto].
Qed.
End FsOnly.

(** ** Tactics for frames *)

Create HintDb frame.
Create HintDb engine.

#[local] Hint Unfold CustomLogger.log_operation CustomLogger.end_session
  CustomLogger.start_session CustomLogger.update_stats
  CustomLogger.update_session_stats_total_files CustomLogger.log_file_operation
  FileManager._log FileManager.create_backup_folder FileManager._resolve_conflict
  FileManager.move_to_backup FileManager.validate_permissions_readable
  FileManager.scan_directory
  FileInfo.from_path
  CompressorEngine.log_operation CompressorEngine.log_file_operation
  CompressorEngine.pause CompressorEngine.resume CompressorEngine.stop
  CompressorEngine.deliver CompressorEngine.wait_pause_event
  CompressorEngine.patterns_item CompressorEngine._generate_zip_name
  CompressorEngine._verify_zip_integrity CompressorEngine.call_file_callback
  CompressorEngine.resolve_zip_path CompressorEngine.write_archive
  CompressorEngine.compress_failed CompressorEngine._compress_single_file
  CompressorEngine._validate_config CompressorEngine.call_progress_callback
  CompressorEngine.on_exception CompressorEngine.process_one
  CompressorEngine._process_files CompressorEngine.compress_files
  CompressorEngine.run_session CompressorEngine.critical_failure
  CompressorEngine.finish_session CompressorEngine.report
  Zip.write_file Zip.close_w : engine.

(** A primitive is settled by running it. *)
Ltac leaf :=
  first
    [ apply move_preserves; intros ? ?; reflexivity
    | let w := fresh "w" in
      intros w;
      cbv [Os.exists_ Os.is_dir Os.is_file Os.access_R Os.access_W Os.stat_size
           Os.mkdir_parents Os.unlink Os.iterdir Zip.open_w Zip.open_r
           CompressorEngine.next_slot gets modify ret raise hang];
      repeat case_match; reflexivity ].

Ltac frame_step :=
  lazymatch goal with
  | |- preserves _ (bind _ _) => apply preserves_bind; [| intros ?]
  | |- preserves _ (try_except _ _) => apply preserves_try_except; [| intros ?]
  | |- preserves _ (try_finally _ _) => apply preserves_try_finally
  | |- preserves _ (ret _) => apply preserves_ret
  | |- preserves _ (raise _) => apply preserves_raise
  | |- preserves _ hang => apply preserves_hang
  | |- preserves _ (gets _) => apply preserves_gets
  | |- preserves _ (lift _) => apply preserves_lift
  | |- preserves _ (when _ _) => apply preserves_when
  | |- preserves _ (modify _) =>
      apply preserves_modify; intros ?; first [reflexivity | solve [auto]]
  | |- preserves _ (for_each _ _) => apply preserves_for_each; intros ?
  | |- preserves _ (fold_m _ _ _) => apply preserves_fold_m; intros ? ?
  | |- preserves _ (if ?b then _ else _) => destruct b
  | |- preserves _ (match ?x with _ => _ end) => destruct x
  | |- preserves _ _ =>
      first [ solve [auto with frame]
            | progress autounfold with engine
            | leaf ]
  end.
Ltac frame := repeat frame_step.

(** ** The renaming loop *)

Lemma exists_spec w p :
  Os.exists_ p w = (Ret (bool_decide (present w p)), w).
Proof.
  unfold Os.exists_, gets, present. destruct (fs w !! p) eqn:H; reflexivity.
Qed.

Lemma unique_name_loop_spec E file_path fuel counter w :
  1 <= counter -> counter + Z.of_nat fuel = 10000 -> counter <= 9999 ->
  exists p,
    FileManager.unique_name_loop E fuel (PyPath.stem file_path)
      (PyPath.suffix file_path) (PyPath.parent file_path) counter w = (Ret p, w)
    /\ unique_name_result E w file_path counter p.
Proof.
  revert counter. induction fuel as [| fuel IH]; intros counter H1 Hsum Hle.
  - lia.
  - simpl. unfold bind. rewrite exists_spec.
    fold (candidate file_path counter).
    destruct (bool_decide (present w (candidate file_path counter))) eqn:Hp; simpl.
    + apply bool_decide_eq_true in Hp.
      destruct (9999 <? counter + 1) eqn:Hc.
      * apply Z.ltb_lt in Hc. assert (counter = 9999) by lia. subst counter.
        eexists; split; [reflexivity |]. right. split; [| reflexivity].
        intros k Hk. assert (k = 9999) by lia. subst k. exact Hp.
      * apply Z.ltb_ge in Hc.
        destruct (IH (counter + 1)) as (p & Hrun & Hres); [lia | lia | lia |].
        exists p. split; [exact Hrun |].
        destruct Hres as [(n & Hn & Hfree & Hbelow & ->) | [Hall ->]].
        -- left. exists n. repeat split; try lia; auto.
           intros k Hk. destruct (decide (k = counter)) as [-> | Hne]; [exact Hp |].
           apply Hbelow. lia.
        -- right. split; [| reflexivity].
           intros k Hk. destruct (decide (k = counter)) as [-> | Hne]; [exact Hp |].
           apply Hall. lia.
    + apply bool_decide_eq_false in Hp.
      eexists; split; [reflexivity |]. left. exists counter.
      repeat split; try lia; auto.
Qed.

Lemma generate_unique_name_spec E file_path w :
  exists p,
    FileManager._generate_unique_name E file_path w = (Ret p, w)
    /\ unique_name_result E w file_path 1 p.
Proof.
  unfold FileManager._generate_unique_name.
  apply unique_name_loop_spec; [lia | reflexivity | lia].
Qed.

Lemma generate_unique_name_preserves {X} (f : World -> X) E file_path :
  preserves f (FileManager._generate_unique_name E file_path).
Proof.
  intros w. destruct (generate_unique_name_spec E file_path w) as (p & -> & _).
  reflexivity.
Qed.
#[local] Hint Resolve generate_unique_name_preserves : frame.

(** C6. Under [rename], and under [ask] which does the same,
    [_resolve_conflict] returns the candidate [stem_n.ext] with the least [n]
    from 1 to 9999 that names no existing file, and the time-stamped name
    when all 9999 exist; it always returns, and the world it returns in is
    the world it was called in: nothing is written. *)
Theorem resolve_conflict_rename_smallest_free
        E (destination : Path) (resolution : ConflictResolution.t) (w : World) :
  resolution = ConflictResolution.RENAME \/ resolution = ConflictResolution.ASK ->
  exists p,
    FileManager._resolve_conflict E destination resolution w = (Ret (Some p), w)
    /\ unique_name_result E w destination 1 p.
Proof.
  intros Hres.
  destruct (generate_unique_name_spec E destination w) as (p & Hrun & Hp).
  exists p. split; [| exact Hp].
  destruct Hres as [-> | ->]; unfold FileManager._resolve_conflict, bind;
    rewrite Hrun; reflexivity.
Qed.

Lemma resolve_conflict_rename_smallest_free_witness :
  exists p,
    FileManager._resolve_conflict Sample.env "respaldo/A.pdf"
      ConflictResolution.RENAME Sample.crowded_backup
    = (Ret (Some p), Sample.crowded_backup)
    /\ unique_name_result Sample.env Sample.crowded_backup "respaldo/A.pdf" 1 p.
Proof.
  apply (resolve_conflict_rename_smallest_free Sample.env "respaldo/A.pdf"
           ConflictResolution.RENAME Sample.crowded_backup).
  left; reflexivity.
Defined.

(** ** Tactics for termination *)

Create HintDb total.
Create HintDb nohang.
#[local] Hint Resolve move_no_hang : nohang.

Ltac run_leaf :=
  let w := fresh "w" in
  intros w;
  cbv [Os.exists_ Os.is_dir Os.is_file Os.access_R Os.access_W Os.stat_size
       Os.mkdir_parents Os.unlink Os.move Os.iterdir Zip.open_w Zip.open_r
       CompressorEngine.next_slot gets modify ret raise hang];
  repeat case_match.

Ltac no_hang_step :=
  lazymatch goal with
  | |- no_hang (bind _ _) => apply no_hang_bind; [| intros ?]
  | |- no_hang (try_except _ _) => apply no_hang_try_except; [| intros ?]
  | |- no_hang (ret _) => apply no_hang_ret
  | |- no_hang (raise _) => apply no_hang_raise
  | |- no_hang (gets _) => apply no_hang_gets
  | |- no_hang (lift _) => apply no_hang_lift
  | |- no_hang (modify _) => apply no_hang_modify
  | |- no_hang (when _ _) => apply no_hang_when
  | |- no_hang (fold_m _ _ _) => apply no_hang_fold_m; intros ? ?
  | |- no_hang (if ?b then _ else _) => destruct b
  | |- no_hang (match ?x with _ => _ end) => destruct x
  | |- no_hang _ =>
      first [ solve [auto with nohang]
            | progress autounfold with engine
            | run_leaf; cbn [fst snd]; discriminate ]
  end.
Ltac no_hang_tac := repeat no_hang_step.

Ltac total_step :=
  lazymatch goal with
  | |- total (bind _ _) => apply total_bind; [| intros ?]
  | |- total (try_except _ _) => apply total_try_except; [no_hang_tac | intros ?]
  | |- total (ret _) => apply total_ret
  | |- total (gets _) => apply total_gets
  | |- total (modify _) => apply total_modify
  | |- total (when _ _) => apply total_when
  | |- total (for_each _ _) => apply total_for_each; intros ?
  | |- total (if ?b then _ else _) => destruct b
  | |- total (match ?x with _ => _ end) => destruct x
  | |- total _ =>
      first [ solve [auto with total]
            | progress autounfold with engine
            | run_leaf; cbn [fst snd]; eexists; reflexivity ]
  end.
Ltac total_tac := repeat total_step.

Lemma generate_unique_name_no_hang E file_path :
  no_hang (FileManager._generate_unique_name E file_path).
Proof.
  intros w. destruct (generate_unique_name_spec E file_path w) as (p & -> & _).
  discriminate.
Qed.
#[local] Hint Resolve generate_unique_name_no_hang : nohang.

Lemma generate_unique_name_total E file_path :
  total (FileManager._generate_unique_name E file_path).
Proof.
  intros w. destruct (generate_unique_name_spec E file_path w) as (p & -> & _).
  eexists; reflexivity.
Qed.
#[local] Hint Resolve generate_unique_name_total : total.

Lemma compress_single_file_total E f cfg :
  total (CompressorEngine._compress_single_file E f cfg).
Proof. total_tac. Qed.

Lemma move_to_backup_total E a b c : total (FileManager.move_to_backup E a b c).
Proof. total_tac. Qed.

Lemma create_backup_folder_total b : total (FileManager.create_backup_folder b).
Proof. total_tac. Qed.

Lemma start_session_total E : total (CustomLogger.start_session E).
Proof. total_tac. Qed.

Lemma validate_config_total E cfg : total (CompressorEngine._validate_config E cfg).
Proof. total_tac. Qed.

(** ** Names *)


(** ** Names *)

Lemma generate_zip_name_spec E file_info config w :
  CompressorEngine._generate_zip_name E file_info config w =
  match chosen_pattern E config with
  | Err e => (Raise e, w)
  | Ok pattern =>
      match rendered E file_info pattern (counter_of w) with
      | Ok s => (Ret (s ++ ".zip"), bump_counter w)
      | Err (KeyError k) =>
          (Ret (fallback_name E file_info ++ ".zip"), warn_pattern (KeyError k) w)
      | Err e => (Raise e, w)
      end
  end.
Proof.
  unfold CompressorEngine._generate_zip_name, chosen_pattern, rendered, counter_of,
    CompressorEngine.patterns_item.
  destruct (String.eqb _ _ && PyStr.truthy _).
  - cbv [bind gets try_except lift ret].
    destruct (Fmt.format _ _ _) as [? | []]; reflexivity.
  - destruct (CompressorEngine.lookup_pattern E "fecha_archivo"); [| reflexivity].
    cbv [bind gets try_except lift ret].
    destruct (Fmt.format _ _ _) as [? | []]; reflexivity.
Qed.

(** Whatever is returned carries the archive extension. *)
Lemma generate_zip_name_suffix E file_info config w zip_name w' :
  CompressorEngine._generate_zip_name E file_info config w = (Ret zip_name, w') ->
  exists s, zip_name = s ++ ".zip".
Proof.
  rewrite generate_zip_name_spec.
  destruct (chosen_pattern E config) as [pattern | e]; [| discriminate].
  destruct (rendered E file_info pattern (counter_of w)) as [s | []];
    intros [= <- _]; eexists; reflexivity.
Qed.

(** An unknown placeholder is answered with the fallback and a warning, and
    the counter stays. *)
Lemma generate_zip_name_unknown_placeholder E file_info config pattern k w :
  chosen_pattern E config = Ok pattern ->
  rendered E file_info pattern (counter_of w) = Err (KeyError k) ->
  CompressorEngine._generate_zip_name E file_info config w
  = (Ret (fallback_name E file_info ++ ".zip"), warn_pattern (KeyError k) w)
  /\ counter_of (warn_pattern (KeyError k) w) = counter_of w.
Proof.
  intros Hp Hr. rewrite generate_zip_name_spec, Hp, Hr. split; reflexivity.
Qed.

(** Any other failure of the template leaves [_generate_zip_name] as an
    exception. *)
Lemma generate_zip_name_raises E file_info config pattern e w :
  chosen_pattern E config = Ok pattern ->
  rendered E file_info pattern (counter_of w) = Err e ->
  is_KeyError e = false ->
  CompressorEngine._generate_zip_name E file_info config w = (Raise e, w).
Proof.
  intros Hp Hr He. rewrite generate_zip_name_spec, Hp, Hr.
  destruct e; try reflexivity. discriminate.
Qed.

(** C3. The claim fails on the code: the template [{fecha}}], which has a
    closing brace too many, makes [str.format] raise [ValueError]; only
    [KeyError] is caught, so the exception leaves [_generate_zip_name] and no
    fallback name is returned. *)
Theorem generate_zip_name_malformed_template_raises :
  CompressorEngine._generate_zip_name Sample.env Sample_file_A Sample_stray_brace
                                      Sample.world
  = (Raise (ValueError "Single '}' encountered in format string"), Sample.world).
Proof. vm_compute. reflexivity. Qed.

(** ** What one computation changes, read off another *)

Section ChangesLike.
Context {A B C X : Type} (f : World -> X).

Lemma changes_like_bind_head (m0 : M A) (k : A -> M B) :
  (forall a, preserves f (k a)) -> changes_like f (bind m0 k) m0.
Proof.
  intros Hk w. unfold bind.
  destruct (m0 w) as [[a | e |] w1]; simpl; first [apply Hk | reflexivity].
Qed.


Lemma changes_like_try_except (m : M A) (h : exn -> M A) (m0 : M C) :
  changes_like f m m0 -> (forall e, preserves f (h e)) ->
  changes_like f (try_except m h) m0.
Proof.
  intros Hm Hh w. rewrite <- (Hm w). unfold try_except.
  destruct (m w) as [[a | e |] w1]; simpl; first [apply Hh | reflexivity].
Qed.
End ChangesLike.

Lemma preserves_for_each_in {A X} (f : World -> X) (l : list A) (body : A -> M unit) :
  (forall x, x ∈ l -> preserves f (body x)) -> preserves f (for_each l body).
Proof.
  induction l as [| x l IH]; intros Hb; simpl.
  - intros w; reflexivity.
  - apply preserves_bind.
    + apply Hb. left.
    + intros _. apply IH. intros y Hy. apply Hb. right. exact Hy.
Qed.

(** ** One turn of the loop *)

Lemma deliver_total s : total (CompressorEngine.deliver s).
Proof. total_tac. Qed.
#[local] Hint Resolve deliver_total : total.

Lemma deliver_keeps_should_stop s :
  s <> SigStop -> preserves (fun w => should_stop (engine w)) (CompressorEngine.deliver s).
Proof. intros Hs. destruct s; [frame | frame | congruence]. Qed.

Lemma deliver_keeps_script s : preserves script (CompressorEngine.deliver s).
Proof. frame. Qed.

Lemma deliver_keeps_counter s : preserves counter_of (CompressorEngine.deliver s).
Proof. frame. Qed.

Lemma deliver_keeps_fs s : preserves fs (CompressorEngine.deliver s).
Proof. frame. Qed.
#[local] Hint Resolve deliver_keeps_script deliver_keeps_counter deliver_keeps_fs : frame.

Lemma deliver_all_keeps_should_stop l :
  SigStop ∉ l ->
  preserves (fun w => should_stop (engine w)) (for_each l CompressorEngine.deliver).
Proof.
  intros Hl. apply preserves_for_each_in. intros s Hs.
  apply deliver_keeps_should_stop. intros ->. contradiction.
Qed.

(** Running a computation whose outcome is known. *)
Lemma bind_ret_eq {A B} (m : M A) (k : A -> M B) w a w1 :
  m w = (Ret a, w1) -> bind m k w = k a w1.
Proof. intros H. unfold bind. rewrite H. reflexivity. Qed.

Lemma bind_hang_eq {A B} (m : M A) (k : A -> M B) w w1 :
  m w = (Hang, w1) -> bind m k w = (Hang, w1).
Proof. intros H. unfold bind. rewrite H. reflexivity. Qed.

Lemma bind_raise_eq {A B} (m : M A) (k : A -> M B) w e w1 :
  m w = (Raise e, w1) -> bind m k w = (Raise e, w1).
Proof. intros H. unfold bind. rewrite H. reflexivity. Qed.

Lemma bind_gets {A B} (g : World -> A) (k : A -> M B) w :
  bind (gets g) k w = k (g w) w.
Proof. reflexivity. Qed.

Lemma bind_cong {A B} (m m' : M A) (k : A -> M B) w w' :
  m w = m' w' -> bind m k w = bind m' k w'.
Proof. intros H. unfold bind. rewrite H. reflexivity. Qed.

Lemma bind_assoc {A B C} (m : M A) (k1 : A -> M B) (k2 : B -> M C) w :
  bind (bind m k1) k2 w = bind m (fun a => bind (k1 a) k2) w.
Proof. unfold bind. destruct (m w) as [[a | e |] w1]; reflexivity. Qed.

Lemma run_total {A} (m : M A) :
  total m -> forall w, exists a w', m w = (Ret a, w').
Proof.
  intros H w. destruct (H w) as [a Ha]. destruct (m w) as [o w'].
  simpl in Ha. subst o. eauto.
Qed.

Lemma run_preserved {A X} (f : World -> X) (m : M A) w o w' :
  preserves f m -> m w = (o, w') -> f w' = f w.
Proof. intros H Hm. specialize (H w). rewrite Hm in H. exact H. Qed.

Lemma next_slot_run w :
  Forall quiet (script w) ->
  exists s w0, CompressorEngine.next_slot w = (Ret s, w0)
               /\ quiet s /\ turn_frame w w0.
Proof.
  intros Hq. unfold CompressorEngine.next_slot, turn_frame.
  destruct (script w) as [| s rest] eqn:Hs.
  - exists (Slot [] []), w. split; [reflexivity |]. split.
    + split; simpl; apply not_elem_of_nil.
    + rewrite Hs. split; reflexivity.
  - exists s, (set_script (fun _ => rest) w). split; [reflexivity |].
    inversion Hq; subst. split; [assumption |]. split; reflexivity.
Qed.

Lemma deliver_all_run l w :
  SigStop ∉ l ->
  exists w', for_each l CompressorEngine.deliver w = (Ret tt, w')
             /\ kept w' = kept w /\ script w' = script w.
Proof.
  intros Hl.
  destruct (run_total _ (total_for_each l _ deliver_total) w) as ([] & w' & Hrun).
  exists w'. split; [exact Hrun |].
  assert (Hk : preserves (fun w => (kept w, script w))
                         (for_each l CompressorEngine.deliver)).
  { apply preserves_for_each_in. intros s Hs.
    destruct s; [frame | frame | contradiction]. }
  pose proof (run_preserved _ _ _ _ _ Hk Hrun) as Heq.
  split; [exact (f_equal fst Heq) | exact (f_equal snd Heq)].
Qed.

Lemma wait_pause_event_run s w :
  quiet s ->
  (exists wh, CompressorEngine.wait_pause_event s w = (Hang, wh))
  \/ exists w', CompressorEngine.wait_pause_event s w = (Ret tt, w')
                /\ kept w' = kept w /\ script w' = script w.
Proof.
  intros [_ Hs]. unfold CompressorEngine.wait_pause_event.
  rewrite bind_gets. destruct (pause_event (engine w)).
  - right. exists w. repeat split; reflexivity.
  - destruct (deliver_all_run (while_waiting s) w Hs) as (w1 & Hrun & Hk & Hsc).
    rewrite (bind_ret_eq _ _ _ _ _ Hrun), bind_gets.
    destruct (pause_event (engine w1)).
    + right. exists w1. repeat split; assumption.
    + left. exists w1. reflexivity.
Qed.

Lemma call_progress_callback_run a b c w :
  exists w', CompressorEngine.call_progress_callback a b c w = (Ret tt, w')
             /\ kept w' = kept w /\ script w' = script w.
Proof.
  unfold CompressorEngine.call_progress_callback. rewrite bind_gets.
  destruct (progress_callback (engine w)); eexists; (split; [reflexivity |]);
    split; reflexivity.
Qed.

Lemma process_loop_turn E i n f cfg w :
  never_stopped w ->
  (exists wh, forall rest t,
      CompressorEngine.process_loop E i n (f :: rest) cfg t w = (Hang, wh))
  \/ exists w1,
       turn_frame w w1
       /\ Forall quiet (script w1)
       /\ forall rest t,
           CompressorEngine.process_loop E i n (f :: rest) cfg t w
           = bind (CompressorEngine.process_one E f cfg t)
                  (fun t' => CompressorEngine.process_loop E (S i) n rest cfg t') w1.
Proof.
  intros [Hstop Hquiet].
  destruct (next_slot_run w Hquiet) as (s & w0 & Hns & Hqs & Hk0 & Hs0).
  destruct (deliver_all_run (before_check s) w0 (proj1 Hqs)) as (w2 & Hd & Hk2 & Hs2).
  assert (Hstop2 : should_stop (engine w2) = false).
  { assert (H : kept w2 = kept w) by congruence.
    exact (eq_trans (f_equal snd H) Hstop). }
  destruct (wait_pause_event_run s w2 Hqs) as [[wh Hh] | (w3 & Hw & Hk3 & Hs3)].
  - left. exists wh. intros rest t. cbn [CompressorEngine.process_loop].
    rewrite (bind_ret_eq _ _ _ _ _ Hns), (bind_ret_eq _ _ _ _ _ Hd), bind_gets, Hstop2.
    apply bind_hang_eq. exact Hh.
  - destruct (call_progress_callback_run (i + 1) n (FileInfo.name f) w3)
      as (w4 & Hc & Hk4 & Hs4).
    right. exists w4. split; [| split].
    + split; congruence.
    + assert (Hsc : script w4 = tail (script w)) by congruence.
      rewrite Hsc. destruct (script w); simpl; [constructor |].
      inversion Hquiet; assumption.
    + intros rest t. cbn [CompressorEngine.process_loop].
      rewrite (bind_ret_eq _ _ _ _ _ Hns), (bind_ret_eq _ _ _ _ _ Hd), bind_gets, Hstop2.
      rewrite (bind_ret_eq _ _ _ _ _ Hw), (bind_ret_eq _ _ _ _ _ Hc). reflexivity.
Qed.

(** ** One file in the loop *)

Lemma try_except_ret_eq {A} (m : M A) (h : exn -> M A) w a w1 :
  m w = (Ret a, w1) -> try_except m h w = (Ret a, w1).
Proof. intros H. unfold try_except. rewrite H. reflexivity. Qed.

Lemma try_except_raise_eq {A} (m : M A) (h : exn -> M A) w e w1 :
  m w = (Raise e, w1) -> try_except m h w = h e w1.
Proof. intros H. unfold try_except. rewrite H. reflexivity. Qed.

Lemma process_one_total E f cfg t : total (CompressorEngine.process_one E f cfg t).
Proof. total_tac. Qed.

Lemma process_one_keeps_control E f cfg t :
  preserves (fun w => (should_stop (engine w), script w))
            (CompressorEngine.process_one E f cfg t).
Proof. frame. Qed.


(** With a conflict policy of the enumeration, a file adds one to exactly one
    of the three counters. *)
Lemma process_one_tally E f cfg t pol w :
  ConflictResolution.of_value (CompressionConfig.conflict_resolution cfg) = Ok pol ->
  exists t' w', CompressorEngine.process_one E f cfg t w = (Ret t', w')
                /\ tally_sum t' = S (tally_sum t).
Proof.
  intros Hpol. unfold CompressorEngine.process_one.
  destruct (run_total _ (compress_single_file_total E f cfg) w) as (r & w1 & Hr).
  destruct r as [zip_path original_size compressed_size size_saved | reason | error].
  - unfold try_except at 1. rewrite (bind_ret_eq _ _ _ _ _ Hr).
    rewrite Hpol. cbn [lift].
    unfold try_except, bind at 1, ret at 1.
    destruct (run_total _ (move_to_backup_total E (FileInfo.path f)
                (CompressionConfig.backup_folder cfg) pol) w1) as (moved & w2 & Hm).
    rewrite (bind_ret_eq _ _ _ _ _ Hm).
    destruct moved; cbn; eexists _, _; (split; [reflexivity |]);
      unfold tally_sum; cbn; lia.
  - unfold try_except. rewrite (bind_ret_eq _ _ _ _ _ Hr). cbn.
    eexists _, _; split; [reflexivity |]. unfold tally_sum; cbn; lia.
  - unfold try_except. rewrite (bind_ret_eq _ _ _ _ _ Hr). cbn.
    eexists _, _; split; [reflexivity |]. unfold tally_sum; cbn; lia.
Qed.

(** ** The loop *)

Lemma process_one_never_stopped E f cfg t w w1 t' w' :
  never_stopped w -> turn_frame w w1 -> Forall quiet (script w1) ->
  CompressorEngine.process_one E f cfg t w1 = (Ret t', w') ->
  never_stopped w'.
Proof.
  intros [Hstop _] [Hk _] Hq Hrun.
  pose proof (run_preserved _ _ _ _ _ (process_one_keeps_control E f cfg t) Hrun) as H.
  injection H as Hs Hsc. split.
  - rewrite Hs. exact (eq_trans (f_equal snd Hk) Hstop).
  - rewrite Hsc. exact Hq.
Qed.

(** Without a stop the loop goes through every file, and each adds one to
    one counter. *)
Lemma process_loop_sums E cfg pol :
  ConflictResolution.of_value (CompressionConfig.conflict_resolution cfg) = Ok pol ->
  forall files i n t w,
    never_stopped w ->
    match CompressorEngine.process_loop E i n files cfg t w with
    | (Ret t', w') =>
        tally_sum t' = (tally_sum t + length files)%nat /\ never_stopped w'
    | (Raise _, _) => False
    | (Hang, _) => True
    end.
Proof.
  intros Hpol files. induction files as [| f rest IH]; intros i n t w Hw.
  - simpl. split; [lia | exact Hw].
  - destruct (process_loop_turn E i n f cfg w Hw) as [[wh Hh] | (w1 & Hf & Hq & Heq)].
    + rewrite Hh. exact I.
    + rewrite Heq.
      destruct (process_one_tally E f cfg t pol w1 Hpol) as (t1 & w2 & Hone & Hsum).
      rewrite (bind_ret_eq _ _ _ _ _ Hone).
      pose proof (process_one_never_stopped _ _ _ _ _ _ _ _ Hw Hf Hq Hone) as Hw2.
      specialize (IH (S i) n t1 w2 Hw2).
      destruct (CompressorEngine.process_loop E (S i) n rest cfg t1 w2)
        as [[t' | e |] w']; auto.
      destruct IH as [IH1 IH2]. split; [simpl; lia | exact IH2].
Qed.

(** A stretch of the loop without a stop is the stretch over its first part
    followed by the stretch over the rest. *)
Lemma process_loop_app E cfg l1 l2 :
  forall i n t w,
    never_stopped w ->
    CompressorEngine.process_loop E i n (l1 ++ l2) cfg t w
    = bind (CompressorEngine.process_loop E i n l1 cfg t)
           (fun t1 => CompressorEngine.process_loop E (i + length l1) n l2 cfg t1) w.
Proof.
  induction l1 as [| f rest IH]; intros i n t w Hw.
  - simpl. rewrite Nat.add_0_r. reflexivity.
  - cbn [app].
    destruct (process_loop_turn E i n f cfg w Hw) as [[wh Hh] | (w1 & Hf & Hq & Heq)].
    + rewrite Hh. symmetry. apply bind_hang_eq. apply Hh.
    + rewrite Heq, (bind_cong _ _ _ _ _ (Heq rest t)), bind_assoc.
      destruct (run_total _ (process_one_total E f cfg t) w1) as (t1 & w2 & Hone).
      rewrite !(bind_ret_eq _ _ _ _ _ Hone).
      pose proof (process_one_never_stopped _ _ _ _ _ _ _ _ Hw Hf Hq Hone) as Hw2.
      rewrite (IH (S i) n t1 w2 Hw2).
      replace (S i + length rest)%nat with (i + length (f :: rest))%nat
        by (simpl; lia).
      reflexivity.
Qed.


(** ** The counter *)






(** ** What depends on the files only *)

Create HintDb fsonly.

Ltac fs_leaf :=
  let w1 := fresh "w" in
  let w2 := fresh "w" in
  let H := fresh "H" in
  intros w1 w2 H;
  cbv [Os.exists_ Os.is_dir Os.is_file Os.access_R Os.access_W Os.stat_size
       Os.mkdir_parents Os.unlink Os.move Os.iterdir Zip.open_w Zip.open_r
       gets modify ret raise hang];
  rewrite ?H; repeat case_match; split;
  first [reflexivity | exact H | cbn; congruence].

Ltac fs_only_step :=
  lazymatch goal with
  | |- fs_only (bind _ _) => apply fs_only_bind; [| intros ?]
  | |- fs_only (try_except _ _) => apply fs_only_try_except; [| intros ?]
  | |- fs_only (ret _) => apply fs_only_ret
  | |- fs_only (raise _) => apply fs_only_raise
  | |- fs_only (lift _) => apply fs_only_lift
  | |- fs_only (gets _) =>
      apply fs_only_gets;
      let H := fresh "H" in intros ? ? H; rewrite ?H; reflexivity
  | |- fs_only (modify _) =>
      apply fs_only_modify;
      let H := fresh "H" in intros ? ? H; cbn; first [exact H | rewrite H; reflexivity]
  | |- fs_only (fold_m _ _ _) => apply fs_only_fold_m; intros ? ?
  | |- fs_only (if ?b then _ else _) => destruct b
  | |- fs_only (match ?x with _ => _ end) => destruct x
  | |- fs_only _ =>
      first [ solve [auto with fsonly]
            | progress autounfold with engine
            | fs_leaf ]
  end.
Ltac fs_only_tac := repeat fs_only_step.

Lemma validate_config_fs_only E cfg : fs_only (CompressorEngine._validate_config E cfg).
Proof. fs_only_tac. Qed.

Lemma validate_config_pure E cfg :
  preserves (fun w => w) (CompressorEngine._validate_config E cfg).
Proof. frame. Qed.

Lemma create_backup_folder_fs_only p : fs_only (FileManager.create_backup_folder p).
Proof. fs_only_tac. Qed.

Lemma process_files_fs_only E fuel incl filters :
  forall path files, fs_only (FileManager.process_files E fuel incl filters path files).
Proof.
  induction fuel as [| fuel IH]; intros path files; simpl; fs_only_tac; apply IH.
Qed.
#[local] Hint Resolve process_files_fs_only : fsonly.

Lemma scan_directory_fs_only E d incl filters :
  fs_only (FileManager.scan_directory E d incl filters).
Proof.
  unfold FileManager.scan_directory. fs_only_tac.
Qed.

(** ** The scan only logs *)

Lemma process_files_preserves {X} (f : World -> X) E fuel incl filters :
  (forall g w, f (set_logger g w) = f w) ->
  forall path files,
    preserves f (FileManager.process_files E fuel incl filters path files).
Proof.
  intros Hf. induction fuel as [| fuel IH]; intros path files; simpl; frame; apply IH.
Qed.

#[local] Hint Extern 1 (preserves _ (FileManager.process_files _ _ _ _ _ _)) =>
  apply process_files_preserves; intros; reflexivity : frame.

Lemma process_files_no_hang E fuel incl filters :
  forall path files, no_hang (FileManager.process_files E fuel incl filters path files).
Proof.
  induction fuel as [| fuel IH]; intros path files; simpl; no_hang_tac; apply IH.
Qed.
#[local] Hint Resolve process_files_no_hang : nohang.

Lemma scan_directory_total E d incl filters :
  total (FileManager.scan_directory E d incl filters).
Proof. total_tac. Qed.


Lemma scan_directory_only_logs E d incl filters :
  preserves beside_logger (FileManager.scan_directory E d incl filters).
Proof. frame. Qed.

Lemma start_session_only_logs E : preserves beside_logger (CustomLogger.start_session E).
Proof. frame. Qed.

Lemma end_session_only_logs : preserves beside_logger CustomLogger.end_session.
Proof. frame. Qed.

Lemma end_session_total : total CustomLogger.end_session.
Proof. total_tac. Qed.


Lemma create_backup_folder_frame p :
  preserves beside_logger_fs (FileManager.create_backup_folder p).
Proof. frame. Qed.

(** ** The stages of [compress_files] *)

Lemma bind_modify {B} (g : World -> World) (k : unit -> M B) w :
  bind (modify g) k w = k tt (g w).
Proof. reflexivity. Qed.

Lemma run_total_preserved {A X} (f : World -> X) (m : M A) :
  total m -> preserves f m ->
  forall w, exists a w', m w = (Ret a, w') /\ f w' = f w.
Proof.
  intros Ht Hp w. destruct (run_total m Ht w) as (a & w' & Hm).
  exists a, w'. split; [exact Hm |]. exact (run_preserved f m w _ w' Hp Hm).
Qed.

Lemma finish_session_total : total CompressorEngine.finish_session.
Proof. total_tac. Qed.

Lemma finish_session_frame :
  preserves (fun w => (fs w, backup_operations w, ui w, script w, counter_of w))
            CompressorEngine.finish_session.
Proof. frame. Qed.

Lemma try_finally_ret_eq {A} (m : M A) (fin : M unit) w a w1 w2 :
  m w = (Ret a, w1) -> fin w1 = (Ret tt, w2) -> try_finally m fin w = (Ret a, w2).
Proof. intros Hm Hf. unfold try_finally. rewrite Hm, Hf. reflexivity. Qed.

Lemma try_finally_hang_eq {A} (m : M A) (fin : M unit) w w1 :
  m w = (Hang, w1) -> try_finally m fin w = (Hang, w1).
Proof. intros Hm. unfold try_finally. rewrite Hm. reflexivity. Qed.

Lemma try_except_hang_eq {A} (m : M A) (h : exn -> M A) w w1 :
  m w = (Hang, w1) -> try_except m h w = (Hang, w1).
Proof. intros H. unfold try_except. rewrite H. reflexivity. Qed.

(** [compress_files] is its session run in the world the resets and the
    opening of the logging session leave. *)
Lemma compress_files_unfold E cfg w :
  exists sid w2,
    beside_logger w2 = beside_logger (CompressorEngine.reset_run w)
    /\ CompressorEngine.compress_files E cfg w
       = try_finally
           (try_except (CompressorEngine.run_session E cfg sid)
                       (CompressorEngine.critical_failure sid))
           CompressorEngine.finish_session w2.
Proof.
  destruct (run_total_preserved beside_logger _ (start_session_total E)
              (start_session_only_logs E) (CompressorEngine.reset_run w))
    as (sid & w2 & Hss & Hk).
  exists sid, w2. split; [exact Hk |].
  unfold CompressorEngine.compress_files. rewrite !bind_modify.
  fold (CompressorEngine.reset_run w).
  rewrite (bind_ret_eq _ _ _ _ _ Hss). reflexivity.
Qed.

(** A session that returns is a run that returns the same result. *)
Lemma compress_files_returns E cfg w :
  exists sid w2,
    beside_logger w2 = beside_logger (CompressorEngine.reset_run w)
    /\ (forall r w3,
          CompressorEngine.run_session E cfg sid w2 = (Ret r, w3) ->
          exists w4,
            CompressorEngine.compress_files E cfg w = (Ret r, w4)
            /\ (fs w4, backup_operations w4, ui w4, script w4, counter_of w4)
               = (fs w3, backup_operations w3, ui w3, script w3, counter_of w3))
    /\ (forall w3,
          CompressorEngine.run_session E cfg sid w2 = (Hang, w3) ->
          CompressorEngine.compress_files E cfg w = (Hang, w3)).
Proof.
  destruct (compress_files_unfold E cfg w) as (sid & w2 & Hk & Heq).
  exists sid, w2. split; [exact Hk |]. split.
  - intros r w3 Hrun.
    destruct (run_total_preserved _ _ finish_session_total finish_session_frame w3)
      as ([] & w4 & Hfin & Hkeep).
    exists w4. split; [| exact Hkeep].
    rewrite Heq. eapply try_finally_ret_eq; [| exact Hfin].
    apply try_except_ret_eq. exact Hrun.
  - intros w3 Hrun. rewrite Heq. apply try_finally_hang_eq.
    apply try_except_hang_eq. exact Hrun.
Qed.

(** The validation reads the files and nothing else. *)
Lemma validate_config_run E cfg w w2 errs :
  fst (CompressorEngine._validate_config E cfg w) = Ret errs ->
  fs w2 = fs w ->
  CompressorEngine._validate_config E cfg w2 = (Ret errs, w2).
Proof.
  intros Hv Hfs.
  destruct (validate_config_fs_only E cfg w2 w Hfs) as [Ho _].
  pose proof (validate_config_pure E cfg w2) as Hp.
  destruct (CompressorEngine._validate_config E cfg w2) as [o w'].
  simpl in *. congruence.
Qed.

Lemma scan_directory_run E d incl filters w w2 files :
  fst (FileManager.scan_directory E d incl filters w) = Ret files ->
  fs w2 = fs w ->
  exists w3, FileManager.scan_directory E d incl filters w2 = (Ret files, w3)
             /\ beside_logger w3 = beside_logger w2.
Proof.
  intros Hs Hfs.
  destruct (scan_directory_fs_only E d incl filters w2 w Hfs) as [Ho _].
  pose proof (scan_directory_only_logs E d incl filters w2) as Hp.
  destruct (FileManager.scan_directory E d incl filters w2) as [o w3].
  simpl in *. exists w3. split; [congruence | exact Hp].
Qed.

Lemma create_backup_folder_run p w w2 created :
  fst (FileManager.create_backup_folder p w) = Ret created ->
  fs w2 = fs w ->
  exists w3, FileManager.create_backup_folder p w2 = (Ret created, w3)
             /\ beside_logger_fs w3 = beside_logger_fs w2
             /\ fs w3 = fs (snd (FileManager.create_backup_folder p w)).
Proof.
  intros Hc Hfs.
  destruct (create_backup_folder_fs_only p w2 w Hfs) as [Ho Hf].
  pose proof (create_backup_folder_frame p w2) as Hp.
  destruct (FileManager.create_backup_folder p w2) as [o w3].
  simpl in *. exists w3. split; [congruence |]. split; [exact Hp | exact Hf].
Qed.

(** ** The counts of a run *)

Lemma process_files_result E cfg pol files w :
  ConflictResolution.of_value (CompressionConfig.conflict_resolution cfg) = Ok pol ->
  never_stopped w ->
  match CompressorEngine._process_files E files cfg w with
  | (Ret r, w') => CompressionResult.total_files r = length files
  | (Raise _, _) => False
  | (Hang, _) => True
  end.
Proof.
  intros Hpol Hw. unfold CompressorEngine._process_files.
  pose proof (process_loop_sums E cfg pol Hpol files 0 (length files)
                (Tally 0 0 0 0 []) w Hw) as Hloop.
  unfold bind at 1.
  destruct (CompressorEngine.process_loop E 0 (length files) files cfg
              (Tally 0 0 0 0 []) w) as [[t | e |] w1]; [| contradiction | exact I].
  destruct Hloop as [Hsum _]. unfold tally_sum in Hsum. simpl in Hsum.
  replace (negb (processed t + failed t + skipped t =? length files)%nat) with false
    by (symmetry; apply negb_false_iff, Nat.eqb_eq; exact Hsum).
  simpl. exact Hsum.
Qed.

Lemma bind_log {B} level message file_path (k : unit -> M B) w :
  bind (CustomLogger.log_operation level message file_path) k w
  = k tt (set_logger (CustomLogger.set_queue
                        (fun q => py_append q (LogRecord level message file_path))) w).
Proof. reflexivity. Qed.

Lemma beside_logger_eq w w' :
  beside_logger w' = beside_logger w ->
  fs w' = fs w /\ engine w' = engine w
  /\ backup_operations w' = backup_operations w /\ ui w' = ui w
  /\ script w' = script w.
Proof. unfold beside_logger. intros H. injection H. auto. Qed.

Lemma beside_logger_fs_eq w w' :
  beside_logger_fs w' = beside_logger_fs w ->
  engine w' = engine w
  /\ backup_operations w' = backup_operations w /\ ui w' = ui w
  /\ script w' = script w.
Proof. unfold beside_logger_fs. intros H. injection H. auto. Qed.

(** With a valid configuration, files found and the backup folder made,
    the session is the loop over the files followed by the report, in a world
    that differs from the one the session starts in by the log and by the
    backup folder. *)
Lemma run_session_enters_loop E cfg sid files w w2 :
  fst (CompressorEngine._validate_config E cfg w) = Ret [] ->
  fst (FileManager.scan_directory E (CompressionConfig.source_folder cfg)
         (CompressionConfig.include_subfolders cfg)
         (CompressionConfig.file_filters cfg) w) = Ret files ->
  files <> [] ->
  fst (FileManager.create_backup_folder (CompressionConfig.backup_folder cfg) w)
  = Ret true ->
  fs w2 = fs w ->
  exists w6,
    engine w6 = engine w2 /\ script w6 = script w2
    /\ CompressorEngine.run_session E cfg sid w2
       = bind (CompressorEngine._process_files E files cfg)
              (CompressorEngine.report sid) w6.
Proof.
  intros Hv Hscan Hne Hbk Hfs.
  unfold CompressorEngine.run_session, CompressorEngine.log_operation.
  rewrite (bind_ret_eq _ _ _ _ _ (validate_config_run E cfg w w2 [] Hv Hfs)).
  rewrite bind_log.
  match goal with |- context [bind _ _ ?wl] => set (w_l := wl) end.
  destruct (scan_directory_run E _ _ _ w w_l files Hscan Hfs) as (w3 & Hs3 & Hk3).
  rewrite (bind_ret_eq _ _ _ _ _ Hs3).
  destruct files as [| f rest]; [contradiction |].
  unfold CustomLogger.update_session_stats_total_files, CustomLogger.update_stats.
  rewrite bind_modify, bind_log.
  match goal with |- context [bind _ _ ?wl] => set (w5 := wl) end.
  apply beside_logger_eq in Hk3 as (Hf3 & He3 & _ & _ & Hsc3).
  assert (Hfs5 : fs w5 = fs w).
  { transitivity (fs w3); [reflexivity |]. rewrite Hf3. exact Hfs. }
  destruct (create_backup_folder_run _ w w5 true Hbk Hfs5) as (w6 & Hc6 & Hk6 & _).
  rewrite (bind_ret_eq _ _ _ _ _ Hc6). cbn [negb].
  apply beside_logger_fs_eq in Hk6 as (He6 & _ & _ & Hsc6).
  exists w6. split; [| split; [| reflexivity]].
  - rewrite He6. transitivity (engine w3); [reflexivity | exact He3].
  - rewrite Hsc6. transitivity (script w3); [reflexivity | exact Hsc3].
Qed.

Lemma run_session_processes E cfg sid pol files w w2 :
  fst (CompressorEngine._validate_config E cfg w) = Ret [] ->
  ConflictResolution.of_value (CompressionConfig.conflict_resolution cfg) = Ok pol ->
  fst (FileManager.scan_directory E (CompressionConfig.source_folder cfg)
         (CompressionConfig.include_subfolders cfg)
         (CompressionConfig.file_filters cfg) w) = Ret files ->
  files <> [] ->
  fst (FileManager.create_backup_folder (CompressionConfig.backup_folder cfg) w)
  = Ret true ->
  fs w2 = fs w ->
  never_stopped w2 ->
  (exists wh, CompressorEngine.run_session E cfg sid w2 = (Hang, wh))
  \/ exists r w3,
       CompressorEngine.run_session E cfg sid w2 = (Ret r, w3)
       /\ CompressionResult.total_files r = length files.
Proof.
  intros Hv Hpol Hscan Hne Hbk Hfs [Hst Hq].
  destruct (run_session_enters_loop E cfg sid files w w2 Hv Hscan Hne Hbk Hfs)
    as (w6 & He6 & Hsc6 & Heq).
  rewrite Heq.
  assert (Hw6 : never_stopped w6).
  { split; [rewrite He6; exact Hst | rewrite Hsc6; exact Hq]. }
  pose proof (process_files_result E cfg pol files w6 Hpol Hw6) as Hres.
  destruct (CompressorEngine._process_files E files cfg w6)
    as [[r | e |] w7] eqn:Hpf; [| contradiction |].
  - right. rewrite (bind_ret_eq _ _ _ _ _ Hpf).
    unfold CompressorEngine.report, CompressorEngine.log_operation. rewrite bind_log.
    eexists _, _. split; [reflexivity |]. exact Hres.
  - left. exists w7. apply bind_hang_eq. exact Hpf.
Qed.

Lemma running_counts_hold E cfg pol files :
  ConflictResolution.of_value (CompressionConfig.conflict_resolution cfg) = Ok pol ->
  running_counts E cfg files.
Proof.
  intros Hpol w n k Hw Hk. split.
  - rewrite <- (take_drop k files) at 1.
    rewrite (process_loop_app E cfg (take k files) (drop k files) 0 n empty_tally w Hw).
    rewrite length_take, Nat.min_l by lia. reflexivity.
  - intros t_k w_k Hrun.
    pose proof (process_loop_sums E cfg pol Hpol (take k files) 0 n empty_tally w Hw)
      as Hs.
    rewrite Hrun in Hs. destruct Hs as [Hs _].
    rewrite length_take, Nat.min_l in Hs by lia. exact Hs.
Qed.

Lemma reset_run_never_stopped w :
  Forall quiet (script w) -> never_stopped (CompressorEngine.reset_run w).
Proof. intros Hq. split; [reflexivity | exact Hq]. Qed.

(** With a conflict policy that is one of the enumeration the counters add
    up: for a configuration that passes the validation and whose backup
    folder can be made, over a scan that finds files, a run that is not
    stopped and not left blocked on a pause returns a result whose three
    counters add up to the number of files found; and between any two files
    of the loop the running counters add up to the number of files gone
    through so far. *)
Lemma compress_files_counts_add_up E cfg pol files w :
  fst (CompressorEngine._validate_config E cfg w) = Ret [] ->
  ConflictResolution.of_value (CompressionConfig.conflict_resolution cfg) = Ok pol ->
  fst (FileManager.scan_directory E (CompressionConfig.source_folder cfg)
         (CompressionConfig.include_subfolders cfg)
         (CompressionConfig.file_filters cfg) w) = Ret files ->
  files <> [] ->
  fst (FileManager.create_backup_folder (CompressionConfig.backup_folder cfg) w)
  = Ret true ->
  Forall quiet (script w) ->
  fst (CompressorEngine.compress_files E cfg w) <> Hang ->
  (exists r, fst (CompressorEngine.compress_files E cfg w) = Ret r
             /\ CompressionResult.total_files r = length files)
  /\ running_counts E cfg files.
Proof.
  intros Hv Hpol Hscan Hne Hbk Hq Hnh.
  split; [| exact (running_counts_hold E cfg pol files Hpol)].
  destruct (compress_files_returns E cfg w) as (sid & w2 & Hk & Hret & Hhang).
  apply beside_logger_eq in Hk as (Hf2 & He2 & _ & _ & Hsc2).
  assert (Hw2 : never_stopped w2).
  { destruct (reset_run_never_stopped w Hq) as [Hst Hq'].
    split; [rewrite He2; exact Hst | rewrite Hsc2; exact Hq']. }
  destruct (run_session_processes E cfg sid pol files w w2 Hv Hpol Hscan Hne Hbk Hf2 Hw2)
    as [[wh Hh] | (r & w3 & Hrun & Htot)].
  - exfalso. apply Hnh. rewrite (Hhang wh Hh). reflexivity.
  - destruct (Hret r w3 Hrun) as (w4 & Hc & _).
    exists r. rewrite Hc. split; [reflexivity | exact Htot].
Qed.

Lemma compress_files_counts_add_up_witness :
  (exists r, fst (CompressorEngine.compress_files Sample.env Sample.config Sample.world)
             = Ret r
             /\ CompressionResult.total_files r = length Sample_files)
  /\ running_counts Sample.env Sample.config Sample_files.
Proof.
  apply (compress_files_counts_add_up Sample.env Sample.config
           ConflictResolution.RENAME Sample_files Sample.world).
  - vm_compute. reflexivity.
  - reflexivity.
  - vm_compute. reflexivity.
  - discriminate.
  - vm_compute. reflexivity.
  - constructor.
  - vm_compute. discriminate.
Defined.

(** C1. The counters do not add up for every valid configuration: the
    conflict policy is a string that no validation looks at, and with one
    that is none of the four of the enumeration the loop counts a file whose
    archive was written as processed and, the relocation step raising, as
    failed too.  On the sample, which is valid also in the words of the
    specification, the run over the two files found is not stopped and
    returns with two files processed and two failed, four in all, the loop's
    own check of the counters logs the discrepancy, and the loop over the
    first file alone, started with the backup folder in place, ends with
    counters that add up to two. *)
Theorem unknown_policy_run_counts_four_for_two :
  spec_valid Sample.env Sample_unknown_policy Sample.world
  /\ fst (CompressorEngine._validate_config Sample.env Sample_unknown_policy
            Sample.world) = Ret []
  /\ fst (FileManager.scan_directory Sample.env
            (CompressionConfig.source_folder Sample_unknown_policy)
            (CompressionConfig.include_subfolders Sample_unknown_policy)
            (CompressionConfig.file_filters Sample_unknown_policy) Sample.world)
     = Ret Sample_files
  /\ length Sample_files = 2%nat
  /\ Forall quiet (script Sample.world)
  /\ exists r w',
       CompressorEngine.compress_files Sample.env Sample_unknown_policy Sample.world
       = (Ret r, w')
       /\ CompressionResult.processed_files r = 2%nat
       /\ CompressionResult.failed_files r = 2%nat
       /\ CompressionResult.skipped_files r = 0%nat
       /\ CompressionResult.total_files r = 4%nat
       /\ CompressionResult.total_files r <> length Sample_files
       /\ LogRecord "WARNING" "Discrepancia en conteo: 4 procesados vs 2 encontrados"
                    None
          ∈ log_queue (logger w')
       /\ exists t1 w1,
            CompressorEngine.process_loop Sample.env 0 2 (take 1 Sample_files)
              Sample_unknown_policy empty_tally Sample_with_backup
            = (Ret t1, w1)
            /\ tally_sum t1 = 2%nat.
Proof.
  split.
  { split; [eexists; reflexivity |]. split; [cbn; lia |].
    split; [left; eexists; reflexivity | vm_compute; reflexivity]. }
  split; [vm_compute; reflexivity |].
  split; [vm_compute; reflexivity |].
  split; [reflexivity |].
  split; [constructor |].
  eexists _, _. split; [vm_compute; reflexivity |].
  cbn [CompressionResult.processed_files CompressionResult.failed_files
       CompressionResult.skipped_files CompressionResult.total_files
       logger log_queue].
  do 5 (split; [first [reflexivity | discriminate] |]).
  split; [do 9 apply list_elem_of_further; apply list_elem_of_here |].
  eexists _, _. split; [vm_compute; reflexivity | reflexivity].
Qed.

(** ** The state a run starts from *)

Lemma compress_files_ignores_counter E cfg c w :
  CompressorEngine.compress_files E cfg (with_counter c w)
  = CompressorEngine.compress_files E cfg w.
Proof. reflexivity. Qed.

Lemma compress_files_ignores_is_running E cfg b w :
  CompressorEngine.compress_files E cfg (with_is_running b w)
  = CompressorEngine.compress_files E cfg w.
Proof. reflexivity. Qed.

(** C9. A run does not depend on the value the counter had when it was
    called, and the loop over the files it found starts with the counter at
    1: [compress_files] is its session run from a world [w2], the session is
    the loop followed by the report run from a world [w6], and in [w6] the
    counter is 1.  The configuration has no field that could seed it. *)
Theorem compress_files_counter_starts_at_one E cfg files w :
  fst (CompressorEngine._validate_config E cfg w) = Ret [] ->
  fst (FileManager.scan_directory E (CompressionConfig.source_folder cfg)
         (CompressionConfig.include_subfolders cfg)
         (CompressionConfig.file_filters cfg) w) = Ret files ->
  files <> [] ->
  fst (FileManager.create_backup_folder (CompressionConfig.backup_folder cfg) w)
  = Ret true ->
  (forall c, CompressorEngine.compress_files E cfg (with_counter c w)
             = CompressorEngine.compress_files E cfg w)
  /\ exists sid w2 w6,
       CompressorEngine.compress_files E cfg w
       = try_finally
           (try_except (CompressorEngine.run_session E cfg sid)
                       (CompressorEngine.critical_failure sid))
           CompressorEngine.finish_session w2
       /\ CompressorEngine.run_session E cfg sid w2
          = bind (CompressorEngine._process_files E files cfg)
                 (CompressorEngine.report sid) w6
       /\ counter_of w6 = 1.
Proof.
  intros Hv Hscan Hne Hbk. split.
  - intros c. apply compress_files_ignores_counter.
  - destruct (compress_files_unfold E cfg w) as (sid & w2 & Hk & Heq).
    apply beside_logger_eq in Hk as (Hf2 & He2 & _ & _ & _).
    destruct (run_session_enters_loop E cfg sid files w w2 Hv Hscan Hne Hbk Hf2)
      as (w6 & He6 & _ & Hrun).
    exists sid, w2, w6. split; [exact Heq |]. split; [exact Hrun |].
    unfold counter_of. rewrite He6, He2. reflexivity.
Qed.

Lemma compress_files_counter_starts_at_one_witness :
  (forall c, CompressorEngine.compress_files Sample.env Sample.config
               (with_counter c Sample.world)
             = CompressorEngine.compress_files Sample.env Sample.config Sample.world)
  /\ exists sid w2 w6,
       CompressorEngine.compress_files Sample.env Sample.config Sample.world
       = try_finally
           (try_except (CompressorEngine.run_session Sample.env Sample.config sid)
                       (CompressorEngine.critical_failure sid))
           CompressorEngine.finish_session w2
       /\ CompressorEngine.run_session Sample.env Sample.config sid w2
          = bind (CompressorEngine._process_files Sample.env Sample_files Sample.config)
                 (CompressorEngine.report sid) w6
       /\ counter_of w6 = 1.
Proof.
  apply (compress_files_counter_starts_at_one Sample.env Sample.config Sample_files
           Sample.world).
  - vm_compute. reflexivity.
  - vm_compute. reflexivity.
  - discriminate.
  - vm_compute. reflexivity.
Defined.

(** C4, as the code has it. [compress_files] does not look at [is_running]:
    called on an engine on which the flag is set, it runs as it does on one
    where it is clear, to the same result and the same final state. *)
Theorem second_start_runs_like_first E cfg b w :
  CompressorEngine.compress_files E cfg (with_is_running b w)
  = CompressorEngine.compress_files E cfg w.
Proof. apply compress_files_ignores_is_running. Qed.

(** C4, as stated, fails: on the sample engine with [is_running] set, the
    second start is carried out and reports success. *)
Lemma second_start_not_rejected :
  ~ second_start_rejected Sample.env Sample.config Sample_running.
Proof.
  intros H. destruct (H eq_refl) as [(e & w' & Heq) | (r & w' & Heq & Hs & _)].
  - vm_compute in Heq. discriminate.
  - vm_compute in Heq. injection Heq as <- _. discriminate.
Qed.

(** ** A scan that finds nothing *)

Lemma run_session_empty E cfg sid w w2 :
  fst (CompressorEngine._validate_config E cfg w) = Ret [] ->
  fst (FileManager.scan_directory E (CompressionConfig.source_folder cfg)
         (CompressionConfig.include_subfolders cfg)
         (CompressionConfig.file_filters cfg) w) = Ret [] ->
  fs w2 = fs w ->
  exists w3,
    CompressorEngine.run_session E cfg sid w2
    = (Ret (CompressionResult.mk true 0 0 0 0 [] sid), w3)
    /\ beside_logger w3 = beside_logger w2.
Proof.
  intros Hv Hscan Hfs.
  unfold CompressorEngine.run_session, CompressorEngine.log_operation.
  rewrite (bind_ret_eq _ _ _ _ _ (validate_config_run E cfg w w2 [] Hv Hfs)).
  rewrite bind_log.
  match goal with |- context [bind _ _ ?wl] => set (w_l := wl) end.
  destruct (scan_directory_run E _ _ _ w w_l [] Hscan Hfs) as (w3 & Hs3 & Hk3).
  rewrite (bind_ret_eq _ _ _ _ _ Hs3), bind_log.
  eexists. split; [reflexivity |].
  apply beside_logger_eq in Hk3 as (? & ? & ? & ? & ?).
  unfold beside_logger. cbn. subst w_l. cbn in *. congruence.
Qed.

(** C10. When the configuration passes the validation and the scan finds no
    file, the run returns success with all counters, the bytes saved and the
    error list empty; the files and folders are what they were (no backup
    folder is made) and no relocation is recorded. *)
Theorem compress_files_empty_scan E cfg w :
  fst (CompressorEngine._validate_config E cfg w) = Ret [] ->
  fst (FileManager.scan_directory E (CompressionConfig.source_folder cfg)
         (CompressionConfig.include_subfolders cfg)
         (CompressionConfig.file_filters cfg) w) = Ret [] ->
  exists sid w',
    CompressorEngine.compress_files E cfg w
    = (Ret (CompressionResult.mk true 0 0 0 0 [] sid), w')
    /\ fs w' = fs w
    /\ backup_operations w' = backup_operations w.
Proof.
  intros Hv Hscan.
  destruct (compress_files_returns E cfg w) as (sid & w2 & Hk & Hret & _).
  apply beside_logger_eq in Hk as (Hf2 & _ & Hb2 & _ & _).
  destruct (run_session_empty E cfg sid w w2 Hv Hscan Hf2) as (w3 & Hrun & Hk3).
  apply beside_logger_eq in Hk3 as (Hf3 & _ & Hb3 & _ & _).
  destruct (Hret _ w3 Hrun) as (w4 & Hc & Hkeep).
  exists sid, w4. split; [exact Hc |].
  injection Hkeep as Hf4 Hb4 _ _ _.
  split; [rewrite Hf4, Hf3, Hf2 | rewrite Hb4, Hb3, Hb2]; reflexivity.
Qed.

Lemma compress_files_empty_scan_witness :
  exists sid w',
    CompressorEngine.compress_files Sample.env Sample.config Sample_empty
    = (Ret (CompressionResult.mk true 0 0 0 0 [] sid), w')
    /\ fs w' = fs Sample_empty
    /\ backup_operations w' = backup_operations Sample_empty.
Proof.
  apply (compress_files_empty_scan Sample.env Sample.config Sample_empty).
  - vm_compute. reflexivity.
  - vm_compute. reflexivity.
Defined.

(** ** Validation *)

Lemma validate_config_accepts E cfg w :
  fst (CompressorEngine._validate_config E cfg w) = Ret [] <-> validated E cfg w.
Proof.
  unfold CompressorEngine._validate_config, validated,
    FileManager.validate_permissions_readable, Os.exists_, Os.is_dir, Os.access_R.
  cbv [bind gets ret fst].
  destruct (fs w !! CompressionConfig.source_folder cfg) as [[sz r wr z | r wr] |] eqn:Hsrc;
    cbn [negb py_append app]; rewrite ?Hsrc;
    try destruct r;
    destruct ((0 <=? CompressionConfig.compression_level cfg)
              && (CompressionConfig.compression_level cfg <=? 9)) eqn:Hl;
    destruct (bool_decide
                (is_Some (CompressorEngine.lookup_pattern E
                            (CompressionConfig.naming_pattern cfg)))) eqn:Hk;
    destruct (String.eqb (CompressionConfig.naming_pattern cfg) "personalizado")
      eqn:Hc;
    cbn [negb andb py_append app];
    (split;
     [ intros H;
       first [ discriminate H
             | apply andb_true_iff in Hl as [Hl1%Z.leb_le Hl2%Z.leb_le];
               split; [eexists; reflexivity | split; [lia |]];
               first [ left; apply bool_decide_eq_true in Hk; exact Hk
                     | right; apply String.eqb_eq in Hc; exact Hc ] ]
     | intros ((wr' & Hw) & Hlv & Hp);
       first [ reflexivity
             | discriminate Hw
             | exfalso; apply andb_false_iff in Hl as [Hl%Z.leb_gt | Hl%Z.leb_gt]; lia
             | exfalso; apply bool_decide_eq_false in Hk; apply String.eqb_neq in Hc;
               destruct Hp as [Hp | Hp]; contradiction ] ]).
Qed.

Lemma run_session_invalid E cfg sid w w2 errs :
  fst (CompressorEngine._validate_config E cfg w) = Ret errs ->
  errs <> [] ->
  fs w2 = fs w ->
  exists w3,
    CompressorEngine.run_session E cfg sid w2
    = (Ret (CompressorEngine.failed_result errs sid), w3)
    /\ beside_logger w3 = beside_logger w2.
Proof.
  intros Hv Hne Hfs.
  unfold CompressorEngine.run_session, CompressorEngine.log_operation.
  rewrite (bind_ret_eq _ _ _ _ _ (validate_config_run E cfg w w2 errs Hv Hfs)).
  destruct errs as [| e errs]; [contradiction |].
  rewrite bind_log. eexists. split; reflexivity.
Qed.

(** ** Making the backup folder *)

Lemma only_new_dirs_refl m : only_new_dirs m m.
Proof. intros q. left. reflexivity. Qed.

Lemma only_new_dirs_trans m1 m2 m3 :
  only_new_dirs m1 m2 -> only_new_dirs m2 m3 -> only_new_dirs m1 m3.
Proof.
  intros H12 H23 q. destruct (H12 q) as [H | [H1 H2]], (H23 q) as [H' | [H1' H2']].
  - left. congruence.
  - right. split; congruence.
  - right. split; congruence.
  - congruence.
Qed.

Lemma mkdir1_only_new_dirs p m m' : Os.mkdir1 p m = Ok m' -> only_new_dirs m m'.
Proof.
  unfold Os.mkdir1. destruct (m !! p) eqn:Hp; [discriminate |].
  destruct (Os.parent_check p m); [| discriminate].
  intros [= <-] q. destruct (decide (q = p)) as [-> | Hne].
  - right. split; [exact Hp | apply lookup_insert_eq].
  - left. apply lookup_insert_ne. congruence.
Qed.

Lemma mkdir_rec_only_new_dirs fuel : forall p m m',
  Os.mkdir_rec fuel p m = Ok m' -> only_new_dirs m m'.
Proof.
  induction fuel as [| fuel IH]; intros p m m'; simpl.
  - destruct (Os.mkdir1 p m) as [m1 | e] eqn:H1.
    + intros [= <-]. exact (mkdir1_only_new_dirs _ _ _ H1).
    + destruct e; try (destruct (Os.is_dir_in p m); intros [= <-];
                       apply only_new_dirs_refl).
      destruct (String.eqb _ _); discriminate.
  - destruct (Os.mkdir1 p m) as [m1 | e] eqn:H1.
    + intros [= <-]. exact (mkdir1_only_new_dirs _ _ _ H1).
    + destruct e; try (destruct (Os.is_dir_in p m); intros [= <-];
                       apply only_new_dirs_refl).
      destruct (String.eqb _ _); [discriminate |].
      destruct (Os.mkdir_rec fuel (PyPath.parent p) m) as [m1 | e] eqn:Hrec;
        [| discriminate].
      specialize (IH _ _ _ Hrec).
      destruct (Os.mkdir1 p m1) as [m2 | e] eqn:H2.
      * intros [= <-]. eapply only_new_dirs_trans; [exact IH |].
        exact (mkdir1_only_new_dirs _ _ _ H2).
      * destruct (Os.is_dir_in p m1); intros [= <-]. exact IH.
Qed.

Lemma mkdir_parents_only_new_dirs p w :
  only_new_dirs (fs w) (fs (snd (Os.mkdir_parents p w))).
Proof.
  unfold Os.mkdir_parents.
  destruct (Os.mkdir_rec (String.length p) p (fs w)) as [m' | e] eqn:Hm; simpl.
  - exact (mkdir_rec_only_new_dirs _ _ _ _ Hm).
  - apply only_new_dirs_refl.
Qed.

Lemma create_backup_folder_fs p :
  changes_like fs (FileManager.create_backup_folder p) (Os.mkdir_parents p).
Proof.
  unfold FileManager.create_backup_folder.
  apply changes_like_try_except; [| intros; frame].
  apply changes_like_bind_head. intros; frame.
Qed.

Lemma create_backup_folder_only_new_dirs p w :
  only_new_dirs (fs w) (fs (snd (FileManager.create_backup_folder p w))).
Proof. rewrite create_backup_folder_fs. apply mkdir_parents_only_new_dirs. Qed.

Lemma run_session_no_backup E cfg sid files w w2 :
  fst (CompressorEngine._validate_config E cfg w) = Ret [] ->
  fst (FileManager.scan_directory E (CompressionConfig.source_folder cfg)
         (CompressionConfig.include_subfolders cfg)
         (CompressionConfig.file_filters cfg) w) = Ret files ->
  files <> [] ->
  fst (FileManager.create_backup_folder (CompressionConfig.backup_folder cfg) w)
  = Ret false ->
  fs w2 = fs w ->
  exists w3,
    CompressorEngine.run_session E cfg sid w2
    = (Ret (CompressorEngine.failed_result
              ["No se pudo crear carpeta de respaldo: "
               ++ CompressionConfig.backup_folder cfg] sid), w3)
    /\ fs w3 = fs (snd (FileManager.create_backup_folder
                          (CompressionConfig.backup_folder cfg) w))
    /\ backup_operations w3 = backup_operations w2.
Proof.
  intros Hv Hscan Hne Hbk Hfs.
  unfold CompressorEngine.run_session, CompressorEngine.log_operation.
  rewrite (bind_ret_eq _ _ _ _ _ (validate_config_run E cfg w w2 [] Hv Hfs)).
  rewrite bind_log.
  match goal with |- context [bind _ _ ?wl] => set (w_l := wl) end.
  destruct (scan_directory_run E _ _ _ w w_l files Hscan Hfs) as (w3 & Hs3 & Hk3).
  rewrite (bind_ret_eq _ _ _ _ _ Hs3).
  destruct files as [| f rest]; [contradiction |].
  unfold CustomLogger.update_session_stats_total_files, CustomLogger.update_stats.
  rewrite bind_modify, bind_log.
  match goal with |- context [bind _ _ ?wl] => set (w5 := wl) end.
  apply beside_logger_eq in Hk3 as (Hf3 & _ & Hb3 & _ & _).
  assert (Hfs5 : fs w5 = fs w).
  { transitivity (fs w3); [reflexivity |]. rewrite Hf3. exact Hfs. }
  destruct (create_backup_folder_run _ w w5 false Hbk Hfs5) as (w6 & Hc6 & Hk6 & Hf6).
  rewrite (bind_ret_eq _ _ _ _ _ Hc6). cbn [negb]. rewrite bind_log.
  apply beside_logger_fs_eq in Hk6 as (_ & Hb6 & _ & _).
  eexists. split; [reflexivity |]. split.
  - exact Hf6.
  - cbn. rewrite Hb6. transitivity (backup_operations w3); [reflexivity | exact Hb3].
Qed.

(** C7, as the code has it.  When [_validate_config] finds an error (the
    source is not a readable directory, the level is outside 0..9, or the
    pattern is neither configured nor ["personalizado"]), and when it passes,
    files are found and the backup folder cannot be made, the run returns a
    failure carrying the errors, with all counters at zero; nothing that
    existed is removed or replaced, no relocation is recorded, and in the
    first case the files and folders are exactly what they were. *)
Theorem compress_files_refused E cfg w errs :
  refused E cfg w errs ->
  exists sid w',
    errs <> []
    /\ CompressorEngine.compress_files E cfg w
       = (Ret (CompressorEngine.failed_result errs sid), w')
    /\ only_new_dirs (fs w) (fs w')
    /\ backup_operations w' = backup_operations w
    /\ (~ validated E cfg w -> fs w' = fs w).
Proof.
  intros Href.
  destruct (compress_files_returns E cfg w) as (sid & w2 & Hk & Hret & _).
  apply beside_logger_eq in Hk as (Hf2 & _ & Hb2 & _ & _).
  destruct Href as [[Hnv Hv] | (Hval & (files & Hne & Hscan) & Hbk & ->)].
  - assert (Herrs : errs <> []).
    { intros ->. apply Hnv. apply validate_config_accepts. exact Hv. }
    destruct (run_session_invalid E cfg sid w w2 errs Hv Herrs Hf2) as (w3 & Hrun & Hk3).
    apply beside_logger_eq in Hk3 as (Hf3 & _ & Hb3 & _ & _).
    destruct (Hret _ w3 Hrun) as (w4 & Hc & Hkeep).
    injection Hkeep as Hf4 Hb4 _ _ _.
    assert (Hfs : fs w4 = fs w) by (rewrite Hf4, Hf3, Hf2; reflexivity).
    exists sid, w4. split; [exact Herrs |]. split; [exact Hc |]. split.
    + rewrite Hfs. apply only_new_dirs_refl.
    + split; [rewrite Hb4, Hb3, Hb2; reflexivity | intros _; exact Hfs].
  - apply validate_config_accepts in Hval as Hv.
    destruct (run_session_no_backup E cfg sid files w w2 Hv Hscan Hne Hbk Hf2)
      as (w3 & Hrun & Hf3 & Hb3).
    destruct (Hret _ w3 Hrun) as (w4 & Hc & Hkeep).
    injection Hkeep as Hf4 Hb4 _ _ _.
    exists sid, w4. split; [discriminate |]. split; [exact Hc |]. split.
    + rewrite Hf4, Hf3. apply create_backup_folder_only_new_dirs.
    + split; [rewrite Hb4, Hb3, Hb2; reflexivity | intros Hnv; contradiction].
Qed.

Lemma sample_bad_level_refused :
  refused Sample.env Sample_bad_level Sample.world
          ["Nivel de compresión debe estar entre 0 y 9"].
Proof.
  left. split.
  - intros (_ & Hl & _). simpl in Hl. lia.
  - vm_compute. reflexivity.
Qed.

Lemma compress_files_refused_witness :
  exists sid w',
    ["Nivel de compresión debe estar entre 0 y 9"] <> []
    /\ CompressorEngine.compress_files Sample.env Sample_bad_level Sample.world
       = (Ret (CompressorEngine.failed_result
                 ["Nivel de compresión debe estar entre 0 y 9"] sid), w')
    /\ only_new_dirs (fs Sample.world) (fs w')
    /\ backup_operations w' = backup_operations Sample.world
    /\ (~ validated Sample.env Sample_bad_level Sample.world -> fs w' = fs Sample.world).
Proof.
  apply (compress_files_refused Sample.env Sample_bad_level Sample.world
           ["Nivel de compresión debe estar entre 0 y 9"]).
  exact sample_bad_level_refused.
Defined.

(** C7, as stated, fails: with a file standing where the backup folder
    should be made the configuration is not valid in the specification's
    sense, yet over an empty source folder the run reports success. *)
Lemma invalid_backup_root_not_failed :
  ~ (~ spec_valid Sample.env Sample.config Sample_blocked_backup ->
     fails_untouched Sample.env Sample.config Sample_blocked_backup).
Proof.
  intros H.
  assert (Hns : ~ spec_valid Sample.env Sample.config Sample_blocked_backup).
  { intros (_ & _ & _ & Hb). vm_compute in Hb. discriminate. }
  destruct (H Hns) as (r & w' & Heq & Hs & _).
  vm_compute in Heq. injection Heq as <- _. discriminate.
Qed.

(** ** Writing and checking an archive *)

Lemma open_w_ret zip_path w w1 :
  Zip.open_w zip_path w = (Ret tt, w1) ->
  exists r wr,
    w1 = set_fs (<[zip_path := NFile 0 r wr None]>) w
    /\ (fs w !! zip_path = None -> r = true).
Proof.
  unfold Zip.open_w.
  destruct (fs w !! zip_path) as [[sz0 r0 wr0 z0 | r0 wr0] |] eqn:Hz.
  - destruct wr0; [| discriminate]. intros [= <-].
    exists r0, true. split; [reflexivity | intros [=]].
  - discriminate.
  - destruct (Os.parent_check zip_path (fs w)); [| discriminate]. intros [= <-].
    exists true, true. split; [reflexivity | reflexivity].
Qed.

Lemma write_file_not_dir E zip_path level filename arcname w w' :
  Zip.write_file E zip_path level filename arcname w = (Ret tt, w') ->
  forall r wr, fs w !! zip_path <> Some (NDir r wr).
Proof.
  unfold Zip.write_file. intros Hw r wr Hz.
  assert (Hopen : Zip.open_w zip_path w = (Raise (IsADirectoryError zip_path), w))
    by (unfold Zip.open_w; rewrite Hz; reflexivity).
  rewrite (bind_raise_eq _ _ _ _ _ Hopen) in Hw. discriminate.
Qed.

Lemma close_w_run zip_path es sz w s0 r wr z :
  fs w !! zip_path = Some (NFile s0 r wr z) ->
  Zip.close_w zip_path es sz w
  = (Ret tt, set_fs (<[zip_path := NFile sz r wr (Some es)]>) w).
Proof.
  intros H. unfold Zip.close_w, modify, set_fs. rewrite H. reflexivity.
Qed.

Lemma write_file_ret E zip_path level filename arcname w w' :
  Zip.write_file E zip_path level filename arcname w = (Ret tt, w') ->
  exists sz r wr e,
    w' = set_fs (<[zip_path := NFile sz r wr (Some [e])]>) w
    /\ (fs w !! zip_path = None -> r = true)
    /\ e_crc_ok e = negb (bad_media E zip_path)
    /\ (filename = zip_path -> e_name e = arcname /\ e_size e = 0)
    /\ (filename <> zip_path ->
        forall ssz sr sw sz', fs w !! filename = Some (NFile ssz sr sw sz') ->
                              e_name e = arcname /\ e_size e = ssz).
Proof.
  unfold Zip.write_file.
  destruct (Zip.open_w zip_path w) as [[[] | e |] w1] eqn:Hopen;
    [| rewrite (bind_raise_eq _ _ _ _ _ Hopen); discriminate
     | rewrite (bind_hang_eq _ _ _ _ Hopen); discriminate].
  rewrite (bind_ret_eq _ _ _ _ _ Hopen), bind_gets.
  apply open_w_ret in Hopen as (r & wr & -> & Hr).
  assert (Hz : fs (set_fs (<[zip_path := NFile 0 r wr None]>) w) !! zip_path
               = Some (NFile 0 r wr None)) by apply lookup_insert_eq.
  assert (Hfin : forall es sz,
            Zip.close_w zip_path es sz (set_fs (<[zip_path := NFile 0 r wr None]>) w)
            = (Ret tt, set_fs (<[zip_path := NFile sz r wr (Some es)]>) w)).
  { intros es sz. rewrite (close_w_run _ _ _ _ _ _ _ _ Hz).
    unfold set_fs. cbn [fs logger engine backup_operations ui script].
    rewrite insert_insert_eq. reflexivity. }
  destruct (fs (set_fs (<[zip_path := NFile 0 r wr None]>) w) !! filename)
    as [[ssz sr sw sz' | sr sw] |] eqn:Hsrc.
  - destruct sr; cbn [negb].
    + destruct ((-1 <=? level) && (level <=? 9)); cbn [negb]; [| discriminate].
      rewrite Hfin. intros [= <-]. eexists _, _, _, _.
      split; [reflexivity |]. split; [exact Hr |]. split; [reflexivity |].
      cbn [e_name e_size]. split.
      * intros ->. rewrite Hz in Hsrc. injection Hsrc as <- _ _ _. auto.
      * intros Hne ssz0 sr0 sw0 sz0 Hf. cbn [fs set_fs] in Hsrc.
        rewrite lookup_insert_ne in Hsrc by congruence.
        rewrite Hf in Hsrc. injection Hsrc as -> _ _ _. auto.
    + rewrite (bind_ret_eq _ _ _ _ _ (Hfin _ _)). discriminate.
  - rewrite Hfin. intros [= <-]. eexists _, _, _, _.
    split; [reflexivity |]. split; [exact Hr |]. split; [reflexivity |].
    split.
    + intros ->. rewrite Hz in Hsrc. discriminate.
    + intros Hne ssz0 sr0 sw0 sz0 Hf. cbn [fs set_fs] in Hsrc.
      rewrite lookup_insert_ne in Hsrc by congruence. congruence.
  - rewrite (bind_ret_eq _ _ _ _ _ (Hfin _ _)). discriminate.
Qed.

(** [_verify_zip_integrity] on an archive of one member. *)
Lemma verify_single_member zip_path f w sz r wr e :
  fs w !! zip_path = Some (NFile sz r wr (Some [e])) ->
  CompressorEngine._verify_zip_integrity zip_path f w
  = (Ret (r && (e_crc_ok e || negb (PyStr.truthy (e_name e)))
            && String.eqb (e_name e) (FileInfo.name f)
            && (e_size e =? FileInfo.size f)), w).
Proof.
  intros Hz. unfold CompressorEngine._verify_zip_integrity, try_except, bind at 1,
    Zip.open_r.
  rewrite Hz. destruct r; [| reflexivity]. cbn [andb].
  unfold Zip.testzip, Zip.namelist, Zip.getinfo. cbn [List.find map rev app fmap].
  destruct (e_crc_ok e) eqn:Hcrc; cbn [negb orb option_fmap option_map].
  - destruct (String.eqb (e_name e) (FileInfo.name f)) eqn:Hn.
    + apply String.eqb_eq in Hn.
      rewrite bool_decide_eq_true_2 by (rewrite Hn; left).
      cbn. destruct (e_size e =? FileInfo.size f); reflexivity.
    + apply String.eqb_neq in Hn.
      rewrite bool_decide_eq_false_2; [reflexivity |].
      intros Hin. apply list_elem_of_singleton in Hin. congruence.
  - change (e_name <$> Some e) with (Some (e_name e)).
    destruct (PyStr.truthy (e_name e)); cbn [negb]; [reflexivity |].
    destruct (String.eqb (e_name e) (FileInfo.name f)) eqn:Hn.
    + apply String.eqb_eq in Hn.
      rewrite bool_decide_eq_true_2 by (rewrite Hn; left).
      cbn. destruct (e_size e =? FileInfo.size f); reflexivity.
    + apply String.eqb_neq in Hn.
      rewrite bool_decide_eq_false_2; [reflexivity |].
      intros Hin. apply list_elem_of_singleton in Hin. congruence.
Qed.

Lemma log_file_operation_run E op path status osz csz msg w :
  exists w', CustomLogger.log_file_operation E op path status osz csz msg w = (Ret tt, w')
             /\ beside_logger w' = beside_logger w.
Proof.
  assert (Ht : total (CustomLogger.log_file_operation E op path status osz csz msg))
    by total_tac.
  assert (Hp : preserves beside_logger
                 (CustomLogger.log_file_operation E op path status osz csz msg))
    by frame.
  destruct (run_total_preserved _ _ Ht Hp w) as ([] & w' & H1 & H2). eauto.
Qed.

Lemma call_file_callback_run op nm status w :
  exists w', CompressorEngine.call_file_callback op nm status w = (Ret tt, w')
             /\ fs w' = fs w /\ backup_operations w' = backup_operations w
             /\ logger w' = logger w.
Proof.
  unfold CompressorEngine.call_file_callback. rewrite bind_gets.
  destruct (file_callback (engine w)); eexists; (split; [reflexivity |]); auto.
Qed.

Lemma compress_failed_run E f e w :
  exists w', CompressorEngine.compress_failed E f e w = (Ret (RError (exn_str e)), w')
             /\ fs w' = fs w /\ backup_operations w' = backup_operations w.
Proof.
  unfold CompressorEngine.compress_failed, CompressorEngine.log_file_operation.
  destruct (log_file_operation_run E "compress" (FileInfo.path f) "error" 0 0
              (Some (exn_str e)) w) as (w1 & H1 & Hk1).
  rewrite (bind_ret_eq _ _ _ _ _ H1).
  destruct (call_file_callback_run "compress" (FileInfo.name f) "error" w1)
    as (w2 & H2 & Hf2 & Hb2 & _).
  rewrite (bind_ret_eq _ _ _ _ _ H2).
  apply beside_logger_eq in Hk1 as (Hf1 & _ & Hb1 & _ & _).
  eexists. split; [reflexivity |]. split; congruence.
Qed.

(** A success of [write_archive]: the archive stands at the path, with one
    member; with the verification on, the archive is readable, the member is
    called like the file and has the size recorded for it, and its data is
    sound unless its name is empty. *)
Lemma write_archive_success E f cfg zip_path w zp osz csz saved w' :
  CompressorEngine.write_archive E f cfg zip_path w
  = (Ret (RSuccess zp osz csz saved), w') ->
  zp = zip_path
  /\ backup_operations w' = backup_operations w
  /\ exists sz r wr e,
       fs w' = <[zip_path := NFile sz r wr (Some [e])]> (fs w)
       /\ (CompressionConfig.verify_integrity cfg = true ->
           r = true
           /\ (e_crc_ok e = true \/ e_name e = "")
           /\ e_name e = FileInfo.name f
           /\ e_size e = FileInfo.size f).
Proof.
  unfold CompressorEngine.write_archive.
  destruct (Zip.write_file E zip_path (CompressionConfig.compression_level cfg)
              (FileInfo.path f) (FileInfo.name f) w) as [[[] | e0 |] w1] eqn:Hw;
    [| rewrite (bind_raise_eq _ _ _ _ _ Hw); discriminate
     | rewrite (bind_hang_eq _ _ _ _ Hw); discriminate].
  rewrite (bind_ret_eq _ _ _ _ _ Hw).
  apply write_file_ret in Hw as (sz & r & wr & e & -> & _ & Hcrc & _ & _).
  set (w1 := set_fs (<[zip_path := NFile sz r wr (Some [e])]>) w).
  assert (Hz : fs w1 !! zip_path = Some (NFile sz r wr (Some [e])))
    by apply lookup_insert_eq.
  assert (Hver : exists b,
             (if CompressionConfig.verify_integrity cfg
              then CompressorEngine._verify_zip_integrity zip_path f
              else ret true) w1 = (Ret b, w1)
             /\ (b = true -> CompressionConfig.verify_integrity cfg = true ->
                 r = true /\ (e_crc_ok e = true \/ e_name e = "")
                 /\ e_name e = FileInfo.name f /\ e_size e = FileInfo.size f)).
  { destruct (CompressionConfig.verify_integrity cfg).
    - eexists. split; [apply (verify_single_member _ _ _ _ _ _ _ Hz) |].
      intros Hb _.
      apply andb_true_iff in Hb as [Hb Hsz]. apply andb_true_iff in Hb as [Hb Hnm].
      apply andb_true_iff in Hb as [Hr Hc].
      apply String.eqb_eq in Hnm. apply Z.eqb_eq in Hsz.
      repeat split; auto.
      apply orb_true_iff in Hc as [Hc | Hc]; [left; exact Hc | right].
      destruct (e_name e); [reflexivity | discriminate].
    - exists true. split; [reflexivity | discriminate]. }
  destruct Hver as (b & Hrun & Hb).
  rewrite (bind_ret_eq _ _ _ _ _ Hrun).
  destruct b; cbn [negb].
  - unfold Os.stat_size at 1, bind at 1. rewrite Hz.
    unfold CompressorEngine.log_file_operation.
    match goal with |- context [CustomLogger.log_file_operation E ?a ?b ?c ?d ?e ?g] =>
      destruct (log_file_operation_run E a b c d e g w1) as (w2 & H2 & Hk2) end.
    rewrite (bind_ret_eq _ _ _ _ _ H2).
    destruct (call_file_callback_run "compress" (FileInfo.name f) "success" w2)
      as (w3 & H3 & Hf3 & Hb3 & _).
    rewrite (bind_ret_eq _ _ _ _ _ H3).
    apply beside_logger_eq in Hk2 as (Hf2 & _ & Hb2 & _ & _).
    intros [= <- _ _ _ <-]. split; [reflexivity |]. split.
    + rewrite Hb3, Hb2. reflexivity.
    + exists sz, r, wr, e. split; [rewrite Hf3, Hf2; reflexivity |].
      intros Hv. apply Hb; [reflexivity | exact Hv].
  - destruct (Os.unlink zip_path w1) as [[[] | e1 |] w2] eqn:Hu.
    + rewrite (bind_ret_eq _ _ _ _ _ Hu).
      unfold CompressorEngine.log_file_operation.
      match goal with |- context [CustomLogger.log_file_operation E ?a ?b ?c ?d ?e ?g] =>
        destruct (log_file_operation_run E a b c d e g w2) as (w3 & H3 & _) end.
      rewrite (bind_ret_eq _ _ _ _ _ H3). discriminate.
    + rewrite (bind_raise_eq _ _ _ _ _ Hu). discriminate.
    + rewrite (bind_hang_eq _ _ _ _ Hu). discriminate.
Qed.

(** A failed verification: the archive just written is removed and the
    outcome is the integrity error.  The directory has to allow the removal. *)
Lemma write_archive_verification_fails E f cfg zip_path w w1 :
  CompressionConfig.verify_integrity cfg = true ->
  Zip.write_file E zip_path (CompressionConfig.compression_level cfg)
                 (FileInfo.path f) (FileInfo.name f) w = (Ret tt, w1) ->
  fst (CompressorEngine._verify_zip_integrity zip_path f w1) = Ret false ->
  Os.dir_writable (PyPath.parent zip_path) (fs w) = true ->
  exists w',
    CompressorEngine.write_archive E f cfg zip_path w
    = (Ret (RError CompressorEngine.integrity_error_msg), w')
    /\ fs w' = delete zip_path (fs w)
    /\ backup_operations w' = backup_operations w.
Proof.
  intros Hv Hw Hfail Hdir. unfold CompressorEngine.write_archive.
  rewrite (bind_ret_eq _ _ _ _ _ Hw).
  destruct (CompressionConfig.verify_integrity cfg); [clear Hv | discriminate Hv].
  pose proof (write_file_not_dir _ _ _ _ _ _ _ Hw) as Hnd.
  apply write_file_ret in Hw as (sz & r & wr & e & -> & _).
  set (w1 := set_fs (<[zip_path := NFile sz r wr (Some [e])]>) w) in *.
  assert (Hz : fs w1 !! zip_path = Some (NFile sz r wr (Some [e])))
    by apply lookup_insert_eq.
  rewrite (verify_single_member _ f _ _ _ _ _ Hz) in Hfail.
  cbn [fst] in Hfail. injection Hfail as Hfail.
  rewrite (bind_ret_eq _ _ _ _ _ (verify_single_member _ f _ _ _ _ _ Hz)), Hfail.
  cbn [negb].
  assert (Hu : Os.unlink zip_path w1 = (Ret tt, set_fs (delete zip_path) w1)).
  { unfold Os.unlink, Os.parent_check. rewrite Hz.
    assert (Hne : PyPath.parent zip_path <> zip_path).
    { intros Heq. rewrite Heq in Hdir. unfold Os.dir_writable in Hdir.
      destruct (fs w !! zip_path) as [[| r0 wr0] |] eqn:Hz0; try discriminate.
      exact (Hnd r0 wr0 eq_refl). }
    subst w1. cbn [fs set_fs]. rewrite lookup_insert_ne by congruence.
    unfold Os.dir_writable in Hdir.
    destruct (fs w !! PyPath.parent zip_path) as [[| ? []] |];
      try discriminate; reflexivity. }
  rewrite (bind_ret_eq _ _ _ _ _ Hu).
  unfold CompressorEngine.log_file_operation.
  match goal with |- context [CustomLogger.log_file_operation E ?a ?b ?c ?d ?e ?g] =>
    destruct (log_file_operation_run E a b c d e g (set_fs (delete zip_path) w1))
      as (w3 & H3 & Hk3) end.
  rewrite (bind_ret_eq _ _ _ _ _ H3).
  apply beside_logger_eq in Hk3 as (Hf3 & _ & Hb3 & _ & _).
  exists w3. split; [reflexivity |]. split.
  - rewrite Hf3. subst w1. cbn [fs set_fs]. apply delete_insert_eq.
  - rewrite Hb3. reflexivity.
Qed.

(** A success of [_compress_single_file] leaves the archive it names, of one
    member; with the verification on, the member is called like the file, has
    the size recorded for it, and its data is sound unless its name is empty. *)
Lemma compress_single_file_success E f cfg w zp osz csz saved w1 :
  CompressorEngine._compress_single_file E f cfg w
  = (Ret (RSuccess zp osz csz saved), w1) ->
  exists sz r wr e,
    fs w1 !! zp = Some (NFile sz r wr (Some [e]))
    /\ (CompressionConfig.verify_integrity cfg = true ->
        r = true
        /\ (e_crc_ok e = true \/ e_name e = "")
        /\ e_name e = FileInfo.name f
        /\ e_size e = FileInfo.size f).
Proof.
  unfold CompressorEngine._compress_single_file, try_except.
  destruct (CompressorEngine.resolve_zip_path E f cfg w) as [[target | e0 |] w0] eqn:Hr.
  - rewrite (bind_ret_eq _ _ _ _ _ Hr).
    destruct target as [zip_path |].
    + destruct (CompressorEngine.write_archive E f cfg zip_path w0)
        as [[res | e1 |] w2] eqn:Hwa.
      * intros [= -> <-].
        apply write_archive_success in Hwa as (-> & _ & sz & r & wr & e & Hfs & Hv).
        exists sz, r, wr, e. split; [| exact Hv]. rewrite Hfs. apply lookup_insert_eq.
      * destruct (compress_failed_run E f e1 w2) as (w3 & -> & _). discriminate.
      * discriminate.
    + discriminate.
  - rewrite (bind_raise_eq _ _ _ _ _ Hr).
    destruct (compress_failed_run E f e0 w0) as (w3 & -> & _). discriminate.
  - rewrite (bind_hang_eq _ _ _ _ Hr). discriminate.
Qed.

(** ** A relocation that fails *)

Lemma copy2_run src dst w o w' :
  Os.copy2 src dst w = (o, w') ->
  fs w' = fs w
  \/ exists d nd, d <> src /\ fs w !! src = Some nd /\ fs w' = <[d := nd]> (fs w).
Proof.
  unfold Os.copy2.
  destruct (fs w !! src) as [[sz r wr z | r wr] |] eqn:Hsrc;
    try (intros [= <- <-]; left; reflexivity).
  set (d := if Os.is_dir_in dst (fs w) then PyPath.join dst (PyPath.name src) else dst).
  destruct (String.eqb d src) eqn:He; [intros [= <- <-]; left; reflexivity |].
  apply String.eqb_neq in He.
  repeat case_match; intros [= <- <-];
    first [ left; reflexivity
          | right; exists d, (NFile sz r wr z); repeat split; auto ].
Qed.

Lemma unlink_raise_same p w e w' : Os.unlink p w = (Raise e, w') -> w' = w.
Proof. unfold Os.unlink. repeat case_match; intros [=]; congruence. Qed.

(** A move that raises has left the source: the file system is as it was,
    or a copy of the source was put at the destination and the source could
    not be removed. *)
Lemma move_raise_fs src dst w e w' :
  Os.move src dst w = (Raise e, w') ->
  fs w' = fs w
  \/ exists d nd, d <> src /\ fs w !! src = Some nd /\ fs w' = <[d := nd]> (fs w).
Proof.
  unfold Os.move. intros Hm.
  destruct (fs w !! src) as [nd0 |] eqn:Hsrc.
  2: { left. repeat case_match; injection Hm as _ <-; reflexivity. }
  repeat case_match; try discriminate Hm;
    try (injection Hm as _ <-; left; reflexivity).
  all: unfold bind in Hm;
    match type of Hm with
    | context [Os.copy2 ?a ?b ?c] =>
        destruct (Os.copy2 a b c) as [[[] | e1 |] w1] eqn:Hc
    end;
    apply copy2_run in Hc; rewrite Hsrc in Hc;
    [ destruct (Os.unlink src w1) as [[[] | e2 |] w2] eqn:Hu;
      [ discriminate Hm
      | apply unlink_raise_same in Hu; subst w2; injection Hm as _ <-; exact Hc
      | discriminate Hm ]
    | injection Hm as _ <-; exact Hc
    | discriminate Hm ].
Qed.

Lemma resolve_conflict_pure E destination pol w :
  exists o, FileManager._resolve_conflict E destination pol w = (Ret o, w).
Proof.
  destruct pol; unfold FileManager._resolve_conflict;
    try (eexists; reflexivity);
    destruct (generate_unique_name_spec E destination w) as (p & Hp & _);
    rewrite (bind_ret_eq _ _ _ _ _ Hp); eexists; reflexivity.
Qed.

(** When [move_to_backup] returns nothing, the file is where it was and no
    move is recorded: at most the backup folder was made, and a copy of the
    file left at the destination by a move that could copy it and not remove
    it. *)
Lemma move_to_backup_none E file_path backup_folder pol w w' :
  FileManager.move_to_backup E file_path backup_folder pol w = (Ret None, w') ->
  source_kept file_path (fs w) (fs w')
  /\ backup_operations w' = backup_operations w.
Proof.
  assert (Hsame : forall m, source_kept file_path m m)
    by (intros m; split; [reflexivity | intros q; left; reflexivity]).
  unfold FileManager.move_to_backup, FileManager._log.
  rewrite (bind_ret_eq _ _ _ _ _ (exists_spec w file_path)).
  destruct (bool_decide (present w file_path)) eqn:Hpres; cbn [negb].
  - apply bool_decide_eq_true in Hpres as [nd0 Hnd0].
    destruct (run_total_preserved _ _ (create_backup_folder_total backup_folder)
                (create_backup_folder_frame backup_folder) w)
      as (created & w1 & Hc & Hk1).
    pose proof (create_backup_folder_only_new_dirs backup_folder w) as Hdirs.
    rewrite Hc in Hdirs. cbn [snd] in Hdirs.
    apply beside_logger_fs_eq in Hk1 as (_ & Hb1 & _ & _).
    assert (Hp1 : fs w1 !! file_path = fs w !! file_path).
    { destruct (Hdirs file_path) as [H | [H _]]; [exact H | congruence]. }
    assert (Hlost1 : source_kept file_path (fs w) (fs w1)).
    { split; [exact Hp1 |]. intros q.
      destruct (Hdirs q) as [H | H]; [left; exact H | right; left; exact H]. }
    rewrite (bind_ret_eq _ _ _ _ _ Hc).
    destruct created; cbn [negb].
    + unfold try_except.
      set (destination := PyPath.join backup_folder (PyPath.name file_path)).
      rewrite (bind_ret_eq _ _ _ _ _ (exists_spec w1 destination)).
      assert (Hres : exists o,
                 (if bool_decide (present w1 destination)
                  then FileManager._resolve_conflict E destination pol
                  else ret (Some destination)) w1 = (Ret o, w1)).
      { destruct (bool_decide (present w1 destination));
          [apply resolve_conflict_pure | eexists; reflexivity]. }
      destruct Hres as (o & Hres). rewrite (bind_ret_eq _ _ _ _ _ Hres).
      destruct o as [d |].
      * destruct (Os.move file_path d w1) as [[[] | e |] w2] eqn:Hm.
        -- rewrite (bind_ret_eq _ _ _ _ _ Hm). discriminate.
        -- rewrite (bind_raise_eq _ _ _ _ _ Hm).
           pose proof (run_preserved _ _ _ _ _
                         (move_preserves backup_operations file_path d
                            (fun _ _ => eq_refl)) Hm) as Hb2.
           apply move_raise_fs in Hm.
           rewrite bind_log. intros [= <-].
           cbn [fs backup_operations set_logger].
           split; [| congruence].
           destruct Hm as [Hm | (d' & nd & Hne & Hsrc & Hm)]; rewrite Hm;
             [exact Hlost1 |].
           split.
           ++ rewrite lookup_insert_ne by exact Hne. exact Hp1.
           ++ intros q. destruct (decide (q = d')) as [-> | Hq].
              ** right; right. split; [exact Hne |].
                 rewrite lookup_insert_eq. congruence.
              ** rewrite lookup_insert_ne by congruence.
                 destruct (Hdirs q) as [H | H]; [left; exact H | right; left; exact H].
        -- rewrite (bind_hang_eq _ _ _ _ Hm). discriminate.
      * rewrite bind_log. intros [= <-]. split; [exact Hlost1 | exact Hb1].
    + intros [= <-]. split; [exact Hlost1 | exact Hb1].
  - rewrite bind_log. intros [= <-]. split; [apply Hsame | reflexivity].
Qed.

Lemma bind_ret {A B} (a : A) (k : A -> M B) w : bind (ret a) k w = k a w.
Proof. reflexivity. Qed.

(** With a conflict policy of the enumeration, when the archive of a file
    was made and [move_to_backup] returns nothing, the file adds one to the
    processed counter and nothing to the failed and skipped ones, no error is
    recorded for it, the last thing logged is the warning that it could not
    be moved, no relocation is recorded, and the file is where it was; beside
    new directories at most a copy of it was left. *)
Lemma relocation_refused_still_processed
        E f cfg pol t w zp osz csz saved w1 w2 :
  ConflictResolution.of_value (CompressionConfig.conflict_resolution cfg) = Ok pol ->
  CompressorEngine._compress_single_file E f cfg w
  = (Ret (RSuccess zp osz csz saved), w1) ->
  FileManager.move_to_backup E (FileInfo.path f) (CompressionConfig.backup_folder cfg)
                             pol w1 = (Ret None, w2) ->
  counted_processed_with_warning E f cfg t w w1 zp.
Proof.
  intros Hpol Hc Hm.
  destruct (compress_single_file_success E f cfg w zp osz csz saved w1 Hc)
    as (sz & r & wr & e & Hz & _).
  destruct (move_to_backup_none E _ _ pol w1 w2 Hm) as [Hlost Hb].
  unfold counted_processed_with_warning, CompressorEngine.process_one.
  unfold try_except at 1. rewrite (bind_ret_eq _ _ _ _ _ Hc).
  unfold try_except. rewrite Hpol. cbn [lift].
  rewrite bind_ret, (bind_ret_eq _ _ _ _ _ Hm).
  unfold CompressorEngine.log_operation. rewrite bind_log.
  eexists _, _. split; [reflexivity |].
  cbn [processed failed skipped errors logger log_queue set_logger
       CustomLogger.set_queue fs backup_operations].
  repeat split; auto.
  - unfold py_append. apply last_snoc.
  - exists sz, r, wr, e. exact Hz.
  - apply Hlost.
  - apply Hlost.
Qed.

Example relocation_skipped_in_the_sample :
  counted_processed_with_warning Sample.env Sample_file_A Sample_skip empty_tally
    Sample_backup_taken Sample_after_compress "src/1_A.zip".
Proof.
  apply (relocation_refused_still_processed Sample.env Sample_file_A Sample_skip
           ConflictResolution.SKIP empty_tally Sample_backup_taken "src/1_A.zip"
           1000 622 378 Sample_after_compress Sample_after_move).
  - reflexivity.
  - vm_compute. reflexivity.
  - vm_compute. reflexivity.
Qed.

(** From a folder that cannot be written the file is copied and cannot be
    removed: the archive is written over the one that was there,
    [move_to_backup] returns nothing, the file is counted as processed, and
    it is afterwards in the source folder and in the backup folder. *)
Example relocation_from_read_only_folder :
  exists t' w',
    CompressorEngine.process_one Sample.env Sample_file_A Sample_in_place empty_tally
                                 Sample_read_only_source
    = (Ret t', w')
    /\ processed t' = 1%nat /\ failed t' = 0%nat
    /\ fs w' !! "src/A.zip"
       = Some (NFile 622 true true (Some [ZEntry "A.pdf" 1000 true]))
    /\ fs w' !! "src/A.pdf" = Some (NFile 1000 true true None)
    /\ fs w' !! "respaldo/A.pdf" = Some (NFile 1000 true true None)
    /\ backup_operations w' = []
    /\ last (log_queue (logger w'))
       = Some (LogRecord "WARNING" "No se pudo mover a respaldo: A.pdf" None).
Proof.
  eexists _, _. split; [vm_compute; reflexivity |].
  repeat split; vm_compute; reflexivity.
Qed.


(** ** Verification and the original *)

(** An error from [_compress_single_file] is counted as a failure and no
    relocation is tried: the world is the one the compression left. *)
Lemma process_one_error E f cfg t w msg w1 :
  CompressorEngine._compress_single_file E f cfg w = (Ret (RError msg), w1) ->
  CompressorEngine.process_one E f cfg t w
  = (Ret (Tally (processed t) (S (failed t)) (skipped t) (total_saved t)
                (py_append (errors t) msg)), w1).
Proof.
  intros Hc. unfold CompressorEngine.process_one, try_except.
  rewrite (bind_ret_eq _ _ _ _ _ Hc). reflexivity.
Qed.

(** With the archive written to a path other than the file's own, in a
    directory that allows removals, a failed verification removes the archive
    and leaves the file as it was. *)
Lemma verification_failure_keeps_source E f cfg zip_path w w1 :
  zip_path <> FileInfo.path f ->
  CompressionConfig.verify_integrity cfg = true ->
  Zip.write_file E zip_path (CompressionConfig.compression_level cfg)
                 (FileInfo.path f) (FileInfo.name f) w = (Ret tt, w1) ->
  fst (CompressorEngine._verify_zip_integrity zip_path f w1) = Ret false ->
  Os.dir_writable (PyPath.parent zip_path) (fs w) = true ->
  exists w',
    CompressorEngine.write_archive E f cfg zip_path w
    = (Ret (RError CompressorEngine.integrity_error_msg), w')
    /\ fs w' !! zip_path = None
    /\ fs w' !! FileInfo.path f = fs w !! FileInfo.path f
    /\ backup_operations w' = backup_operations w.
Proof.
  intros Hne Hv Hw Hfail Hdir.
  destruct (write_archive_verification_fails E f cfg zip_path w w1 Hv Hw Hfail Hdir)
    as (w' & Hrun & Hfs & Hb).
  exists w'. split; [exact Hrun |]. rewrite Hfs. split; [apply lookup_delete_eq |].
  split; [apply lookup_delete_ne; exact Hne | exact Hb].
Qed.

(** C2. The claim fails on the code where the archive is to be written over
    the file itself: a source [report.zip] under the pattern that keeps the
    name and the policy that overwrites.  Opening the archive for writing
    empties the file, the member written is empty, the size check fails, and
    the removal of the archive removes the original. *)
Theorem verification_failure_removes_the_source :
  fs Sample_zip_source !! "src/report.zip"
  = Some (NFile 100 true true (Some [ZEntry "report.txt" 300 true]))
  /\ match fst (CompressorEngine.compress_files Sample.env Sample_overwrite
                  Sample_zip_source) with
     | Ret r =>
         CompressionResult.failed_files r = 1%nat
         /\ CompressionResult.errors r = [CompressorEngine.integrity_error_msg]
     | _ => False
     end
  /\ fs (snd (CompressorEngine.compress_files Sample.env Sample_overwrite
                Sample_zip_source)) !! "src/report.zip" = None.
Proof. vm_compute. repeat split; reflexivity. Qed.

(** ** Runs that are not paused *)

Section StaysUnpaused.
Context {A B : Type}.

Lemma stays_unpaused_of (m : M A) :
    no_hang m -> preserves pause_state m -> stays_unpaused m.
Proof.
    intros Hn Hp w [Hw1 Hw2]. split; [apply Hn |].
    specialize (Hp w). unfold pause_state in Hp. injection Hp as H1 H2.
    split; [rewrite H1; exact Hw1 | rewrite H2; exact Hw2].
Qed.

Lemma stays_unpaused_bind (m : M A) (k : A -> M B) :
    stays_unpaused m -> (forall a, stays_unpaused (k a)) -> stays_unpaused (bind m k).
Proof.
    intros Hm Hk w Hw. unfold bind. destruct (Hm w Hw) as [Hh Hw1].
    destruct (m w) as [[a | e |] w1]; simpl in *.
    - apply Hk; exact Hw1.
    - split; [discriminate | exact Hw1].
    - exfalso; apply Hh; reflexivity.
Qed.

Lemma stays_unpaused_try_except (m : M A) (h : exn -> M A) :
    stays_unpaused m -> (forall e, stays_unpaused (h e)) ->
    stays_unpaused (try_except m h).
Proof.
    intros Hm Hh w Hw. unfold try_except. destruct (Hm w Hw) as [Hn Hw1].
    destruct (m w) as [[a | e |] w1]; simpl in *.
    - split; [discriminate | exact Hw1].
    - apply Hh; exact Hw1.
    - exfalso; apply Hn; reflexivity.
Qed.

Lemma stays_unpaused_try_finally (m : M A) (fin : M unit) :
    stays_unpaused m -> stays_unpaused fin -> stays_unpaused (try_finally m fin).
Proof.
    intros Hm Hf w Hw. unfold try_finally. destruct (Hm w Hw) as [Hn Hw1].
    destruct (m w) as [[a | e |] w1]; simpl in *;
      [| | exfalso; apply Hn; reflexivity];
      destruct (Hf w1 Hw1) as [Hn2 Hw2];
      destruct (fin w1) as [[[] | e' |] w2]; simpl in *;
      first [ exfalso; apply Hn2; reflexivity
            | split; [discriminate | exact Hw2] ].
Qed.
End StaysUnpaused.

Lemma stays_unpaused_when (b : bool) (m : M unit) :
  stays_unpaused m -> stays_unpaused (when b m).
Proof.
  destruct b; simpl; auto. intros _ w Hw. split; [discriminate | exact Hw].
Qed.

Lemma stays_unpaused_modify (g : World -> World) :
  (forall w, never_paused w -> never_paused (g w)) -> stays_unpaused (modify g).
Proof. intros Hg w Hw. split; [discriminate | apply Hg; exact Hw]. Qed.

Lemma stays_unpaused_for_each_in {A} (l : list A) (body : A -> M unit) :
  (forall x, x ∈ l -> stays_unpaused (body x)) -> stays_unpaused (for_each l body).
Proof.
  induction l as [| x l IH]; intros Hb; simpl.
  - intros w Hw. split; [discriminate | exact Hw].
  - apply stays_unpaused_bind.
    + apply Hb. left.
    + intros _. apply IH. intros y Hy. apply Hb. right. exact Hy.
Qed.

Create HintDb unpaused.

Ltac unpaused_step :=
  lazymatch goal with
  | |- stays_unpaused (bind _ _) => apply stays_unpaused_bind; [| intros ?]
  | |- stays_unpaused (try_except _ _) => apply stays_unpaused_try_except; [| intros ?]
  | |- stays_unpaused (try_finally _ _) => apply stays_unpaused_try_finally
  | |- stays_unpaused (when _ _) => apply stays_unpaused_when
  | |- stays_unpaused (if ?b then _ else _) => destruct b
  | |- stays_unpaused (match ?x with _ => _ end) => destruct x
  | |- stays_unpaused _ =>
      first [ solve [auto with unpaused]
            | apply stays_unpaused_of; [solve [no_hang_tac] | solve [frame]]
            | apply stays_unpaused_modify; intros ? [? ?];
              split; [reflexivity | assumption] ]
  end.
Ltac unpaused_tac := repeat unpaused_step.

(** A call of [resume] or of [stop] leaves the event set. *)
Lemma deliver_stays_unpaused s :
  s <> SigPause -> stays_unpaused (CompressorEngine.deliver s).
Proof.
  intros Hs. destruct s; [congruence | |]; simpl;
    unfold CompressorEngine.resume, CompressorEngine.stop; unpaused_tac.
Qed.

Lemma next_slot_unpaused w :
  never_paused w ->
  exists s w0, CompressorEngine.next_slot w = (Ret s, w0)
               /\ unpaused s /\ never_paused w0.
Proof.
  intros [Hp Hq]. unfold CompressorEngine.next_slot.
  destruct (script w) as [| s rest] eqn:Hs.
  - exists (Slot [] []), w. split; [reflexivity |]. split.
    + apply not_elem_of_nil.
    + split; [exact Hp | rewrite Hs; constructor].
  - exists s, (set_script (fun _ => rest) w). split; [reflexivity |].
    inversion Hq; subst. split; [assumption |]. split; assumption.
Qed.

Lemma wait_pause_event_stays_unpaused s :
  stays_unpaused (CompressorEngine.wait_pause_event s).
Proof.
  intros w Hw. unfold CompressorEngine.wait_pause_event.
  rewrite bind_gets, (proj1 Hw). split; [discriminate | exact Hw].
Qed.

Lemma process_one_stays_unpaused E f cfg t :
  stays_unpaused (CompressorEngine.process_one E f cfg t).
Proof.
  apply stays_unpaused_of; [apply total_no_hang, process_one_total | frame].
Qed.
#[local] Hint Resolve wait_pause_event_stays_unpaused process_one_stays_unpaused
  : unpaused.

Lemma process_loop_stays_unpaused E cfg :
  forall files i n t,
    stays_unpaused (CompressorEngine.process_loop E i n files cfg t).
Proof.
  induction files as [| f rest IH]; intros i n t.
  - intros w Hw. split; [discriminate | exact Hw].
  - intros w Hw. cbn [CompressorEngine.process_loop].
    destruct (next_slot_unpaused w Hw) as (s & w0 & Hns & Hs & Hw0).
    rewrite (bind_ret_eq _ _ _ _ _ Hns).
    revert w0 Hw0 Hns. intros w0 Hw0 _. revert w0 Hw0.
    apply stays_unpaused_bind.
    + apply stays_unpaused_for_each_in. intros x Hx.
      apply deliver_stays_unpaused. intros ->. exact (Hs Hx).
    + intros _. unpaused_tac.
Qed.
#[local] Hint Resolve process_loop_stays_unpaused : unpaused.

Lemma run_session_stays_unpaused E cfg sid :
  stays_unpaused (CompressorEngine.run_session E cfg sid).
Proof.
  unfold CompressorEngine.run_session, CompressorEngine._process_files.
  unpaused_tac.
Qed.
#[local] Hint Resolve run_session_stays_unpaused : unpaused.

(** A run that nobody pauses comes to an end. *)
Lemma compress_files_never_waits E cfg w :
  never_paused w -> fst (CompressorEngine.compress_files E cfg w) <> Hang.
Proof.
  intros Hw.
  assert (H : stays_unpaused (CompressorEngine.compress_files E cfg)).
  { unfold CompressorEngine.compress_files, CompressorEngine.critical_failure,
      CompressorEngine.finish_session.
    unpaused_tac. }
  exact (proj1 (H w Hw)).
Qed.

(** ** The sample, run *)

(** A template of the original name alone gives the stem with the archive
    extension. *)
Example name_of_invoice :
  fst (CompressorEngine._generate_zip_name Sample.env
         (FileInfo.mk "in/invoice.pdf" "invoice.pdf" 10 ".pdf" true true)
         Sample_overwrite Sample.world)
  = Ret "invoice.zip".
Proof. vm_compute. reflexivity. Qed.

(** The two invoices under the counter pattern. *)
Example sample_run :
  match fst (CompressorEngine.compress_files Sample.env Sample.config Sample.world) with
  | Ret r =>
      CompressionResult.success r = true
      /\ CompressionResult.processed_files r = 2%nat
      /\ CompressionResult.total_size_saved r = (1000 - 622) + (2000 - 1122)
  | _ => False
  end
  /\ dom (fs (snd (CompressorEngine.compress_files Sample.env Sample.config
                     Sample.world)))
     = {[ ""; "src"; "src/1_A.zip"; "src/2_B.zip";
          "respaldo"; "respaldo/A.pdf"; "respaldo/B.pdf" ]}.
Proof. vm_compute. repeat split; reflexivity. Qed.

(** With the template that closes a brace too many every file is counted as
    failed with the error of [str.format]; none gets the fallback name. *)
Example stray_brace_run :
  match fst (CompressorEngine.compress_files Sample.env Sample_stray_brace
               Sample.world) with
  | Ret r =>
      CompressionResult.processed_files r = 0%nat
      /\ CompressionResult.failed_files r = 2%nat
      /\ CompressionResult.errors r
         = [ "Single '}' encountered in format string";
             "Single '}' encountered in format string" ]
  | _ => False
  end.
Proof. vm_compute. repeat split; reflexivity. Qed.

(** The custom pattern with an empty custom string passes the validation;
    the names come from the fallback. *)
Example empty_custom_pattern_run :
  fst (CompressorEngine._validate_config Sample.env Sample_empty_custom Sample.world)
  = Ret []
  /\ match fst (CompressorEngine.compress_files Sample.env Sample_empty_custom
                  Sample.world) with
     | Ret r => CompressionResult.success r = true
                /\ CompressionResult.processed_files r = 2%nat
     | _ => False
     end
  /\ is_Some (fs (snd (CompressorEngine.compress_files Sample.env Sample_empty_custom
                         Sample.world)) !! "src/2024-03-05_A.zip").
Proof. vm_compute. repeat split; try reflexivity. eexists; reflexivity. Qed.

(** The renaming loop on the crowded backup folder. *)
Example rename_in_crowded_backup :
  fst (FileManager._resolve_conflict Sample.env "respaldo/A.pdf"
         ConflictResolution.RENAME Sample.crowded_backup)
  = Ret (Some "respaldo/A_2.pdf").
Proof. vm_compute. reflexivity. Qed.

(** * More properties *)

(** ** Rules for [triple] *)

Section Triple.
Context {A B : Type}.

Lemma triple_ret (P : World -> Prop) (a : A) (Q : A -> World -> Prop) R :
    (forall w, P w -> Q a w) -> triple P (ret a) Q R.
Proof. intros H w Hw. apply H, Hw. Qed.

Lemma triple_conseq (P P' : World -> Prop) (m : M A) (Q Q' : A -> World -> Prop)
        (R R' : exn -> World -> Prop) :
    triple P' m Q' R' ->
    (forall w, P w -> P' w) ->
    (forall a w, Q' a w -> Q a w) ->
    (forall e w, R' e w -> R e w) ->
    triple P m Q R.
Proof.
    intros Hm HP HQ HR w Hw. specialize (Hm w (HP w Hw)).
    destruct (m w) as [[a | e |] w1]; auto.
Qed.

Lemma triple_bind (P : World -> Prop) (m : M A) (k : A -> M B)
        (Q : A -> World -> Prop) (Q' : B -> World -> Prop) R :
    triple P m Q R -> (forall a, triple (Q a) (k a) Q' R) -> triple P (bind m k) Q' R.
Proof.
    intros Hm Hk w Hw. unfold bind. specialize (Hm w Hw).
    destruct (m w) as [[a | e |] w1]; auto. apply Hk, Hm.
Qed.

Lemma triple_try_except (P : World -> Prop) (m : M A) (h : exn -> M A)
        (Q : A -> World -> Prop) (R' R : exn -> World -> Prop) :
    triple P m Q R' -> (forall e, triple (R' e) (h e) Q R) ->
    triple P (try_except m h) Q R.
Proof.
    intros Hm Hh w Hw. unfold try_except. specialize (Hm w Hw).
    destruct (m w) as [[a | e |] w1]; auto. apply Hh, Hm.
Qed.

Lemma triple_gets (P : World -> Prop) (g : World -> A) (Q : A -> World -> Prop) R :
    (forall w, P w -> Q (g w) w) -> triple P (gets g) Q R.
Proof. intros H w Hw. apply H, Hw. Qed.

Lemma triple_lift (P : World -> Prop) (r : result A) (Q : A -> World -> Prop)
        (R : exn -> World -> Prop) :
    (forall w, P w -> match r with Ok a => Q a w | Err e => R e w end) ->
    triple P (lift r) Q R.
Proof. intros H w Hw. specialize (H w Hw). destruct r; exact H. Qed.
End Triple.

Lemma triple_modify (P : World -> Prop) (g : World -> World)
      (Q : unit -> World -> Prop) R :
  (forall w, P w -> Q tt (g w)) -> triple P (modify g) Q R.
Proof. intros H w Hw. apply H, Hw. Qed.

Lemma triple_when (P : World -> Prop) (b : bool) (m : M unit)
      (Q : unit -> World -> Prop) R :
  (b = true -> triple P m Q R) -> (b = false -> forall w, P w -> Q tt w) ->
  triple P (when b m) Q R.
Proof.
  destruct b; simpl; intros H1 H2; [apply H1; reflexivity |].
  intros w Hw. apply H2; auto.
Qed.

(** A condition on a part of the world that [m] leaves alone holds after
    [m] as before, however [m] ends. *)
Lemma triple_preserved {A X} (f : World -> X) (P : X -> Prop) (m : M A) :
  preserves f m ->
  triple (fun w => P (f w)) m (fun _ w => P (f w)) (fun _ w => P (f w)).
Proof.
  intros Hp w Hw. specialize (Hp w).
  destruct (m w) as [[a | e |] w1]; simpl in Hp; try rewrite Hp; auto.
Qed.

Lemma triple_quiet {A X} (f : World -> X) (P : X -> Prop) (m : M A) :
  no_raise m -> preserves f m ->
  triple (fun w => P (f w)) m (fun _ w => P (f w)) never.
Proof.
  intros Hn Hp w Hw. specialize (Hp w). specialize (Hn w).
  destruct (m w) as [[a | e |] w1]; simpl in *; try rewrite Hp; auto.
  exact (Hn e eq_refl).
Qed.

Lemma total_no_raise {A} (m : M A) : total m -> no_raise m.
Proof. intros H w e He. destruct (H w) as [a Ha]. congruence. Qed.

Lemma no_raise_bind {A B} (m : M A) (k : A -> M B) :
  no_raise m -> (forall a, no_raise (k a)) -> no_raise (bind m k).
Proof.
  intros Hm Hk w e. unfold bind. specialize (Hm w).
  destruct (m w) as [[a | e0 |] w1]; simpl in *.
  - apply Hk.
  - intros _. exact (Hm e0 eq_refl).
  - discriminate.
Qed.

Lemma no_raise_try_except {A} (m : M A) (h : exn -> M A) :
  (forall e, no_raise (h e)) -> no_raise (try_except m h).
Proof.
  intros Hh w e. unfold try_except.
  destruct (m w) as [[a | e0 |] w1]; simpl; [discriminate | apply Hh | discriminate].
Qed.

Lemma no_raise_try_finally {A} (m : M A) (fin : M unit) :
  no_raise m -> no_raise fin -> no_raise (try_finally m fin).
Proof.
  intros Hm Hf w e. unfold try_finally. specialize (Hm w).
  destruct (m w) as [[a | e0 |] w1]; simpl in *.
  - specialize (Hf w1). destruct (fin w1) as [[[] | e1 |] w2]; simpl in *;
      [discriminate | intros _; exact (Hf e1 eq_refl) | discriminate].
  - exfalso. exact (Hm e0 eq_refl).
  - discriminate.
Qed.

Lemma triple_try_finally {A} (P : World -> Prop) (m : M A) (fin : M unit)
      (Q Q' : A -> World -> Prop) (R R' : exn -> World -> Prop) :
  triple P m Q R ->
  (forall a, triple (Q a) fin (fun _ => Q' a) R') ->
  (forall e, triple (R e) fin (fun _ => R' e) R') ->
  triple P (try_finally m fin) Q' R'.
Proof.
  intros Hm Hq Hr w Hw. unfold try_finally. specialize (Hm w Hw).
  destruct (m w) as [[a | e |] w1]; auto.
  - specialize (Hq a w1 Hm). destruct (fin w1) as [[[] | e' |] w2]; auto.
  - specialize (Hr e w1 Hm). destruct (fin w1) as [[[] | e' |] w2]; auto.
Qed.

(** ** The session follows the counters *)

Ltac framed := solve [frame].

Lemma process_files_session E fuel incl filters :
  forall path files,
    preserves session_of (FileManager.process_files E fuel incl filters path files).
Proof.
  induction fuel as [| fuel IH]; intros path files; simpl; frame; apply IH.
Qed.
#[local] Hint Resolve process_files_session : frame.

Lemma agree_frame {A} sid t (m : M A) :
  preserves session_of m ->
  triple (agree sid t) m (fun _ => agree sid t) (fun _ => agree sid t).
Proof. intros H. exact (triple_preserved session_of (session_agrees sid t) m H). Qed.

Lemma agree_quiet {A} sid t (m : M A) :
  no_raise m -> preserves session_of m ->
  triple (agree sid t) m (fun _ => agree sid t) never.
Proof.
  intros Hn H. exact (triple_quiet session_of (session_agrees sid t) m Hn H).
Qed.

(** The session does not look at the errors of the tally. *)
Lemma agree_counters sid t t' w :
  agree sid t w ->
  processed t' = processed t -> failed t' = failed t -> skipped t' = skipped t ->
  total_saved t' = total_saved t ->
  agree sid t' w.
Proof.
  intros (s & Hs & Hid & Hp & Hf & Hk & Hz) H1 H2 H3 H4.
  exists s. repeat split; congruence.
Qed.

Lemma update_stats_agree sid t t' (g : SessionStats.t -> SessionStats.t) :
  (forall s, session_agrees sid t (Some s) -> session_agrees sid t' (Some (g s))) ->
  triple (agree sid t) (CustomLogger.update_stats g) (fun _ => agree sid t') never.
Proof.
  intros Hg w (s & Hs & H). unfold CustomLogger.update_stats, modify.
  unfold agree, session_of in *. cbn. rewrite Hs. cbn.
  apply Hg. exists s. split; [reflexivity | exact H].
Qed.

Lemma log_operation_agree sid t level message file_path :
  triple (agree sid t) (CustomLogger.log_operation level message file_path)
         (fun _ => agree sid t) never.
Proof. apply agree_quiet; [apply total_no_raise; total_tac | framed]. Qed.

Lemma log_file_operation_agree E sid t op path status osz csz msg :
  triple (agree sid t)
    (CustomLogger.log_file_operation E op path status osz csz msg)
    (fun _ w =>
       (status = "success" ->
        agree sid (Tally (S (processed t)) (failed t) (skipped t)
                         (total_saved t + (osz - csz)) (errors t)) w)
       /\ (status = "error" ->
           agree sid (Tally (processed t) (S (failed t)) (skipped t)
                            (total_saved t) (errors t)) w)
       /\ (status = "skip" ->
           agree sid (Tally (processed t) (failed t) (S (skipped t))
                            (total_saved t) (errors t)) w))
    never.
Proof.
  unfold CustomLogger.log_file_operation.
  destruct (String.eqb status "success") eqn:H1;
    [| destruct (String.eqb status "error") eqn:H2;
       [| destruct (String.eqb status "skip") eqn:H3]].
  - apply String.eqb_eq in H1. subst status.
    eapply triple_bind; [apply log_operation_agree |]. intros ?; cbv beta.
    eapply triple_conseq;
      [apply (update_stats_agree sid t
                (Tally (S (processed t)) (failed t) (skipped t)
                       (total_saved t + (osz - csz)) (errors t)))
      | auto | | auto].
    + intros s (s0 & [= ->] & Hid & Hp & Hf & Hk & Hz). eexists. split; [reflexivity |].
      cbn. repeat split; try congruence; lia.
    + intros ? w Hw. repeat split; intros; try discriminate; exact Hw.
  - apply String.eqb_eq in H2. subst status.
    eapply triple_bind; [apply log_operation_agree |]. intros ?; cbv beta.
    eapply triple_conseq;
      [apply (update_stats_agree sid t
                (Tally (processed t) (S (failed t)) (skipped t)
                       (total_saved t) (errors t)))
      | auto | | auto].
    + intros s (s0 & [= ->] & Hid & Hp & Hf & Hk & Hz). eexists. split; [reflexivity |].
      cbn. repeat split; try congruence.
    + intros ? w Hw. repeat split; intros; try discriminate; exact Hw.
  - apply String.eqb_eq in H3. subst status.
    eapply triple_bind; [apply log_operation_agree |]. intros ?; cbv beta.
    eapply triple_conseq;
      [apply (update_stats_agree sid t
                (Tally (processed t) (failed t) (S (skipped t))
                       (total_saved t) (errors t)))
      | auto | | auto].
    + intros s (s0 & [= ->] & Hid & Hp & Hf & Hk & Hz). eexists. split; [reflexivity |].
      cbn. repeat split; try congruence.
    + intros ? w Hw. repeat split; intros; try discriminate; exact Hw.
  - apply String.eqb_neq in H1, H2, H3.
    apply triple_ret. intros w Hw. repeat split; intros; congruence.
Qed.

Lemma triple_weaken {A} (P : World -> Prop) (m : M A) (Q : A -> World -> Prop)
      (R : exn -> World -> Prop) :
  triple P m Q never -> triple P m Q R.
Proof. intros H. eapply triple_conseq; [exact H | auto | auto | intros e w []]. Qed.

Lemma log_file_success_agree E sid t op path osz csz msg :
  triple (agree sid t)
    (CustomLogger.log_file_operation E op path "success" osz csz msg)
    (fun _ => agree sid (Tally (S (processed t)) (failed t) (skipped t)
                               (total_saved t + (osz - csz)) (errors t)))
    never.
Proof.
  eapply triple_conseq; [apply (log_file_operation_agree E sid t) | auto | | auto].
  intros ? w (H & _). apply H. reflexivity.
Qed.

Lemma log_file_error_agree E sid t op path osz csz msg :
  triple (agree sid t)
    (CustomLogger.log_file_operation E op path "error" osz csz msg)
    (fun _ => agree sid (Tally (processed t) (S (failed t)) (skipped t)
                               (total_saved t) (errors t)))
    never.
Proof.
  eapply triple_conseq; [apply (log_file_operation_agree E sid t) | auto | | auto].
  intros ? w (_ & H & _). apply H. reflexivity.
Qed.

Lemma log_file_skip_agree E sid t op path osz csz msg :
  triple (agree sid t)
    (CustomLogger.log_file_operation E op path "skip" osz csz msg)
    (fun _ => agree sid (Tally (processed t) (failed t) (S (skipped t))
                               (total_saved t) (errors t)))
    never.
Proof.
  eapply triple_conseq; [apply (log_file_operation_agree E sid t) | auto | | auto].
  intros ? w (_ & _ & H). apply H. reflexivity.
Qed.

Lemma call_file_callback_agree sid t op nm status :
  triple (agree sid t) (CompressorEngine.call_file_callback op nm status)
         (fun _ => agree sid t) never.
Proof. apply agree_quiet; [apply total_no_raise; total_tac | framed]. Qed.

Lemma compress_failed_agree E sid t f e :
  triple (agree sid t) (CompressorEngine.compress_failed E f e)
         (fun r => agree sid (bump r t)) never.
Proof.
  unfold CompressorEngine.compress_failed, CompressorEngine.log_file_operation.
  eapply triple_bind; [apply log_file_error_agree |]. intros ?; cbv beta.
  eapply triple_bind; [apply call_file_callback_agree |]. intros ?; cbv beta.
  apply triple_ret. intros w Hw. eapply agree_counters; [exact Hw | ..]; reflexivity.
Qed.

Lemma resolve_zip_path_agree E sid t f cfg :
  triple (agree sid t) (CompressorEngine.resolve_zip_path E f cfg)
         (fun target =>
            match target with
            | None => agree sid (bump (RSkip "ZIP ya existe") t)
            | Some _ => agree sid t
            end)
         (fun _ => agree sid t).
Proof.
  unfold CompressorEngine.resolve_zip_path.
  eapply triple_bind; [apply agree_frame; framed |]. intros zip_name; cbv beta.
  eapply triple_bind; [apply agree_frame; framed |]. intros ex; cbv beta.
  destruct ex; [| apply triple_ret; auto].
  eapply triple_bind; [apply triple_lift |].
  - intros w Hw.
    instantiate (1 := fun _ => agree sid t).
    destruct (ConflictResolution.of_value _); exact Hw.
  - intros pol; cbv beta. destruct pol.
    + eapply triple_bind; [apply agree_frame; framed |]. intros p; cbv beta.
      apply triple_ret; auto.
    + apply triple_ret; auto.
    + eapply triple_bind;
        [apply triple_weaken, log_file_skip_agree |]. intros ?; cbv beta.
      apply triple_ret; auto.
    + apply triple_ret; auto.
Qed.

Lemma write_archive_agree E sid t f cfg zip_path :
  triple (agree sid t) (CompressorEngine.write_archive E f cfg zip_path)
         (fun r => agree sid (bump r t)) (fun _ => agree sid t).
Proof.
  unfold CompressorEngine.write_archive.
  eapply triple_bind; [apply agree_frame; framed |]. intros ?; cbv beta.
  eapply triple_bind; [apply agree_frame; framed |]. intros verified; cbv beta.
  destruct verified; cbn [negb].
  - eapply triple_bind; [apply agree_frame; framed |]. intros compressed_size; cbv beta.
    unfold CompressorEngine.log_file_operation.
    eapply triple_bind; [apply triple_weaken, log_file_success_agree |].
    intros ?; cbv beta.
    eapply triple_bind; [apply triple_weaken, call_file_callback_agree |].
    intros ?; cbv beta.
    apply triple_ret. intros w Hw. exact Hw.
  - eapply triple_bind; [apply agree_frame; framed |]. intros ?; cbv beta.
    unfold CompressorEngine.log_file_operation.
    eapply triple_bind; [apply triple_weaken, log_file_error_agree |].
    intros ?; cbv beta.
    apply triple_ret. intros w Hw.
    eapply agree_counters; [exact Hw | ..]; reflexivity.
Qed.

Lemma compress_single_file_agree E sid t f cfg :
  triple (agree sid t) (CompressorEngine._compress_single_file E f cfg)
         (fun r => agree sid (bump r t)) never.
Proof.
  unfold CompressorEngine._compress_single_file.
  eapply triple_try_except.
  - eapply triple_bind; [apply resolve_zip_path_agree |].
    intros [zip_path |]; cbv beta.
    + apply write_archive_agree.
    + apply triple_ret. auto.
  - intros e. apply compress_failed_agree.
Qed.

Lemma on_exception_agree E sid t f e :
  triple (agree sid t) (CompressorEngine.on_exception E f t e) (agree sid) never.
Proof.
  unfold CompressorEngine.on_exception, CompressorEngine.log_file_operation.
  eapply triple_bind; [apply log_file_error_agree |]. intros ?; cbv beta.
  apply triple_ret. intros w Hw. eapply agree_counters; [exact Hw | ..]; reflexivity.
Qed.

(** After each file the open session counts what the loop counts. *)
Lemma process_one_agree E sid t f cfg :
  triple (agree sid t) (CompressorEngine.process_one E f cfg t) (agree sid) never.
Proof.
  unfold CompressorEngine.process_one.
  eapply triple_try_except with (R' := never); [| intros e w []].
  eapply triple_bind; [apply compress_single_file_agree |].
  intros [zip_path original_size compressed_size size_saved | reason | error];
    cbv beta; cbn [bump].
  - eapply triple_try_except; [| intros e; apply on_exception_agree].
    eapply triple_bind; [apply triple_lift |].
    + intros w Hw.
      instantiate (1 := fun _ => agree sid _).
      destruct (ConflictResolution.of_value _); exact Hw.
    + intros pol; cbv beta.
      eapply triple_bind; [apply agree_frame; framed |]. intros moved; cbv beta.
      destruct moved.
      * apply triple_ret; auto.
      * eapply triple_bind; [apply triple_weaken, log_operation_agree |].
        intros ?; cbv beta. apply triple_ret; auto.
  - apply triple_ret; auto.
  - apply triple_ret; auto.
Qed.

Lemma wait_pause_event_no_raise s : no_raise (CompressorEngine.wait_pause_event s).
Proof.
  intros w e. unfold CompressorEngine.wait_pause_event. rewrite bind_gets.
  destruct (pause_event (engine w)); [discriminate |].
  destruct (run_total _ (total_for_each (while_waiting s) _ deliver_total) w)
    as ([] & w1 & Hrun).
  rewrite (bind_ret_eq _ _ _ _ _ Hrun), bind_gets.
  destruct (pause_event (engine w1)); discriminate.
Qed.

Lemma process_loop_agree E sid cfg :
  forall files i n t,
    triple (agree sid t) (CompressorEngine.process_loop E i n files cfg t)
           (agree sid) never.
Proof.
  induction files as [| f rest IH]; intros i n t; cbn [CompressorEngine.process_loop].
  - apply triple_ret; auto.
  - eapply triple_bind;
      [apply agree_quiet; [apply total_no_raise; total_tac | framed] |].
    intros s; cbv beta.
    eapply triple_bind;
      [apply agree_quiet; [apply total_no_raise; total_tac | framed] |].
    intros ?; cbv beta.
    eapply triple_bind; [apply (triple_gets _ _ (fun _ => agree sid t)); auto |].
    intros stopping; cbv beta. destruct stopping.
    + eapply triple_bind; [apply log_operation_agree |]. intros ?; cbv beta.
      apply triple_ret; auto.
    + eapply triple_bind;
        [apply agree_quiet; [apply wait_pause_event_no_raise | framed] |].
      intros ?; cbv beta.
      eapply triple_bind;
        [apply agree_quiet; [apply total_no_raise; total_tac | framed] |].
      intros ?; cbv beta.
      eapply triple_bind; [apply process_one_agree |]. intros t'; cbv beta.
      apply IH.
Qed.

Lemma process_files_agree E sid files cfg :
  triple (agree sid (Tally 0 0 0 0 [])) (CompressorEngine._process_files E files cfg)
         (fun r => agree sid (tally_of r)) never.
Proof.
  unfold CompressorEngine._process_files.
  eapply triple_bind; [apply process_loop_agree |]. intros t; cbv beta.
  eapply triple_bind;
    [apply agree_quiet; [apply total_no_raise; total_tac | framed] |].
  intros ?; cbv beta.
  apply triple_ret. intros w Hw. destruct t. exact Hw.
Qed.

Lemma report_agree sid r0 :
  triple (agree sid (tally_of r0)) (CompressorEngine.report sid r0)
         (fun r w => agree sid (tally_of r) w /\ CompressionResult.session_id r = sid)
         never.
Proof.
  unfold CompressorEngine.report.
  eapply triple_bind; [apply log_operation_agree |]. intros ?; cbv beta.
  apply triple_ret. intros w Hw. split; [exact Hw | reflexivity].
Qed.

Lemma run_session_agree E cfg sid :
  triple (agree sid (Tally 0 0 0 0 [])) (CompressorEngine.run_session E cfg sid)
         (fun r w => agree sid (tally_of r) w /\ CompressionResult.session_id r = sid)
         never.
Proof.
  assert (Hfail : forall errs w,
             agree sid (Tally 0 0 0 0 []) w ->
             agree sid (tally_of (CompressorEngine.failed_result errs sid)) w
             /\ CompressionResult.session_id
                  (CompressorEngine.failed_result errs sid) = sid).
  { intros errs w Hw. split; [| reflexivity].
    eapply agree_counters; [exact Hw | ..]; reflexivity. }
  unfold CompressorEngine.run_session.
  eapply triple_bind;
    [apply agree_quiet; [apply total_no_raise, validate_config_total | framed] |].
  intros errs; cbv beta. destruct errs as [| err errs].
  - eapply triple_bind; [apply log_operation_agree |]. intros ?; cbv beta.
    eapply triple_bind;
      [apply agree_quiet; [apply total_no_raise, scan_directory_total | framed] |].
    intros files; cbv beta. destruct files as [| f files].
    + eapply triple_bind; [apply log_operation_agree |]. intros ?; cbv beta.
      apply triple_ret. intros w Hw. split; [exact Hw | reflexivity].
    + eapply triple_bind.
      { apply (update_stats_agree sid (Tally 0 0 0 0 []) (Tally 0 0 0 0 [])).
        intros s (s0 & Heq & H). injection Heq as ->.
        eexists. split; [reflexivity |]. exact H. }
      intros ?; cbv beta.
      eapply triple_bind; [apply log_operation_agree |]. intros ?; cbv beta.
      eapply triple_bind;
        [apply agree_quiet;
         [apply total_no_raise, create_backup_folder_total | framed] |].
      intros created; cbv beta. destruct created; cbn [negb].
      * eapply triple_bind; [apply process_files_agree |]. intros r; cbv beta.
        apply report_agree.
      * eapply triple_bind; [apply log_operation_agree |]. intros ?; cbv beta.
        apply triple_ret. intros w Hw. apply Hfail, Hw.
  - eapply triple_bind; [apply log_operation_agree |]. intros ?; cbv beta.
    apply triple_ret. intros w Hw. apply Hfail, Hw.
Qed.

(** [start_session] leaves a fresh session open, whatever was open before. *)
Lemma start_session_agree E :
  triple (fun _ => True) (CustomLogger.start_session E)
         (fun sid w => agree sid (Tally 0 0 0 0 []) w) never.
Proof.
  intros w _.
  destruct (run_total _ (start_session_total E) w) as (sid & w1 & Hrun).
  rewrite Hrun. revert Hrun. unfold CustomLogger.start_session.
  rewrite bind_gets.
  destruct (current_session (logger w)) as [s0 |].
  - destruct (run_total _ end_session_total w) as (o & w0 & He).
    rewrite bind_assoc, (bind_ret_eq _ _ _ _ _ He). cbn.
    intros [= <- <-]. eexists. split; [reflexivity |]. cbn. repeat split; lia.
  - cbn. intros [= <- <-]. eexists. split; [reflexivity |]. cbn. repeat split; lia.
Qed.

(** The [finally] of [compress_files], from a session that agrees with the
    result. *)
Lemma finish_session_closes r :
  triple (fun w => agree (CompressionResult.session_id r) (tally_of r) w)
         CompressorEngine.finish_session
         (fun _ w' => run_closed r w' /\ stats_match r w') never.
Proof.
  intros w (s & Hs & Hid & Hp & Hf & Hk & Hz).
  cbv [CompressorEngine.finish_session CustomLogger.end_session
       CustomLogger.log_operation bind gets modify ret].
  unfold session_of in Hs. cbn [logger set_engine]. rewrite Hs.
  cbn. unfold run_closed, stats_match. cbn.
  split.
  - split; [reflexivity |]. split; [reflexivity |]. eexists.
    split; [reflexivity |]. split; [apply last_snoc |]. split; [reflexivity |].
    exact Hid.
  - eexists. split; [reflexivity |]. cbn. auto.
Qed.

Lemma compress_files_session E cfg :
  triple (fun _ => True) (CompressorEngine.compress_files E cfg)
         (fun r w' => run_closed r w' /\ stats_match r w') never.
Proof.
  unfold CompressorEngine.compress_files.
  eapply triple_bind; [apply (triple_modify _ _ (fun _ _ => True)); auto |].
  intros ?; cbv beta.
  eapply triple_bind; [apply (triple_modify _ _ (fun _ _ => True)); auto |].
  intros ?; cbv beta.
  eapply triple_bind; [apply (triple_modify _ _ (fun _ _ => True)); auto |].
  intros ?; cbv beta.
  eapply triple_bind; [apply start_session_agree |]. intros sid; cbv beta.
  eapply triple_try_finally with
    (Q := fun r w => agree (CompressionResult.session_id r) (tally_of r) w)
    (R := never).
  - eapply triple_try_except with (R' := never); [| intros e w []].
    eapply triple_conseq; [apply run_session_agree | auto | | auto].
    intros r w [Hag Hid]. cbv beta. rewrite Hid. exact Hag.
  - intros r. apply finish_session_closes.
  - intros e w [].
Qed.

(** X1. [compress_files] never raises; when it returns, the engine is idle,
    no session is open, and the session of the run, closed, is the last of
    the logger's history and the engine's last statistics, under the session
    id of the result. *)
Theorem compress_files_closes_its_session E cfg w :
  match CompressorEngine.compress_files E cfg w with
  | (Ret r, w') => run_closed r w'
  | (Raise _, _) => False
  | (Hang, _) => True
  end.
Proof.
  pose proof (compress_files_session E cfg w I) as H.
  destruct (CompressorEngine.compress_files E cfg w) as [[r | e |] w'];
    [exact (proj1 H) | exact H | exact I].
Qed.

(** X2. When [compress_files] returns, the statistics the engine keeps of
    the run (the closed session of the logger) count what the result counts:
    the same numbers of processed, failed and skipped files, and a difference
    of the original and the compressed sizes that is the space the result
    says was saved. *)
Theorem compress_files_statistics_match E cfg w :
  match CompressorEngine.compress_files E cfg w with
  | (Ret r, w') => stats_match r w'
  | (Raise _, _) => False
  | (Hang, _) => True
  end.
Proof.
  pose proof (compress_files_session E cfg w I) as H.
  destruct (CompressorEngine.compress_files E cfg w) as [[r | e |] w'];
    [exact (proj2 H) | exact H | exact I].
Qed.

(** ** A stop *)

(** Once [should_stop] is set no control call clears it, and none changes
    [is_running]. *)
Lemma deliver_keeps_stop s w :
  should_stop (engine w) = true ->
  should_stop (engine (snd (CompressorEngine.deliver s w))) = true.
Proof.
  intros H. destruct s; cbn;
    cbv [CompressorEngine.pause CompressorEngine.resume CompressorEngine.stop
         CompressorEngine.log_operation CustomLogger.log_operation
         bind gets when modify ret];
    repeat case_match; cbn; auto.
Qed.

Lemma deliver_keeps_running s :
  preserves (fun w => (is_running (engine w), fs w, backup_operations w,
                       counter_of w, script w))
            (CompressorEngine.deliver s).
Proof. frame. Qed.

Lemma deliver_stop_sets w :
  is_running (engine w) = true ->
  should_stop (engine (snd (CompressorEngine.deliver SigStop w))) = true.
Proof.
  intros H. cbn.
  cbv [CompressorEngine.stop CompressorEngine.log_operation
       CustomLogger.log_operation bind gets when modify ret].
  rewrite H. reflexivity.
Qed.

Lemma deliver_all_stop l : forall w,
  (should_stop (engine w) = true
   \/ (is_running (engine w) = true /\ SigStop ∈ l)) ->
  exists w', for_each l CompressorEngine.deliver w = (Ret tt, w')
             /\ should_stop (engine w') = true
             /\ fs w' = fs w /\ backup_operations w' = backup_operations w
             /\ counter_of w' = counter_of w /\ script w' = script w.
Proof.
  induction l as [| s l IH]; intros w H.
  - destruct H as [H | [_ H]]; [| apply elem_of_nil in H as []].
    exists w. repeat split; auto.
  - cbn [for_each].
    destruct (run_total _ (deliver_total s) w) as ([] & w1 & Hrun).
    rewrite (bind_ret_eq _ _ _ _ _ Hrun).
    pose proof (run_preserved _ _ _ _ _ (deliver_keeps_running s) Hrun) as Hk.
    injection Hk as Hr Hf Hb Hc Hsc.
    assert (H1 : should_stop (engine w1) = true
                 \/ (is_running (engine w1) = true /\ SigStop ∈ l)).
    { destruct H as [H | [Hrn Hin]].
      - left. pose proof (deliver_keeps_stop s w H) as Hs.
        rewrite Hrun in Hs. exact Hs.
      - apply elem_of_cons in Hin as [<- | Hin].
        + left. pose proof (deliver_stop_sets w Hrn) as Hs.
          rewrite Hrun in Hs. exact Hs.
        + right. split; [congruence | exact Hin]. }
    destruct (IH w1 H1) as (w' & Hrun' & Hs' & Hf' & Hb' & Hc' & Hsc').
    exists w'. split; [exact Hrun' |]. repeat split; congruence.
Qed.

Lemma process_loop_stop E i n f rest cfg t w s more :
  is_running (engine w) = true ->
  script w = s :: more ->
  SigStop ∈ before_check s ->
  exists w', CompressorEngine.process_loop E i n (f :: rest) cfg t w = (Ret t, w')
             /\ stopped_at t t w w' /\ script w' = more.
Proof.
  intros Hrn Hsc Hin. cbn [CompressorEngine.process_loop].
  assert (Hns : CompressorEngine.next_slot w = (Ret s, set_script (fun _ => more) w)).
  { unfold CompressorEngine.next_slot. rewrite Hsc. reflexivity. }
  rewrite (bind_ret_eq _ _ _ _ _ Hns).
  destruct (deliver_all_stop (before_check s) (set_script (fun _ => more) w))
    as (w1 & Hrun & Hs & Hf & Hb & Hc & Hsc1); [right; split; [exact Hrn | exact Hin] |].
  rewrite (bind_ret_eq _ _ _ _ _ Hrun), bind_gets, Hs.
  unfold CompressorEngine.log_operation. rewrite bind_log.
  eexists. split; [reflexivity |]. split; [| exact Hsc1].
  unfold stopped_at. cbn. repeat split; auto. apply last_snoc.
Qed.

(** With a valid configuration, files found and the backup folder made, the
    session is the loop over the files and the report, from a world that
    differs from the one the session starts in by the log and by the backup
    folder. *)
Lemma run_session_reaches_loop E cfg sid files w w2 :
  fst (CompressorEngine._validate_config E cfg w) = Ret [] ->
  fst (FileManager.scan_directory E (CompressionConfig.source_folder cfg)
         (CompressionConfig.include_subfolders cfg)
         (CompressionConfig.file_filters cfg) w) = Ret files ->
  files <> [] ->
  fst (FileManager.create_backup_folder (CompressionConfig.backup_folder cfg) w)
  = Ret true ->
  fs w2 = fs w ->
  exists w6,
    beside_logger_fs w6 = beside_logger_fs w2
    /\ fs w6 = fs (snd (FileManager.create_backup_folder
                          (CompressionConfig.backup_folder cfg) w))
    /\ CompressorEngine.run_session E cfg sid w2
       = bind (CompressorEngine._process_files E files cfg)
              (CompressorEngine.report sid) w6.
Proof.
  intros Hv Hscan Hne Hbk Hfs.
  unfold CompressorEngine.run_session, CompressorEngine.log_operation.
  rewrite (bind_ret_eq _ _ _ _ _ (validate_config_run E cfg w w2 [] Hv Hfs)).
  rewrite bind_log.
  match goal with |- context [bind _ _ ?wl] => set (w_l := wl) end.
  destruct (scan_directory_run E _ _ _ w w_l files Hscan Hfs) as (w3 & Hs3 & Hk3).
  rewrite (bind_ret_eq _ _ _ _ _ Hs3).
  destruct files as [| f rest]; [contradiction |].
  unfold CustomLogger.update_session_stats_total_files, CustomLogger.update_stats.
  rewrite bind_modify, bind_log.
  match goal with |- context [bind _ _ ?wl] => set (w5 := wl) end.
  apply beside_logger_eq in Hk3 as (Hf3 & He3 & Hb3 & Hu3 & Hsc3).
  assert (Hfs5 : fs w5 = fs w).
  { transitivity (fs w3); [reflexivity |]. rewrite Hf3. exact Hfs. }
  destruct (create_backup_folder_run _ w w5 true Hbk Hfs5) as (w6 & Hc6 & Hk6 & Hf6).
  rewrite (bind_ret_eq _ _ _ _ _ Hc6). cbn [negb].
  exists w6. split; [| split; [exact Hf6 | reflexivity]].
  rewrite Hk6. unfold beside_logger_fs.
  change (engine w5) with (engine w3). change (backup_operations w5)
    with (backup_operations w3). change (ui w5) with (ui w3).
  change (script w5) with (script w3).
  rewrite He3, Hb3, Hu3, Hsc3. reflexivity.
Qed.

(** X3. A run that is told to stop before its first file: the loop ends at
    once, the result is a success with every counter at zero although files
    were found, no archive is written and no file relocated. *)
Theorem compress_files_stopped_before_first_file E cfg files w s more :
  fst (CompressorEngine._validate_config E cfg w) = Ret [] ->
  fst (FileManager.scan_directory E (CompressionConfig.source_folder cfg)
         (CompressionConfig.include_subfolders cfg)
         (CompressionConfig.file_filters cfg) w) = Ret files ->
  files <> [] ->
  fst (FileManager.create_backup_folder (CompressionConfig.backup_folder cfg) w)
  = Ret true ->
  script w = s :: more ->
  SigStop ∈ before_check s ->
  exists sid w',
    CompressorEngine.compress_files E cfg w
    = (Ret (CompressionResult.mk true 0 0 0 0 [] sid), w')
    /\ only_new_dirs (fs w) (fs w')
    /\ backup_operations w' = backup_operations w.
Proof.
  intros Hv Hscan Hne Hbk Hsc Hin.
  destruct (compress_files_returns E cfg w) as (sid & w2 & Hk & Hret & _).
  apply beside_logger_eq in Hk as (Hf2 & He2 & Hb2 & _ & Hsc2).
  destruct (run_session_reaches_loop E cfg sid files w w2 Hv Hscan Hne Hbk Hf2)
    as (w6 & Hk6 & Hf6 & Heq).
  apply beside_logger_fs_eq in Hk6 as (He6 & Hb6 & _ & Hsc6).
  destruct files as [| f rest]; [contradiction |].
  destruct (process_loop_stop E 0 (length (f :: rest)) f rest cfg
              (Tally 0 0 0 0 []) w6 s more)
    as (w7 & Hloop & (_ & Hf7 & Hb7 & _) & _).
  { rewrite He6, He2. reflexivity. }
  { rewrite Hsc6, Hsc2. exact Hsc. }
  { exact Hin. }
  assert (Hrun : exists w9,
             CompressorEngine.run_session E cfg sid w2
             = (Ret (CompressionResult.mk true 0 0 0 0 [] sid), w9)
             /\ fs w9 = fs w7 /\ backup_operations w9 = backup_operations w7).
  { rewrite Heq. unfold CompressorEngine._process_files.
    rewrite bind_assoc, (bind_ret_eq _ _ _ _ _ Hloop).
    cbn [processed failed skipped total_saved errors Nat.add length Nat.eqb negb when].
    unfold CompressorEngine.log_operation. rewrite bind_assoc, bind_log, bind_ret.
    unfold CompressorEngine.report, CompressorEngine.log_operation.
    rewrite bind_log. eexists. split; [reflexivity |]. split; reflexivity. }
  destruct Hrun as (w9 & Hrun & Hf9 & Hb9).
  destruct (Hret _ _ Hrun) as (w4 & Hc & Hk4).
  exists sid, w4. split; [exact Hc |].
  injection Hk4 as Hf4 Hb4 _ _ _. split.
  - rewrite Hf4, Hf9, Hf7, Hf6. apply create_backup_folder_only_new_dirs.
  - rewrite Hb4, Hb9, Hb7, Hb6, Hb2. reflexivity.
Qed.

Lemma compress_files_stopped_before_first_file_witness :
  exists sid w',
    CompressorEngine.compress_files Sample.env Sample.config Sample_stop_first
    = (Ret (CompressionResult.mk true 0 0 0 0 [] sid), w')
    /\ only_new_dirs (fs Sample_stop_first) (fs w')
    /\ backup_operations w' = backup_operations Sample_stop_first.
Proof.
  apply (compress_files_stopped_before_first_file Sample.env Sample.config
           Sample_files Sample_stop_first (Slot [SigStop] []) []).
  - vm_compute. reflexivity.
  - vm_compute. reflexivity.
  - discriminate.
  - vm_compute. reflexivity.
  - reflexivity.
  - cbn. left.
Defined.

(** ** A pause that outlives its run *)

Lemma process_loop_blocked E i n f rest cfg t w :
  pause_event (engine w) = false ->
  should_stop (engine w) = false ->
  script w = [] ->
  exists wh, CompressorEngine.process_loop E i n (f :: rest) cfg t w = (Hang, wh).
Proof.
  intros Hp Hs Hsc. cbn [CompressorEngine.process_loop].
  assert (Hns : CompressorEngine.next_slot w = (Ret (Slot [] []), w)).
  { unfold CompressorEngine.next_slot. rewrite Hsc. reflexivity. }
  rewrite (bind_ret_eq _ _ _ _ _ Hns). cbn [before_check for_each].
  rewrite bind_ret, bind_gets, Hs.
  unfold CompressorEngine.wait_pause_event.
  rewrite bind_assoc, bind_gets, Hp. cbn [while_waiting for_each].
  eexists. cbv [bind ret gets hang]. rewrite Hp. reflexivity.
Qed.

(** X4. [compress_files] does not set the pause event: started on an engine
    whose pause event is cleared, with files to process and nobody calling
    [resume] or [stop], it blocks before the first file. *)
Theorem compress_files_blocks_on_pending_pause E cfg files w :
  fst (CompressorEngine._validate_config E cfg w) = Ret [] ->
  fst (FileManager.scan_directory E (CompressionConfig.source_folder cfg)
         (CompressionConfig.include_subfolders cfg)
         (CompressionConfig.file_filters cfg) w) = Ret files ->
  files <> [] ->
  fst (FileManager.create_backup_folder (CompressionConfig.backup_folder cfg) w)
  = Ret true ->
  pause_event (engine w) = false ->
  script w = [] ->
  fst (CompressorEngine.compress_files E cfg w) = Hang.
Proof.
  intros Hv Hscan Hne Hbk Hp Hsc.
  destruct (compress_files_returns E cfg w) as (sid & w2 & Hk & _ & Hhang).
  apply beside_logger_eq in Hk as (Hf2 & He2 & _ & _ & Hsc2).
  destruct (run_session_reaches_loop E cfg sid files w w2 Hv Hscan Hne Hbk Hf2)
    as (w6 & Hk6 & _ & Heq).
  apply beside_logger_fs_eq in Hk6 as (He6 & _ & _ & Hsc6).
  destruct files as [| f rest]; [contradiction |].
  destruct (process_loop_blocked E 0 (length (f :: rest)) f rest cfg
              (Tally 0 0 0 0 []) w6) as (wh & Hloop).
  { rewrite He6, He2. exact Hp. }
  { rewrite He6, He2. reflexivity. }
  { rewrite Hsc6, Hsc2. exact Hsc. }
  rewrite (Hhang wh); [reflexivity |].
  rewrite Heq. unfold CompressorEngine._process_files.
  rewrite bind_assoc. apply bind_hang_eq. exact Hloop.
Qed.

Lemma compress_files_blocks_on_pending_pause_witness :
  fst (CompressorEngine.compress_files Sample.env Sample.config Sample_pause_pending)
  = Hang.
Proof.
  apply (compress_files_blocks_on_pending_pause Sample.env Sample.config
           Sample_files Sample_pause_pending).
  - vm_compute. reflexivity.
  - vm_compute. reflexivity.
  - discriminate.
  - vm_compute. reflexivity.
  - reflexivity.
  - reflexivity.
Defined.

(** X5. A pause that is still pending when its run ends is not undone by
    [resume]: [resume] acts on a running engine only, so after [pause], the
    end of the run and [resume] the pause event is still cleared and the
    engine still counts as paused. *)
Theorem resume_after_the_run_is_ignored w :
  is_running (engine w) = true ->
  exists w',
    pause_end_resume w = (Ret tt, w')
    /\ is_running (engine w') = false
    /\ is_paused (engine w') = true
    /\ pause_event (engine w') = false.
Proof.
  intros H. unfold pause_end_resume.
  cbv [CompressorEngine.pause CompressorEngine.resume CompressorEngine.finish_session
       CustomLogger.end_session CompressorEngine.log_operation
       CustomLogger.log_operation bind gets when modify ret].
  rewrite H. cbn.
  destruct (current_session (logger w)); cbn; eexists; repeat split; reflexivity.
Qed.

Lemma resume_after_the_run_is_ignored_witness :
  exists w',
    pause_end_resume Sample_mid_run = (Ret tt, w')
    /\ is_running (engine w') = false
    /\ is_paused (engine w') = true
    /\ pause_event (engine w') = false.
Proof. apply (resume_after_the_run_is_ignored Sample_mid_run). reflexivity. Defined.

(** X6. During a run, [pause] followed by [resume] leaves the engine, the
    files and the script as they were before the two calls, when the engine
    was not paused; only the two log records are added. *)
Theorem pause_then_resume_restores w :
  is_running (engine w) = true ->
  is_paused (engine w) = false ->
  pause_event (engine w) = true ->
  exists w',
    pause_resume w = (Ret tt, w')
    /\ beside_logger w' = beside_logger w
    /\ log_queue (logger w')
       = (log_queue (logger w)
          ++ [LogRecord "INFO" "Proceso pausado" None;
              LogRecord "INFO" "Proceso reanudado" None])%list.
Proof.
  intros Hr Hp He. unfold pause_resume.
  cbv [CompressorEngine.pause CompressorEngine.resume CompressorEngine.log_operation
       CustomLogger.log_operation bind gets when modify ret].
  rewrite Hr. cbn. rewrite Hr. cbn.
  eexists. split; [reflexivity |]. split.
  - unfold beside_logger. cbn. destruct w as [? ? [] ? ? ?]. cbn in *.
    subst. reflexivity.
  - cbn. unfold py_append. rewrite <- app_assoc. reflexivity.
Qed.

Lemma pause_then_resume_restores_witness :
  exists w',
    pause_resume Sample_mid_run = (Ret tt, w')
    /\ beside_logger w' = beside_logger Sample_mid_run
    /\ log_queue (logger w')
       = (log_queue (logger Sample_mid_run)
          ++ [LogRecord "INFO" "Proceso pausado" None;
              LogRecord "INFO" "Proceso reanudado" None])%list.
Proof.
  apply (pause_then_resume_restores Sample_mid_run); reflexivity.
Defined.

(** ** The backup folder *)

Lemma mkdir_rec_ok_dir fuel : forall p m m',
  Os.mkdir_rec fuel p m = Ok m' -> Os.is_dir_in p m' = true.
Proof.
  assert (H1 : forall p m m', Os.mkdir1 p m = Ok m' -> Os.is_dir_in p m' = true).
  { intros p m m'. unfold Os.mkdir1.
    destruct (m !! p); [discriminate |].
    destruct (Os.parent_check p m); [| discriminate].
    intros [= <-]. unfold Os.is_dir_in. rewrite lookup_insert_eq. reflexivity. }
  induction fuel as [| fuel IH]; intros p m m'; cbn [Os.mkdir_rec].
  - destruct (Os.mkdir1 p m) as [m1 | e] eqn:Hm.
    + intros [= <-]. eapply H1, Hm.
    + destruct e; try (destruct (Os.is_dir_in p m) eqn:Hd; [intros [= <-]; exact Hd
                                                           | discriminate]).
      destruct (String.eqb (PyPath.parent p) p); discriminate.
  - destruct (Os.mkdir1 p m) as [m1 | e] eqn:Hm.
    + intros [= <-]. eapply H1, Hm.
    + destruct e; try (destruct (Os.is_dir_in p m) eqn:Hd; [intros [= <-]; exact Hd
                                                           | discriminate]).
      destruct (String.eqb (PyPath.parent p) p); [discriminate |].
      destruct (Os.mkdir_rec fuel (PyPath.parent p) m) as [m1 | e1]; [| discriminate].
      destruct (Os.mkdir1 p m1) as [m2 | e2] eqn:Hm2.
      * intros [= <-]. eapply H1, Hm2.
      * destruct (Os.is_dir_in p m1) eqn:Hd; [intros [= <-]; exact Hd | discriminate].
Qed.

Lemma mkdir_rec_dir_unchanged fuel p m :
  Os.is_dir_in p m = true -> Os.mkdir_rec fuel p m = Ok m.
Proof.
  intros Hd. unfold Os.is_dir_in in Hd.
  destruct (m !! p) as [[| r wr] |] eqn:Hp; try discriminate.
  destruct fuel; cbn [Os.mkdir_rec]; unfold Os.mkdir1, Os.is_dir_in; rewrite Hp;
    reflexivity.
Qed.

Lemma mkdir_rec_err_not_dir fuel p m e :
  Os.mkdir_rec fuel p m = Err e -> Os.is_dir_in p m = false.
Proof.
  intros H. destruct (Os.is_dir_in p m) eqn:Hd; [| reflexivity].
  rewrite (mkdir_rec_dir_unchanged fuel p m Hd) in H. discriminate.
Qed.

Lemma create_backup_folder_made p w :
  exists created w',
    FileManager.create_backup_folder p w = (Ret created, w')
    /\ backup_folder_made p w created w'.
Proof.
  destruct (run_total_preserved _ _ (create_backup_folder_total p)
              (create_backup_folder_frame p) w) as (created & w' & Hrun & Hk).
  exists created, w'. split; [exact Hrun |].
  pose proof (create_backup_folder_only_new_dirs p w) as Hdirs.
  rewrite Hrun in Hdirs. cbn [snd] in Hdirs.
  unfold backup_folder_made. split; [| split; [exact Hdirs | split; [| exact Hk]]].
  - revert Hrun. unfold FileManager.create_backup_folder, FileManager._log, try_except,
      Os.mkdir_parents, bind at 1.
    destruct (Os.mkdir_rec (String.length p) p (fs w)) as [m' | e] eqn:Hm.
    + apply mkdir_rec_ok_dir in Hm. unfold Os.is_dir_in in Hm.
      unfold Os.access_W. rewrite bind_gets. cbn [fs set_fs].
      destruct (m' !! p) as [[| r wr] |] eqn:Hp; try discriminate.
      destruct wr; cbn [negb]; rewrite bind_log; intros [= <- <-]; cbn [fs set_fs
        set_logger].
      * split; [intros _; exists r; exact Hp | reflexivity].
      * split; [discriminate |]. intros (r' & Hr'). rewrite Hp in Hr'. discriminate.
    + apply mkdir_rec_err_not_dir in Hm. rewrite bind_log. intros [= <- <-].
      cbn [fs set_logger]. split; [discriminate |].
      intros (r & Hr). unfold Os.is_dir_in in Hm. rewrite Hr in Hm. discriminate.
  - revert Hrun. unfold FileManager.create_backup_folder, FileManager._log, try_except,
      Os.mkdir_parents, bind at 1.
    destruct (Os.mkdir_rec (String.length p) p (fs w)) as [m' | e] eqn:Hm.
    + pose proof Hm as Hd. apply mkdir_rec_ok_dir in Hd. unfold Os.is_dir_in in Hd.
      unfold Os.access_W. rewrite bind_gets. cbn [fs set_fs].
      destruct (m' !! p) as [[| r wr] |] eqn:Hp; try discriminate.
      destruct wr; cbn [negb]; rewrite bind_log; intros [= <- <-]; [discriminate |].
      intros _. cbn [fs set_fs set_logger].
      (* the folder was there, not writable: nothing was made *)
      destruct (Os.is_dir_in p (fs w)) eqn:Hd0.
      * rewrite (mkdir_rec_dir_unchanged _ _ _ Hd0) in Hm. congruence.
      * exfalso. destruct (Hdirs p) as [Heq | [_ Hnew]].
        -- cbn [fs set_fs set_logger] in Heq. unfold Os.is_dir_in in Hd0.
           rewrite <- Heq, Hp in Hd0. discriminate.
        -- cbn [fs set_fs set_logger] in Hnew. rewrite Hp in Hnew. discriminate.
    + rewrite bind_log. intros [= <- <-]. reflexivity.
Qed.

(** X7. [create_backup_folder] never raises; it returns [True] exactly when
    the path is a writable directory afterwards; it removes and replaces
    nothing, making at most directories, and when it returns [False] the
    file system is as it was. *)
Theorem create_backup_folder_spec p w :
  exists created w',
    FileManager.create_backup_folder p w = (Ret created, w')
    /\ (created = true <-> writable_dir (fs w') p)
    /\ only_new_dirs (fs w) (fs w')
    /\ (created = false -> fs w' = fs w).
Proof.
  destruct (create_backup_folder_made p w) as (created & w' & Hrun & H1 & H2 & H3 & _).
  exists created, w'. auto.
Qed.

(** ** Relocation *)

Lemma create_backup_folder_there p w :
  Os.is_dir_in p (fs w) = true ->
  exists created w',
    FileManager.create_backup_folder p w = (Ret created, w')
    /\ fs w' = fs w /\ beside_logger_fs w' = beside_logger_fs w.
Proof.
  intros Hd.
  destruct (run_total_preserved _ _ (create_backup_folder_total p)
              (create_backup_folder_frame p) w) as (created & w' & Hrun & Hk).
  exists created, w'. split; [exact Hrun |]. split; [| exact Hk].
  pose proof (create_backup_folder_fs p w) as Hfs. rewrite Hrun in Hfs.
  cbn [snd] in Hfs. rewrite Hfs. unfold Os.mkdir_parents.
  rewrite (mkdir_rec_dir_unchanged _ _ _ Hd). reflexivity.
Qed.

Lemma copy2_ret src dst w w1 :
  Os.copy2 src dst w = (Ret tt, w1) ->
  Os.is_dir_in dst (fs w) = false ->
  exists sz r wr z,
    fs w !! src = Some (NFile sz r wr z)
    /\ dst <> src
    /\ w1 = set_fs (<[dst := NFile sz r wr z]>) w
    /\ (fs w !! dst = None -> Os.dir_writable (PyPath.parent dst) (fs w) = true).
Proof.
  unfold Os.copy2. intros Hc Hd. rewrite Hd in Hc.
  destruct (fs w !! src) as [[sz r wr z | r wr] |] eqn:Hsrc; try discriminate Hc.
  destruct (String.eqb dst src) eqn:He; [discriminate Hc |].
  apply String.eqb_neq in He.
  destruct r; cbn [negb] in Hc; [| discriminate Hc].
  exists sz, true, wr, z. split; [reflexivity |]. split; [exact He |].
  destruct (fs w !! dst) as [[sz' r' [|] z' | r' wr'] |] eqn:Hdst;
    try discriminate Hc.
  - injection Hc as <-. split; [reflexivity | discriminate].
  - unfold Os.parent_check, Os.dir_writable in *.
    destruct (fs w !! PyPath.parent dst) as [[| ? []] |]; try discriminate Hc.
    injection Hc as <-. split; [reflexivity | reflexivity].
Qed.

Lemma unlink_ret p w w1 :
  Os.unlink p w = (Ret tt, w1) ->
  w1 = set_fs (delete p) w
  /\ Os.dir_writable (PyPath.parent p) (fs w) = true.
Proof.
  unfold Os.unlink, Os.parent_check, Os.dir_writable.
  destruct (fs w !! p) as [[] |]; try discriminate.
  destruct (fs w !! PyPath.parent p) as [[| ? []] |]; try discriminate.
  intros [= <-]. split; reflexivity.
Qed.

(** A move that returns has put what was at the source at the destination,
    by the rename or by the copy and the removal; to a path that was free it
    needs both directories. *)
Lemma move_ret src dst w w1 :
  Os.move src dst w = (Ret tt, w1) ->
  exists nd,
    fs w !! src = Some nd
    /\ logger w1 = logger w /\ backup_operations w1 = backup_operations w
    /\ (Os.is_dir_in dst (fs w) = false ->
        fs w1 = <[dst := nd]> (delete src (fs w))
        /\ (dst <> src -> fs w !! dst = None ->
            Os.dir_writable (PyPath.parent src) (fs w) = true
            /\ Os.dir_writable (PyPath.parent dst) (fs w) = true)).
Proof.
  intros Hm.
  pose proof (run_preserved _ _ _ _ _
                (move_preserves (fun w => (logger w, backup_operations w)) src dst
                   (fun _ _ => eq_refl)) Hm) as Hk.
  injection Hk as Hl Hb.
  revert Hm. unfold Os.move.
  destruct (Os.is_dir_in dst (fs w)) eqn:Hd; cbn [andb].
  - destruct (String.eqb dst src) eqn:He.
    + apply String.eqb_eq in He. subst dst. intros _.
      unfold Os.is_dir_in in Hd.
      destruct (fs w !! src) as [nd |] eqn:Hsrc; [| discriminate Hd].
      exists nd. repeat split; auto; discriminate.
    + destruct (bool_decide _); [discriminate |].
      destruct (fs w !! src) as [nd |] eqn:Hsrc; [| discriminate].
      intros _. exists nd. repeat split; auto; discriminate.
  - destruct (fs w !! src) as [nd |] eqn:Hsrc; [| discriminate].
    destruct (String.eqb dst src) eqn:He.
    + apply String.eqb_eq in He. subst dst. intros [= <-].
      exists nd. split; [reflexivity |]. split; [reflexivity |].
      split; [reflexivity |]. intros _. split.
      * rewrite insert_delete_eq. symmetry. apply insert_id. exact Hsrc.
      * intros Hne. contradiction.
    + apply String.eqb_neq in He.
      destruct (Os.rename_allowed nd src dst (fs w)) eqn:Hr.
      * intros [= <-]. exists nd. split; [reflexivity |]. split; [reflexivity |].
        split; [reflexivity |]. intros _. split; [reflexivity |]. intros _ _.
        unfold Os.rename_allowed in Hr.
        apply andb_true_iff in Hr as [Hr _]. apply andb_true_iff in Hr. exact Hr.
      * destruct nd as [sz r wr z | r wr]; [| discriminate].
        unfold bind.
        destruct (Os.copy2 src dst w) as [[[] | e |] wc] eqn:Hc; try discriminate.
        apply copy2_ret in Hc as (sz' & r' & wr' & z' & Hs' & _ & -> & Hfree);
          [| exact Hd].
        rewrite Hsrc in Hs'. injection Hs' as <- <- <- <-.
        intros Hu. apply unlink_ret in Hu as [-> Hwp].
        exists (NFile sz r wr z). split; [reflexivity |]. split; [reflexivity |].
        split; [reflexivity |]. intros _. cbn [fs set_fs]. split.
        -- apply delete_insert_ne. congruence.
        -- intros _ Hnone. split; [| exact (Hfree Hnone)].
           cbn [fs set_fs] in Hwp. unfold Os.dir_writable in *.
           destruct (decide (PyPath.parent src = dst)) as [Heq | Hne'].
           ++ rewrite Heq, lookup_insert_eq in Hwp. discriminate.
           ++ rewrite lookup_insert_ne in Hwp by congruence. exact Hwp.
Qed.

(** What a relocation that went through consists of. *)
Lemma move_to_backup_some E p b pol w d w' :
  Os.is_dir_in b (fs w) = true ->
  FileManager.move_to_backup E p b pol w = (Ret (Some d), w') ->
  exists w0 w1,
    fs w0 = fs w /\ backup_operations w0 = backup_operations w
    /\ ((~ present w (backup_target b p) /\ d = backup_target b p)
        \/ (present w (backup_target b p)
            /\ FileManager._resolve_conflict E (backup_target b p) pol w0
               = (Ret (Some d), w0)))
    /\ Os.move p d w0 = (Ret tt, w1)
    /\ fs w' = fs w1
    /\ backup_operations w' = (backup_operations w1 ++ [(p, d)])%list.
Proof.
  intros Hb. unfold FileManager.move_to_backup, FileManager._log.
  rewrite (bind_ret_eq _ _ _ _ _ (exists_spec w p)).
  destruct (bool_decide (present w p)); cbn [negb];
    [| rewrite bind_log; discriminate].
  destruct (create_backup_folder_there b w Hb) as (created & w0 & Hc & Hf0 & Hk0).
  apply beside_logger_fs_eq in Hk0 as (_ & Hb0 & _ & _).
  rewrite (bind_ret_eq _ _ _ _ _ Hc).
  destruct created; cbn [negb]; [| discriminate].
  unfold try_except. fold (backup_target b p).
  rewrite (bind_ret_eq _ _ _ _ _ (exists_spec w0 (backup_target b p))).
  assert (Hpres : present w0 (backup_target b p) <-> present w (backup_target b p)).
  { unfold present. rewrite Hf0. reflexivity. }
  destruct (bool_decide (present w0 (backup_target b p))) eqn:Hdex.
  - apply bool_decide_eq_true in Hdex.
    destruct (resolve_conflict_pure E (backup_target b p) pol w0) as (o & Hres).
    rewrite (bind_ret_eq _ _ _ _ _ Hres).
    destruct o as [d0 |]; [| rewrite bind_log; discriminate].
    destruct (Os.move p d0 w0) as [[[] | e |] w1] eqn:Hm.
    + rewrite (bind_ret_eq _ _ _ _ _ Hm), bind_modify, bind_log.
      intros [= <- <-]. exists w0, w1. split; [exact Hf0 |]. split; [exact Hb0 |].
      split; [right; split; [apply Hpres, Hdex | exact Hres] |].
      split; [exact Hm |]. split; reflexivity.
    + rewrite (bind_raise_eq _ _ _ _ _ Hm), bind_log. discriminate.
    + rewrite (bind_hang_eq _ _ _ _ Hm). discriminate.
  - apply bool_decide_eq_false in Hdex. rewrite bind_ret.
    destruct (Os.move p (backup_target b p) w0) as [[[] | e |] w1] eqn:Hm.
    + rewrite (bind_ret_eq _ _ _ _ _ Hm), bind_modify, bind_log.
      intros [= <- <-]. exists w0, w1. split; [exact Hf0 |]. split; [exact Hb0 |].
      split; [left; split; [rewrite <- Hpres; exact Hdex | reflexivity] |].
      split; [exact Hm |]. split; reflexivity.
    + rewrite (bind_raise_eq _ _ _ _ _ Hm), bind_log. discriminate.
    + rewrite (bind_hang_eq _ _ _ _ Hm). discriminate.
Qed.






(** ** Undoing the relocations *)

Lemma move_ok src dst w nd :
  fs w !! src = Some nd ->
  fs w !! dst = None ->
  dst <> src ->
  Os.dir_writable (PyPath.parent src) (fs w) = true ->
  Os.dir_writable (PyPath.parent dst) (fs w) = true ->
  Os.move src dst w
  = (Ret tt, set_fs (fun m => <[dst := nd]> (delete src m)) w).
Proof.
  intros Hsrc Hd Hne H1 H2. unfold Os.move, Os.rename_allowed, Os.is_dir_in.
  rewrite Hsrc, Hd. cbn [andb].
  apply String.eqb_neq in Hne. rewrite Hne, H1, H2.
  destruct nd; rewrite ?Hd; reflexivity.
Qed.

Lemma dir_writable_lookup p m :
  Os.dir_writable p m = true -> exists r, m !! p = Some (NDir r true).
Proof.
  unfold Os.dir_writable. destruct (m !! p) as [[| r [|]] |]; try discriminate.
  eauto.
Qed.

Lemma rollback_one_ok n original_path backup_path w w' :
  present w backup_path ->
  Os.move backup_path original_path w = (Ret tt, w') ->
  FileManager.rollback_one n (original_path, backup_path) w
  = (Ret (S n),
     set_logger (CustomLogger.set_queue (fun q =>
       py_append q (LogRecord "INFO"
                      ("Operación revertida: " ++ PyPath.name original_path) None)))
       w').
Proof.
  intros Hex Hm. unfold FileManager.rollback_one, FileManager._log.
  apply try_except_ret_eq.
  rewrite (bind_ret_eq _ _ _ _ _ (exists_spec w backup_path)).
  rewrite bool_decide_eq_true_2 by exact Hex.
  rewrite (bind_ret_eq _ _ _ _ _ Hm), bind_log. reflexivity.
Qed.

(** X10. A relocation of a regular file to a path that was free, undone:
    [rollback_backup_operations] reverts the one operation recorded, the file
    system is again what it was before the relocation, and the list of
    operations is empty. *)
Theorem rollback_restores E p b pol w d w1 sz r wr z :
  Os.is_dir_in b (fs w) = true ->
  fs w !! p = Some (NFile sz r wr z) ->
  backup_operations w = [] ->
  FileManager.move_to_backup E p b pol w = (Ret (Some d), w1) ->
  fs w !! d = None ->
  exists w2,
    FileManager.rollback_backup_operations w1 = (Ret 1%nat, w2)
    /\ fs w2 = fs w
    /\ backup_operations w2 = [].
Proof.
  intros Hb Hp Hops Hrun Hfree.
  destruct (move_to_backup_some E p b pol w d w1 Hb Hrun)
    as (w0 & w0' & Hf0 & Hb0 & _ & Hm & Hf1 & Hb1).
  destruct (move_ret p d w0 w0' Hm) as (nd & Hsrc & _ & Hb0' & Hmv).
  rewrite Hf0 in Hsrc, Hmv. rewrite Hp in Hsrc. injection Hsrc as <-.
  assert (Hd : Os.is_dir_in d (fs w) = false)
    by (unfold Os.is_dir_in; rewrite Hfree; reflexivity).
  assert (Hne : d <> p) by congruence.
  destruct (Hmv Hd) as [Hfs Hdirs].
  destruct (Hdirs Hne Hfree) as [Hwp Hwd].
  assert (Hfs1 : fs w1 = <[d := NFile sz r wr z]> (delete p (fs w))) by congruence.
  assert (Hops1 : backup_operations w1 = [(p, d)]).
  { rewrite Hb1, Hb0', Hb0, Hops. reflexivity. }
  apply dir_writable_lookup in Hwp as (rp & Hwp).
  apply dir_writable_lookup in Hwd as (rd & Hwd).
  assert (Hback : Os.move d p w1
                  = (Ret tt, set_fs (fun m => <[p := NFile sz r wr z]> (delete d m)) w1)).
  { apply move_ok.
    - rewrite Hfs1. apply lookup_insert_eq.
    - rewrite Hfs1, lookup_insert_ne by exact Hne.
      apply lookup_delete_eq.
    - congruence.
    - unfold Os.dir_writable. rewrite Hfs1.
      rewrite lookup_insert_ne by congruence.
      rewrite lookup_delete_ne by congruence. rewrite Hwd. reflexivity.
    - unfold Os.dir_writable. rewrite Hfs1.
      rewrite lookup_insert_ne by congruence.
      rewrite lookup_delete_ne by congruence. rewrite Hwp. reflexivity. }
  unfold FileManager.rollback_backup_operations. rewrite bind_gets, Hops1.
  cbn [rev app fold_m].
  assert (Hex : present w1 d)
    by (unfold present; rewrite Hfs1, lookup_insert_eq; eexists; reflexivity).
  rewrite bind_assoc, (bind_ret_eq _ _ _ _ _ (rollback_one_ok 0 p d w1 _ Hex Hback)).
  rewrite bind_ret, bind_modify.
  eexists. split; [reflexivity |]. split; [| reflexivity].
  cbn [fs set_fs set_logger set_backup_operations]. rewrite Hfs1.
  apply map_eq. intros q.
  destruct (decide (q = p)) as [-> | Hq1].
  - rewrite lookup_insert_eq. symmetry. exact Hp.
  - rewrite lookup_insert_ne by congruence.
    destruct (decide (q = d)) as [-> | Hq2].
    + rewrite lookup_delete_eq. symmetry. exact Hfree.
    + rewrite lookup_delete_ne by congruence.
      rewrite lookup_insert_ne by congruence.
      apply lookup_delete_ne. congruence.
Qed.

Lemma rollback_restores_witness :
  exists w2,
    FileManager.rollback_backup_operations Sample_moved = (Ret 1%nat, w2)
    /\ fs w2 = fs Sample.crowded_backup
    /\ backup_operations w2 = [].
Proof.
  apply (rollback_restores Sample.env "src/A.pdf" "respaldo"
           ConflictResolution.RENAME Sample.crowded_backup "respaldo/A_2.pdf"
           Sample_moved 1000 true true None).
  - vm_compute. reflexivity.
  - vm_compute. reflexivity.
  - reflexivity.
  - vm_compute. reflexivity.
  - vm_compute. reflexivity.
Defined.

(** X11. [rollback_backup_operations] never raises: whatever happens to the
    single moves it returns a count that is at most the number of operations
    recorded, and it leaves the list of operations empty. *)
Theorem rollback_always_clears w :
  exists n w',
    FileManager.rollback_backup_operations w = (Ret n, w')
    /\ (n <= length (backup_operations w))%nat
    /\ backup_operations w' = [].
Proof.
  assert (Hone : forall n op w0,
             exists n' w1, FileManager.rollback_one n op w0 = (Ret n', w1)
                           /\ (n' <= S n)%nat).
  { intros n [original_path backup_path] w0.
    unfold FileManager.rollback_one, FileManager._log, try_except.
    rewrite (bind_ret_eq _ _ _ _ _ (exists_spec w0 backup_path)).
    destruct (bool_decide (present w0 backup_path)).
    - destruct (Os.move backup_path original_path w0) as [[[] | e |] w1] eqn:Hm.
      + rewrite (bind_ret_eq _ _ _ _ _ Hm), bind_log. eexists _, _.
        split; [reflexivity | lia].
      + rewrite (bind_raise_eq _ _ _ _ _ Hm), bind_log. eexists _, _.
        split; [reflexivity | lia].
      + exfalso. apply (move_no_hang backup_path original_path w0).
        rewrite Hm. reflexivity.
    - eexists _, _. split; [reflexivity | lia]. }
  assert (Hfold : forall l n w0,
             exists n' w1,
               fold_m FileManager.rollback_one l n w0 = (Ret n', w1)
               /\ (n' <= n + length l)%nat).
  { induction l as [| op l IH]; intros n w0; cbn [fold_m length].
    - eexists _, _. split; [reflexivity | lia].
    - destruct (Hone n op w0) as (n1 & w1 & H1 & Hle1).
      rewrite (bind_ret_eq _ _ _ _ _ H1).
      destruct (IH n1 w1) as (n2 & w2 & H2 & Hle2).
      exists n2, w2. split; [exact H2 | lia]. }
  unfold FileManager.rollback_backup_operations. rewrite bind_gets.
  destruct (Hfold (rev (backup_operations w)) 0%nat w) as (n & w1 & Hrun & Hle).
  rewrite (bind_ret_eq _ _ _ _ _ Hrun), bind_modify.
  eexists _, _. split; [reflexivity |]. split; [| reflexivity].
  rewrite length_rev in Hle. exact Hle.
Qed.

(** ** The scan *)

Lemma from_path_file item w sz r wr z :
  fs w !! item = Some (NFile sz r wr z) ->
  FileInfo.from_path item w
  = (Ret (FileInfo.mk item (PyPath.name item) sz
                      (PyStr.lower (PyPath.suffix item)) r wr), w).
Proof.
  intros H. unfold FileInfo.from_path, try_except, Os.stat_size, Os.access_R,
    Os.access_W, bind, gets, ret.
  repeat (rewrite H; cbv beta iota). reflexivity.
Qed.

Lemma matches_filters_default E nm filters :
  FileManager._matches_filters E nm
    (match filters with [] => ["*"] | _ => filters end)
  = FileManager._matches_filters E nm filters.
Proof. destruct filters; reflexivity. Qed.

(** Without the subfolders, [process_files] keeps of the entries of the
    directory those that [scan_item] keeps, in their order. *)
Lemma process_files_flat E fuel filters path acc w wr :
  fs w !! path = Some (NDir true wr) ->
  exists w',
    FileManager.process_files E fuel false filters path acc w
    = (Ret (acc ++ omap (scan_item E filters (fs w)) (Os.children path (fs w)))%list,
       w')
    /\ beside_logger w' = beside_logger w.
Proof.
  intros Hd.
  assert (Hit : Os.iterdir path w = (Ret (Os.children path (fs w)), w)).
  { unfold Os.iterdir. rewrite Hd. reflexivity. }
  assert (Hgoal : forall body : list FileInfo.t -> Path -> M (list FileInfo.t),
    (forall acc0 item w0, fs w0 = fs w ->
       exists w1,
         body acc0 item w0
         = (Ret (acc0 ++ match scan_item E filters (fs w) item with
                         | Some f => [f] | None => [] end)%list, w1)
         /\ beside_logger w1 = beside_logger w0) ->
    forall items acc0 w0, fs w0 = fs w ->
      exists w1,
        fold_m body items acc0 w0
        = (Ret (acc0 ++ omap (scan_item E filters (fs w)) items)%list, w1)
        /\ beside_logger w1 = beside_logger w0).
  { intros body Hbody. induction items as [| item items IH]; intros acc0 w0 Hf0.
    - cbn. rewrite app_nil_r. eauto.
    - cbn [fold_m omap list_omap].
      destruct (Hbody acc0 item w0 Hf0) as (w1 & H1 & Hk1).
      rewrite (bind_ret_eq _ _ _ _ _ H1).
      pose proof (beside_logger_eq _ _ Hk1) as (Hf1 & _).
      destruct (IH (acc0 ++ match scan_item E filters (fs w) item with
                            | Some f => [f] | None => [] end)%list w1)
        as (w2 & H2 & Hk2); [congruence |].
      exists w2. split; [| congruence].
      rewrite H2. destruct (scan_item E filters (fs w) item);
        rewrite <- app_assoc; reflexivity. }
  assert (Hbody : forall fuel' acc0 item w0, fs w0 = fs w ->
    exists w1,
      (let! isf := Os.is_file item in
       if isf then
         if FileManager._matches_filters E (PyPath.name item) filters then
           let! file_info := FileInfo.from_path item in
           if FileInfo.is_readable file_info then ret (py_append acc0 file_info)
           else
             FileManager._log "WARNING" ("Archivo no legible: " ++ PyPath.name item)
                              (Some item) ;;;
             ret acc0
         else ret acc0
       else
         let! isd := Os.is_dir item in
         if isd && false then fuel' acc0 item
         else ret acc0) w0
      = (Ret (acc0 ++ match scan_item E filters (fs w) item with
                      | Some f => [f] | None => [] end)%list, w1)
      /\ beside_logger w1 = beside_logger w0).
  { intros fuel' acc0 item w0 Hf0. unfold Os.is_file, Os.is_dir, scan_item.
    rewrite bind_gets, Hf0.
    destruct (fs w !! item) as [[sz r wr0 z | r wr0] |] eqn:Hi.
    - destruct (FileManager._matches_filters E (PyPath.name item) filters);
        cbn [andb]; [| rewrite app_nil_r; eauto].
      assert (Hi0 : fs w0 !! item = Some (NFile sz r wr0 z)) by congruence.
      rewrite (bind_ret_eq _ _ _ _ _ (from_path_file item w0 sz r wr0 z Hi0)).
      cbn [FileInfo.is_readable]. destruct r.
      + eexists. split; [reflexivity | reflexivity].
      + unfold FileManager._log. rewrite bind_log, app_nil_r.
        eexists. split; [reflexivity | reflexivity].
    - rewrite bind_gets, Hf0, Hi, andb_false_r, app_nil_r. eauto.
    - rewrite bind_gets, Hf0, Hi, app_nil_r. cbn [andb]. eauto. }
  destruct fuel as [| fuel]; cbn [FileManager.process_files].
  - destruct (Hgoal _ (Hbody (fun acc0 _ => ret acc0))
                (Os.children path (fs w)) acc w eq_refl) as (w1 & H1 & Hk1).
    exists w1. split; [| exact Hk1]. apply try_except_ret_eq.
    rewrite (bind_ret_eq _ _ _ _ _ Hit). etransitivity; [| exact H1]. reflexivity.
  - destruct (Hgoal _ (Hbody (fun acc0 item =>
                FileManager.process_files E fuel false filters item acc0))
                (Os.children path (fs w)) acc w eq_refl) as (w1 & H1 & Hk1).
    exists w1. split; [| exact Hk1]. apply try_except_ret_eq.
    rewrite (bind_ret_eq _ _ _ _ _ Hit). etransitivity; [| exact H1]. reflexivity.
Qed.

Lemma omap_ext_all {A B} (f g : A -> option B) (l : list A) :
  (forall x, f x = g x) -> omap f l = omap g l.
Proof.
  intros H. induction l as [| x l IH]; cbn; [reflexivity |].
  rewrite H, IH. reflexivity.
Qed.

Lemma scan_item_default E filters m item :
  scan_item E (match filters with [] => ["*"] | _ => filters end) m item
  = scan_item E filters m item.
Proof. unfold scan_item. rewrite matches_filters_default. reflexivity. Qed.

Lemma scan_directory_flat_run E d filters w wr :
  fs w !! d = Some (NDir true wr) ->
  exists w',
    FileManager.scan_directory E d false filters w
    = (Ret (omap (scan_item E filters (fs w)) (Os.children d (fs w))), w')
    /\ beside_logger w' = beside_logger w.
Proof.
  intros Hd. unfold FileManager.scan_directory, FileManager._log.
  rewrite (bind_ret_eq _ _ _ _ _ (exists_spec w d)).
  rewrite bool_decide_eq_true_2 by (unfold present; rewrite Hd; eexists; reflexivity).
  cbn [negb]. unfold Os.is_dir. rewrite bind_gets, Hd. cbn [negb].
  destruct (process_files_flat E (size (fs w))
              (match filters with [] => ["*"] | _ => filters end) d [] w wr Hd)
    as (w1 & H1 & Hk1).
  rewrite (omap_ext_all _ _ _ (scan_item_default E filters (fs w))) in H1.
  cbn [app] in H1.
  eexists. split.
  - apply try_except_ret_eq. rewrite bind_gets, (bind_ret_eq _ _ _ _ _ H1), bind_log.
    reflexivity.
  - rewrite <- Hk1. reflexivity.
Qed.

Lemma elem_of_children d m p :
  p ∈ Os.children d m <-> PyPath.parent p = d /\ p <> d /\ is_Some (m !! p).
Proof.
  unfold Os.children. rewrite list_elem_of_filter.
  change (map fst (map_to_list m)) with (fst <$> map_to_list m).
  rewrite list_elem_of_fmap. split.
  - intros [[H1 H2] ([k x] & -> & Hin)]. apply elem_of_map_to_list in Hin.
    cbn in *. repeat split; eauto.
  - intros (H1 & H2 & [x Hx]). split; [split; assumption |].
    exists (p, x). split; [reflexivity |]. apply elem_of_map_to_list. exact Hx.
Qed.

Lemma NoDup_children d m : NoDup (Os.children d m).
Proof.
  unfold Os.children. apply NoDup_filter.
  change (map fst (map_to_list m)) with (fst <$> map_to_list m).
  apply NoDup_fst_map_to_list.
Qed.

Lemma scan_item_some E filters m item f :
  scan_item E filters m item = Some f <->
  FileInfo.path f = item
  /\ describes m f
  /\ FileManager._matches_filters E (FileInfo.name f) filters = true.
Proof.
  unfold scan_item, describes. split.
  - destruct (m !! item) as [[sz r wr z | r wr] |] eqn:Hi; try discriminate.
    destruct (FileManager._matches_filters E (PyPath.name item) filters) eqn:Hm;
      [| discriminate].
    destruct r; [| discriminate]. cbn [andb]. intros [= <-].
    cbn [FileInfo.path FileInfo.name]. split; [reflexivity |].
    split; [| exact Hm]. exists sz, wr, z. split; [exact Hi | reflexivity].
  - intros (<- & (sz & wr & z & Hi & Hf) & Hm). rewrite Hi.
    rewrite Hf in Hm. cbn [FileInfo.name] in Hm. rewrite Hm. cbn [andb].
    symmetry. f_equal. exact Hf.
Qed.

Lemma scan_list_flat E d filters m r wr :
  m !! d = Some (NDir r wr) ->
  flat_scan_of E d filters m (omap (scan_item E filters m) (Os.children d m)).
Proof.
  intros Hd. split.
  - intros f. rewrite list_elem_of_omap. split.
    + intros (item & Hin & Hs). apply scan_item_some in Hs as (<- & Hdesc & Hm).
      apply elem_of_children in Hin as (Hp & _). auto.
    + intros (Hdesc & Hp & Hm). exists (FileInfo.path f). split.
      * apply elem_of_children. split; [exact Hp |].
        destruct Hdesc as (sz & wr0 & z & Hi & _). split.
        -- intros Heq. rewrite Heq, Hd in Hi. discriminate.
        -- eexists; exact Hi.
      * apply scan_item_some. auto.
  - pose proof (NoDup_children d m) as Hnd.
    induction (Os.children d m) as [| item items IH]; cbn; [constructor |].
    apply NoDup_cons in Hnd as [Hnot Hnd].
    destruct (scan_item E filters m item) as [f |] eqn:Hs; [| apply IH, Hnd].
    cbn. apply NoDup_cons. split; [| apply IH, Hnd].
    apply scan_item_some in Hs as (<- & _).
    intros Hin. apply Hnot. apply list_elem_of_fmap in Hin as (f' & Hf' & Hin).
    apply list_elem_of_omap in Hin as (item' & Hin' & Hs').
    apply scan_item_some in Hs' as (<- & _). rewrite Hf'. exact Hin'.
Qed.

(** X12. A scan without the subfolders of a directory that can be read
    returns, without raising, exactly the regular files directly in it that
    can be read and whose names pass the filters, each once and each
    described as [FileInfo.from_path] reads it; nothing but the log
    changes. *)
Theorem scan_directory_flat E d filters w wr :
  fs w !! d = Some (NDir true wr) ->
  exists files w',
    FileManager.scan_directory E d false filters w = (Ret files, w')
    /\ flat_scan_of E d filters (fs w) files
    /\ beside_logger w' = beside_logger w.
Proof.
  intros Hd. destruct (scan_directory_flat_run E d filters w wr Hd) as (w' & Hrun & Hk).
  eexists _, w'. split; [exact Hrun |]. split; [| exact Hk].
  eapply scan_list_flat, Hd.
Qed.

Lemma scan_directory_flat_witness :
  exists files w',
    FileManager.scan_directory Sample.env "src" false [] Sample.world = (Ret files, w')
    /\ flat_scan_of Sample.env "src" [] (fs Sample.world) files
    /\ beside_logger w' = beside_logger Sample.world.
Proof.
  apply (scan_directory_flat Sample.env "src" [] Sample.world true).
  vm_compute. reflexivity.
Defined.

Lemma fold_m_invariant {A B} (I : B -> World -> Prop) (body : B -> A -> M B) :
  (forall acc x w, I acc w -> exists acc' w', body acc x w = (Ret acc', w') /\ I acc' w') ->
  forall l acc w, I acc w ->
    exists acc' w', fold_m body l acc w = (Ret acc', w') /\ I acc' w'.
Proof.
  intros Hbody. induction l as [| x l IH]; intros acc w Hw; cbn [fold_m].
  - eexists _, _. split; [reflexivity | exact Hw].
  - destruct (Hbody acc x w Hw) as (acc1 & w1 & H1 & Hw1).
    rewrite (bind_ret_eq _ _ _ _ _ H1). apply IH, Hw1.
Qed.

Lemma iterdir_run path w :
  (exists items, Os.iterdir path w = (Ret items, w))
  \/ (exists e, Os.iterdir path w = (Raise e, w)).
Proof.
  unfold Os.iterdir. destruct (fs w !! path) as [[| [] ?] |]; eauto.
Qed.

Lemma process_files_sound E incl filters m :
  forall fuel path acc w,
    fs w = m -> Forall (scanned_ok E filters m) acc ->
    exists files w',
      FileManager.process_files E fuel incl filters path acc w = (Ret files, w')
      /\ fs w' = m /\ Forall (scanned_ok E filters m) files.
Proof.
  assert (Hbody : forall rec : list FileInfo.t -> Path -> M (list FileInfo.t),
    (forall acc item w, fs w = m -> Forall (scanned_ok E filters m) acc ->
       exists files w', rec acc item w = (Ret files, w')
                        /\ fs w' = m /\ Forall (scanned_ok E filters m) files) ->
    forall acc item w,
      fs w = m /\ Forall (scanned_ok E filters m) acc ->
      exists files w',
        (let! isf := Os.is_file item in
         if isf then
           if FileManager._matches_filters E (PyPath.name item) filters then
             let! file_info := FileInfo.from_path item in
             if FileInfo.is_readable file_info then ret (py_append acc file_info)
             else
               FileManager._log "WARNING" ("Archivo no legible: " ++ PyPath.name item)
                                (Some item) ;;;
               ret acc
           else ret acc
         else
           let! isd := Os.is_dir item in
           if isd && incl then rec acc item
           else ret acc) w
        = (Ret files, w')
        /\ fs w' = m /\ Forall (scanned_ok E filters m) files).
  { intros rec Hrec acc item w [Hf Hacc]. unfold Os.is_file, Os.is_dir.
    rewrite bind_gets.
    destruct (fs w !! item) as [[sz r wr z | r wr] |] eqn:Hi.
    - destruct (FileManager._matches_filters E (PyPath.name item) filters) eqn:Hm;
        [| eexists _, _; split; [reflexivity | auto]].
      rewrite (bind_ret_eq _ _ _ _ _ (from_path_file item w sz r wr z Hi)).
      cbn [FileInfo.is_readable]. destruct r.
      + eexists _, _. split; [reflexivity |]. split; [exact Hf |].
        unfold py_append. apply Forall_app. split; [exact Hacc |].
        constructor; [| constructor]. split; [| exact Hm].
        exists sz, wr, z. cbn [FileInfo.path]. split; [congruence | reflexivity].
      + unfold FileManager._log. rewrite bind_log.
        eexists _, _. split; [reflexivity |]. split; [exact Hf | exact Hacc].
    - rewrite bind_gets, Hi. destruct incl; cbn [andb].
      + apply Hrec; assumption.
      + eexists _, _; split; [reflexivity | auto].
    - rewrite bind_gets, Hi. cbn [andb]. eexists _, _; split; [reflexivity | auto]. }
  assert (Hstep : forall rec : list FileInfo.t -> Path -> M (list FileInfo.t),
    (forall acc item w, fs w = m -> Forall (scanned_ok E filters m) acc ->
       exists files w', rec acc item w = (Ret files, w')
                        /\ fs w' = m /\ Forall (scanned_ok E filters m) files) ->
    forall path acc w (h : exn -> M (list FileInfo.t)),
      (forall e w0, fs w0 = m ->
         exists w', h e w0 = (Ret acc, w') /\ fs w' = m) ->
      fs w = m -> Forall (scanned_ok E filters m) acc ->
      exists files w',
        try_except
          (let! items := Os.iterdir path in
           fold_m (fun files item =>
             let! isf := Os.is_file item in
             if isf then
               if FileManager._matches_filters E (PyPath.name item) filters then
                 let! file_info := FileInfo.from_path item in
                 if FileInfo.is_readable file_info then ret (py_append files file_info)
                 else
                   FileManager._log "WARNING"
                     ("Archivo no legible: " ++ PyPath.name item) (Some item) ;;;
                   ret files
               else ret files
             else
               let! isd := Os.is_dir item in
               if isd && incl then rec files item
               else ret files) items acc) h w
        = (Ret files, w')
        /\ fs w' = m /\ Forall (scanned_ok E filters m) files).
  { intros rec Hrec path acc w h Hh Hf Hacc.
    destruct (iterdir_run path w) as [[items Hit] | [e Hit]].
    - match goal with |- context [fold_m ?b _ _] => set (body := b) end.
      destruct (fold_m_invariant
                  (fun acc w => fs w = m /\ Forall (scanned_ok E filters m) acc)
                  body (Hbody rec Hrec) items acc w (conj Hf Hacc))
        as (files & w' & Hrun & Hf' & Hfiles).
      exists files, w'. split; [| auto]. apply try_except_ret_eq.
      rewrite (bind_ret_eq _ _ _ _ _ Hit). exact Hrun.
    - destruct (Hh e w Hf) as (w' & Hrun & Hf').
      exists acc, w'. split; [| auto].
      rewrite (try_except_raise_eq _ _ _ e w); [exact Hrun |].
      apply bind_raise_eq. exact Hit. }
  assert (Hhandler : forall (path : Path) (acc : list FileInfo.t) e w0, fs w0 = m ->
    exists w',
      match e with
      | PermissionError _ =>
          FileManager._log "WARNING" ("Sin permisos para acceder a: " ++ path) None ;;;
          ret acc
      | _ =>
          FileManager._log "ERROR"
            ("Error al procesar directorio " ++ path ++ ": " ++ exn_str e) None ;;;
          ret acc
      end w0 = (Ret acc, w') /\ fs w' = m).
  { intros path acc e w0 Hf0. unfold FileManager._log.
    destruct e; rewrite bind_log; eexists; (split; [reflexivity | exact Hf0]). }
  induction fuel as [| fuel IH]; intros path acc w Hf Hacc;
    cbn [FileManager.process_files].
  - apply (Hstep (fun files _ => ret files)); auto.
    intros acc0 item w0 Hf0 Hacc0. eexists _, _. split; [reflexivity | auto].
  - apply (Hstep (fun files item =>
                    FileManager.process_files E fuel incl filters item files)); auto.
Qed.

(** X13. [scan_directory] never raises and changes nothing but the log;
    with or without the subfolders, every entry of the list it returns is a
    regular file that can be read, described as it stands (path, name, size,
    lower-cased extension), whose name passes the filters. *)
Theorem scan_directory_sound E d incl filters w :
  exists files w',
    FileManager.scan_directory E d incl filters w = (Ret files, w')
    /\ Forall (scanned_ok E filters (fs w)) files
    /\ beside_logger w' = beside_logger w.
Proof.
  destruct (run_total_preserved _ _ (scan_directory_total E d incl filters)
              (scan_directory_only_logs E d incl filters) w)
    as (files & w' & Hrun & Hk).
  exists files, w'. split; [exact Hrun |]. split; [| exact Hk].
  revert Hrun. unfold FileManager.scan_directory, FileManager._log.
  rewrite (bind_ret_eq _ _ _ _ _ (exists_spec w d)).
  destruct (bool_decide (present w d)); cbn [negb];
    [| rewrite bind_log; intros [= <- _]; constructor].
  unfold Os.is_dir. rewrite bind_gets.
  destruct (match fs w !! d with Some (NDir _ _) => true | _ => false end);
    cbn [negb]; [| rewrite bind_log; intros [= <- _]; constructor].
  destruct (process_files_sound E incl
              (match filters with [] => ["*"] | _ => filters end) (fs w)
              (size (fs w)) d [] w eq_refl (Forall_nil_2 _))
    as (files0 & w0 & H0 & _ & Hok).
  rewrite (try_except_ret_eq _ _ w files0
             (set_logger (CustomLogger.set_queue (fun q =>
                py_append q (LogRecord "INFO"
                  ("Encontrados " ++ PyStr.of_nat (length files0)
                   ++ " archivos en " ++ d) None))) w0)).
  - intros [= <- _]. eapply Forall_impl; [exact Hok |].
    intros f [Hd Hm]. split; [exact Hd |].
    rewrite matches_filters_default in Hm. exact Hm.
  - rewrite bind_gets, (bind_ret_eq _ _ _ _ _ H0), bind_log. reflexivity.
Qed.

(** ** Statistics of a list of files *)

Lemma max_by_size_spec : forall files best,
  let hi := FileManager.max_by_size best files in
  hi ∈ best :: files
  /\ forall f, f ∈ best :: files -> FileInfo.size f <= FileInfo.size hi.
Proof.
  induction files as [| g files IH]; intros best; cbn [FileManager.max_by_size].
  - split; [left |]. intros f Hf. apply list_elem_of_singleton in Hf as ->. lia.
  - destruct (IH (if FileInfo.size best <? FileInfo.size g then g else best))
      as [Hin Hmax].
    split.
    + apply elem_of_cons in Hin as [Heq | Hin].
      * rewrite Heq. destruct (FileInfo.size best <? FileInfo.size g);
          [right; left | left].
      * right; right; exact Hin.
    + intros f Hf.
      assert (Hb : FileInfo.size best
                   <= FileInfo.size (if FileInfo.size best <? FileInfo.size g
                                     then g else best)
                   /\ FileInfo.size g
                      <= FileInfo.size (if FileInfo.size best <? FileInfo.size g
                                        then g else best)).
      { destruct (FileInfo.size best <? FileInfo.size g) eqn:Hlt;
          [apply Z.ltb_lt in Hlt | apply Z.ltb_ge in Hlt]; lia. }
      pose proof (Hmax _ (list_elem_of_here _ _)) as H0.
      apply elem_of_cons in Hf as [-> | Hf]; [lia |].
      apply elem_of_cons in Hf as [-> | Hf]; [lia |].
      apply Hmax. right; exact Hf.
Qed.

Lemma min_by_size_spec : forall files best,
  let lo := FileManager.min_by_size best files in
  lo ∈ best :: files
  /\ forall f, f ∈ best :: files -> FileInfo.size lo <= FileInfo.size f.
Proof.
  induction files as [| g files IH]; intros best; cbn [FileManager.min_by_size].
  - split; [left |]. intros f Hf. apply list_elem_of_singleton in Hf as ->. lia.
  - destruct (IH (if FileInfo.size g <? FileInfo.size best then g else best))
      as [Hin Hmin].
    split.
    + apply elem_of_cons in Hin as [Heq | Hin].
      * rewrite Heq. destruct (FileInfo.size g <? FileInfo.size best);
          [right; left | left].
      * right; right; exact Hin.
    + intros f Hf.
      assert (Hb : FileInfo.size (if FileInfo.size g <? FileInfo.size best
                                  then g else best) <= FileInfo.size best
                   /\ FileInfo.size (if FileInfo.size g <? FileInfo.size best
                                     then g else best) <= FileInfo.size g).
      { destruct (FileInfo.size g <? FileInfo.size best) eqn:Hlt;
          [apply Z.ltb_lt in Hlt | apply Z.ltb_ge in Hlt]; lia. }
      pose proof (Hmin _ (list_elem_of_here _ _)) as H0.
      apply elem_of_cons in Hf as [-> | Hf]; [lia |].
      apply elem_of_cons in Hf as [-> | Hf]; [lia |].
      apply Hmin. right; exact Hf.
Qed.

Lemma fold_left_sizes : forall files acc,
  fold_left (fun acc f => acc + FileInfo.size f) files acc = acc + sum_of_sizes files.
Proof.
  induction files as [| f files IH]; intros acc; cbn [fold_left sum_of_sizes foldr].
  - lia.
  - rewrite IH. unfold sum_of_sizes. lia.
Qed.

Lemma sum_of_sizes_bounds lo hi : forall files,
  (forall f, f ∈ files -> lo <= FileInfo.size f <= hi) ->
  Z.of_nat (length files) * lo <= sum_of_sizes files <= Z.of_nat (length files) * hi.
Proof.
  induction files as [| f files IH]; intros H; cbn [length sum_of_sizes foldr].
  - lia.
  - pose proof (H f (list_elem_of_here _ _)) as Hf.
    assert (IH' := IH (fun g Hg => H g (list_elem_of_further _ _ _ Hg))).
    unfold sum_of_sizes in IH'. lia.
Qed.

(** X14. For a list of files that is not empty [get_file_statistics] gives
    the number of the files and the sum of their sizes, and as the largest
    and the smallest file two files of the list between whose sizes the size
    of every file of the list lies, as does the average. *)
Theorem file_statistics_bounds files :
  files <> [] ->
  exists lo hi,
    extremes files lo hi
    /\ FileManager.smallest_file (FileManager.get_file_statistics files)
       = Some (FileManager.entry_of lo)
    /\ FileManager.largest_file (FileManager.get_file_statistics files)
       = Some (FileManager.entry_of hi)
    /\ FileManager.total_files (FileManager.get_file_statistics files) = length files
    /\ FileManager.total_size (FileManager.get_file_statistics files)
       = sum_of_sizes files
    /\ FileInfo.size lo
       <= FileManager.average_size (FileManager.get_file_statistics files)
       <= FileInfo.size hi.
Proof.
  destruct files as [| first others]; [contradiction |]. intros _.
  destruct (max_by_size_spec others first) as [Hin_hi Hmax].
  destruct (min_by_size_spec others first) as [Hin_lo Hmin].
  exists (FileManager.min_by_size first others), (FileManager.max_by_size first others).
  assert (Hext : extremes (first :: others) (FileManager.min_by_size first others)
                          (FileManager.max_by_size first others)).
  { split; [exact Hin_lo |]. split; [exact Hin_hi |]. intros f Hf. split; auto. }
  split; [exact Hext |].
  unfold FileManager.get_file_statistics.
  cbn [FileManager.smallest_file FileManager.largest_file FileManager.total_files
       FileManager.total_size FileManager.average_size].
  rewrite fold_left_sizes, Z.add_0_l.
  split; [reflexivity |]. split; [reflexivity |]. split; [reflexivity |].
  split; [reflexivity |].
  destruct Hext as (_ & _ & Hb).
  pose proof (sum_of_sizes_bounds _ _ (first :: others) Hb) as [H1 H2].
  assert (Hn : 0 < Z.of_nat (length (first :: others))) by (cbn [length]; lia).
  split.
  - apply Z.div_le_lower_bound; [exact Hn | exact H1].
  - apply Z.div_le_upper_bound; [exact Hn | exact H2].
Qed.

Lemma file_statistics_bounds_witness :
  exists lo hi,
    extremes Sample_three lo hi
    /\ FileManager.smallest_file (FileManager.get_file_statistics Sample_three)
       = Some (FileManager.entry_of lo)
    /\ FileManager.largest_file (FileManager.get_file_statistics Sample_three)
       = Some (FileManager.entry_of hi)
    /\ FileManager.total_files (FileManager.get_file_statistics Sample_three)
       = length Sample_three
    /\ FileManager.total_size (FileManager.get_file_statistics Sample_three)
       = sum_of_sizes Sample_three
    /\ FileInfo.size lo
       <= FileManager.average_size (FileManager.get_file_statistics Sample_three)
       <= FileInfo.size hi.
Proof. apply (file_statistics_bounds Sample_three). discriminate. Defined.

Lemma count_extension_lookup m f ext :
  default 0%nat (FileManager.count_extension m f !! ext)
  = (default 0%nat (m !! ext) + (if decide (extension_key f = ext) then 1 else 0))%nat.
Proof.
  unfold FileManager.count_extension. fold (extension_key f).
  destruct (decide (extension_key f = ext)) as [-> | Hne].
  - rewrite lookup_insert_eq. cbn. lia.
  - rewrite lookup_insert_ne by exact Hne. lia.
Qed.

Lemma fold_count_extension ext : forall files m,
  default 0%nat (fold_left FileManager.count_extension files m !! ext)
  = (default 0%nat (m !! ext)
     + length (filter (fun f => extension_key f = ext) files))%nat.
Proof.
  induction files as [| f files IH]; intros m; cbn [fold_left].
  - cbn. lia.
  - rewrite IH, count_extension_lookup, filter_cons.
    destruct (decide (extension_key f = ext)); cbn [length]; lia.
Qed.

(** X15. In the table of extensions of [get_file_statistics] every key
    stands for as many files as the list has under it, a file without an
    extension counting under ["sin_extension"]; a key that no file has is
    not in the table. *)
Theorem file_statistics_extensions files ext :
  default 0%nat (FileManager.extensions (FileManager.get_file_statistics files) !! ext)
  = length (filter (fun f => extension_key f = ext) files)
  /\ (is_Some (FileManager.extensions (FileManager.get_file_statistics files) !! ext)
      <-> exists f, f ∈ files /\ extension_key f = ext).
Proof.
  assert (Hpos : forall fs0 m,
             (forall k n, m !! k = Some n -> (0 < n)%nat) ->
             forall k n, fold_left FileManager.count_extension fs0 m !! k = Some n ->
                         (0 < n)%nat).
  { induction fs0 as [| f fs0 IH]; intros m Hm k n; cbn [fold_left]; [apply Hm |].
    apply IH. intros k0 n0. unfold FileManager.count_extension.
    match goal with |- <[?key := _]> _ !! _ = _ -> _ =>
      destruct (decide (key = k0)) as [-> | Hne] end.
    - rewrite lookup_insert_eq. intros [= <-]. lia.
    - rewrite lookup_insert_ne by exact Hne. apply Hm. }
  assert (Hcount : default 0%nat
            (FileManager.extensions (FileManager.get_file_statistics files) !! ext)
          = length (filter (fun f => extension_key f = ext) files)).
  { destruct files as [| first others]; [reflexivity |].
    unfold FileManager.get_file_statistics. cbn [FileManager.extensions].
    rewrite fold_count_extension. rewrite lookup_empty. cbn. reflexivity. }
  split; [exact Hcount |].
  assert (Hlen : (0 < length (filter (fun f => extension_key f = ext) files))%nat
                 <-> exists f, f ∈ files /\ extension_key f = ext).
  { split.
    - intros Hl. destruct (filter (fun f => extension_key f = ext) files)
        as [| f l] eqn:Hf; [cbn in Hl; lia |].
      exists f. assert (Hin : f ∈ filter (fun f => extension_key f = ext) files)
        by (rewrite Hf; left).
      apply list_elem_of_filter in Hin as [H1 H2]. auto.
    - intros (f & Hin & Hk).
      assert (Hin' : f ∈ filter (fun f => extension_key f = ext) files)
        by (apply list_elem_of_filter; auto).
      destruct (filter (fun f => extension_key f = ext) files);
        [apply elem_of_nil in Hin' as [] | cbn; lia]. }
  rewrite <- Hlen, <- Hcount. split.
  - intros [n Hn]. rewrite Hn. cbn.
    destruct files as [| first others];
      [unfold FileManager.get_file_statistics in Hn;
       cbn [FileManager.extensions] in Hn; rewrite lookup_empty in Hn;
       discriminate |].
    unfold FileManager.get_file_statistics in Hn. cbn [FileManager.extensions] in Hn.
    eapply Hpos; [| exact Hn]. intros k n0. rewrite lookup_empty. discriminate.
  - intros Hl.
    destruct (FileManager.extensions (FileManager.get_file_statistics files) !! ext);
      [eexists; reflexivity | cbn in Hl; lia].
Qed.

(** ** Invoice numbers *)

Lemma is_digit_upper a : Invoice.is_digit (PyStr.upper_ascii a) = Invoice.is_digit a.
Proof. destruct a as [[] [] [] [] [] [] [] []]; reflexivity. Qed.

Lemma has_digit_upper s :
  has_char Invoice.is_digit (PyStr.upper s) = has_char Invoice.is_digit s.
Proof.
  induction s as [| a s IH]; cbn [PyStr.upper has_char]; [reflexivity |].
  rewrite is_digit_upper, IH. reflexivity.
Qed.

Lemma has_char_drop cls k : forall s,
  has_char cls s = false -> has_char cls (PyStr.drop k s) = false.
Proof.
  induction k as [| k IH]; intros [| a s] H; cbn [PyStr.drop]; auto.
  cbn [has_char] in H. apply orb_false_iff in H as [_ H]. apply IH, H.
Qed.

Lemma span_no_digit s :
  has_char Invoice.is_digit s = false -> Invoice.span Invoice.is_digit s = 0%nat.
Proof.
  destruct s as [| a s]; cbn [has_char Invoice.span]; [reflexivity |].
  intros H. apply orb_false_iff in H as [-> _]. reflexivity.
Qed.

Lemma digits_between_none lo hi s :
  (1 <= lo)%nat -> has_char Invoice.is_digit s = false ->
  Invoice.digits_between lo hi s = None.
Proof.
  intros Hlo H. unfold Invoice.digits_between. rewrite (span_no_digit s H).
  destruct lo; [lia | reflexivity].
Qed.

Lemma digits_some_none s :
  has_char Invoice.is_digit s = false -> Invoice.digits_some s = None.
Proof.
  intros H. unfold Invoice.digits_some. rewrite (span_no_digit s H). reflexivity.
Qed.

Lemma sep_then_none c rest s :
  (forall s', has_char Invoice.is_digit s' = false -> rest s' = None) ->
  has_char Invoice.is_digit s = false ->
  Invoice.sep_then c rest s = None.
Proof.
  intros Hrest H. unfold Invoice.sep_then.
  destruct (Invoice.starts_with c s); [| reflexivity].
  rewrite (Hrest _ (has_char_drop _ 1 s H)). reflexivity.
Qed.

Lemma letters_then_none rest s :
  (forall s', has_char Invoice.is_digit s' = false -> rest s' = None) ->
  has_char Invoice.is_digit s = false ->
  forall tries, Invoice.letters_then tries s rest = None.
Proof.
  intros Hrest H. induction tries as [| k tries IH]; cbn [Invoice.letters_then];
    [reflexivity |].
  destruct (k <=? Invoice.span Invoice.is_upper s)%nat; [| exact IH].
  rewrite (Hrest _ (has_char_drop _ k s H)). exact IH.
Qed.

Lemma search_none pat : forall s,
  (forall s', has_char Invoice.is_digit s' = false -> pat s' = None) ->
  has_char Invoice.is_digit s = false ->
  Invoice.search pat s = None.
Proof.
  intros s Hpat. induction s as [| a s IH]; intros H; cbn [Invoice.search];
    rewrite (Hpat _ H); [reflexivity |].
  apply IH. cbn [has_char] in H. apply orb_false_iff in H as [_ H]. exact H.
Qed.

(** X16. A name of ASCII characters without a digit has no invoice number:
    [_extract_invoice_number] returns it as it is, in its own case. *)
Theorem extract_invoice_number_without_digits filename :
  is_ascii_name filename = true ->
  has_char Invoice.is_digit filename = false ->
  Invoice._extract_invoice_number filename = filename.
Proof.
  intros _ H. unfold Invoice._extract_invoice_number.
  assert (Hu : has_char Invoice.is_digit (PyStr.upper filename) = false)
    by (rewrite has_digit_upper; exact H).
  assert (H1 : Invoice.pattern1 (PyStr.upper filename) = None).
  { apply letters_then_none; [| exact Hu].
    intros s' Hs'. apply digits_between_none; [lia | exact Hs']. }
  assert (H2 : Invoice.pattern2 (PyStr.upper filename) = None).
  { apply letters_then_none; [| exact Hu]. apply digits_some_none. }
  assert (H3 : Invoice.pattern3 (PyStr.upper filename) = None).
  { apply digits_between_none; [lia | exact Hu]. }
  assert (H4 : Invoice.search Invoice.pattern4 (PyStr.upper filename) = None).
  { apply search_none; [| exact Hu]. intros s' Hs'.
    apply letters_then_none; [| exact Hs'].
    intros s'' Hs''. apply sep_then_none; [| exact Hs''].
    intros s3 Hs3. apply digits_between_none; [lia | exact Hs3]. }
  assert (H5 : Invoice.search Invoice.pattern5 (PyStr.upper filename) = None).
  { apply search_none; [| exact Hu]. intros s' Hs'.
    apply letters_then_none; [| exact Hs'].
    intros s'' Hs''. apply sep_then_none; [| exact Hs'']. apply digits_some_none. }
  unfold Invoice.match_start. rewrite H1, H2, H3, H4, H5. reflexivity.
Qed.

Lemma extract_invoice_number_without_digits_witness :
  Invoice._extract_invoice_number "informe-final" = "informe-final".
Proof.
  apply (extract_invoice_number_without_digits "informe-final"); reflexivity.
Defined.

(** ** A file that goes through *)

Lemma write_file_ok E zip_path level filename arcname w sz wr z :
  fs w !! zip_path = None ->
  Os.dir_writable (PyPath.parent zip_path) (fs w) = true ->
  fs w !! filename = Some (NFile sz true wr z) ->
  -1 <= level <= 9 ->
  Zip.write_file E zip_path level filename arcname w
  = (Ret tt,
     set_fs (<[zip_path := NFile (deflated_size E level filename sz) true true
                                 (Some [ZEntry arcname sz (negb (bad_media E zip_path))])]>)
            w).
Proof.
  intros Hfree Hdir Hsrc Hlevel.
  assert (Hne : filename <> zip_path) by congruence.
  apply dir_writable_lookup in Hdir as (rd & Hdir).
  unfold Zip.write_file.
  assert (Hopen : Zip.open_w zip_path w
                  = (Ret tt, set_fs (<[zip_path := NFile 0 true true None]>) w)).
  { unfold Zip.open_w, Os.parent_check. rewrite Hfree, Hdir. reflexivity. }
  rewrite (bind_ret_eq _ _ _ _ _ Hopen), bind_gets. cbn [fs set_fs].
  rewrite lookup_insert_ne by congruence. rewrite Hsrc. cbn [negb].
  replace ((-1 <=? level) && (level <=? 9)) with true
    by (symmetry; apply andb_true_iff; split; apply Z.leb_le; lia).
  cbn [negb].
  rewrite (close_w_run _ _ _ _ 0 true true None) by apply lookup_insert_eq.
  unfold set_fs. cbn [fs logger engine backup_operations ui script].
  rewrite insert_insert_eq. reflexivity.
Qed.

Lemma write_archive_frame E f cfg zip_path :
  preserves (fun w => (engine w, backup_operations w, script w))
            (CompressorEngine.write_archive E f cfg zip_path).
Proof. frame. Qed.

Lemma write_archive_ok E f cfg zip_path w wr z :
  fs w !! zip_path = None ->
  Os.dir_writable (PyPath.parent zip_path) (fs w) = true ->
  fs w !! FileInfo.path f = Some (NFile (FileInfo.size f) true wr z) ->
  -1 <= CompressionConfig.compression_level cfg <= 9 ->
  bad_media E zip_path = false ->
  exists w',
    CompressorEngine.write_archive E f cfg zip_path w
    = (Ret (RSuccess zip_path (FileInfo.size f)
              (deflated_size E (CompressionConfig.compression_level cfg)
                             (FileInfo.path f) (FileInfo.size f))
              (FileInfo.size f
               - deflated_size E (CompressionConfig.compression_level cfg)
                               (FileInfo.path f) (FileInfo.size f))), w')
    /\ fs w' = <[zip_path := archive_of E cfg f]> (fs w)
    /\ engine w' = engine w
    /\ backup_operations w' = backup_operations w.
Proof.
  intros Hfree Hdir Hsrc Hlevel Hmedia.
  pose proof (write_file_ok E zip_path _ _ (FileInfo.name f) w _ wr z
                Hfree Hdir Hsrc Hlevel) as Hw.
  rewrite Hmedia in Hw. cbn [negb] in Hw. fold (archive_of E cfg f) in Hw.
  set (w1 := set_fs (<[zip_path := archive_of E cfg f]>) w) in *.
  assert (Hz : fs w1 !! zip_path = Some (archive_of E cfg f))
    by apply lookup_insert_eq.
  assert (Hrun : exists w',
    CompressorEngine.write_archive E f cfg zip_path w
    = (Ret (RSuccess zip_path (FileInfo.size f)
              (deflated_size E (CompressionConfig.compression_level cfg)
                             (FileInfo.path f) (FileInfo.size f))
              (FileInfo.size f
               - deflated_size E (CompressionConfig.compression_level cfg)
                               (FileInfo.path f) (FileInfo.size f))), w')
    /\ fs w' = fs w1).
  { unfold CompressorEngine.write_archive.
    rewrite (bind_ret_eq _ _ _ _ _ Hw).
    assert (Hver : (if CompressionConfig.verify_integrity cfg
                    then CompressorEngine._verify_zip_integrity zip_path f
                    else ret true) w1 = (Ret true, w1)).
    { destruct (CompressionConfig.verify_integrity cfg); [| reflexivity].
      unfold archive_of in Hz.
      rewrite (verify_single_member _ f _ _ _ _ _ Hz). cbn [e_crc_ok e_name e_size].
      rewrite String.eqb_refl, Z.eqb_refl. reflexivity. }
    rewrite (bind_ret_eq _ _ _ _ _ Hver). cbn [negb].
    unfold Os.stat_size at 1, bind at 1. rewrite Hz. unfold archive_of at 1.
    unfold CompressorEngine.log_file_operation.
    match goal with |- context [CustomLogger.log_file_operation E ?a ?b ?c ?d ?e ?g] =>
      destruct (log_file_operation_run E a b c d e g w1) as (w2 & H2 & Hk2) end.
    rewrite (bind_ret_eq _ _ _ _ _ H2).
    destruct (call_file_callback_run "compress" (FileInfo.name f) "success" w2)
      as (w3 & H3 & Hf3 & _).
    rewrite (bind_ret_eq _ _ _ _ _ H3).
    apply beside_logger_eq in Hk2 as (Hf2 & _).
    exists w3. split; [reflexivity | congruence]. }
  destruct Hrun as (w' & Hrun & Hfs). exists w'. split; [exact Hrun |].
  split; [exact Hfs |].
  pose proof (run_preserved _ _ _ _ _ (write_archive_frame E f cfg zip_path) Hrun) as Hk.
  injection Hk as He Hb _. auto.
Qed.

Lemma compress_single_file_ok E f cfg pattern s w wr z :
  chosen_pattern E cfg = Ok pattern ->
  rendered E f pattern (counter_of w) = Ok s ->
  fs w !! archive_path f s = None ->
  Os.dir_writable (PyPath.parent (archive_path f s)) (fs w) = true ->
  fs w !! FileInfo.path f = Some (NFile (FileInfo.size f) true wr z) ->
  -1 <= CompressionConfig.compression_level cfg <= 9 ->
  bad_media E (archive_path f s) = false ->
  exists w',
    CompressorEngine._compress_single_file E f cfg w
    = (Ret (RSuccess (archive_path f s) (FileInfo.size f)
              (deflated_size E (CompressionConfig.compression_level cfg)
                             (FileInfo.path f) (FileInfo.size f))
              (FileInfo.size f
               - deflated_size E (CompressionConfig.compression_level cfg)
                               (FileInfo.path f) (FileInfo.size f))), w')
    /\ fs w' = <[archive_path f s := archive_of E cfg f]> (fs w)
    /\ backup_operations w' = backup_operations w
    /\ counter_of w' = counter_of w + 1.
Proof.
  intros Hpat Hrend Hfree Hdir Hsrc Hlevel Hmedia.
  pose proof (generate_zip_name_spec E f cfg w) as Hname.
  rewrite Hpat, Hrend in Hname.
  destruct (write_archive_ok E f cfg (archive_path f s) (bump_counter w) wr z
              Hfree Hdir Hsrc Hlevel Hmedia) as (w' & Hrun & Hfs & He & Hb).
  exists w'. split; [| split; [exact Hfs | split; [exact Hb |]]].
  - unfold CompressorEngine._compress_single_file. apply try_except_ret_eq.
    unfold CompressorEngine.resolve_zip_path.
    rewrite bind_assoc, (bind_ret_eq _ _ _ _ _ Hname).
    fold (archive_path f s).
    rewrite bind_assoc, (bind_ret_eq _ _ _ _ _ (exists_spec _ _)).
    rewrite bool_decide_eq_false_2
      by (unfold present; cbn [fs bump_counter set_engine]; rewrite Hfree;
          intros [? [=]]).
    rewrite !bind_ret. exact Hrun.
  - unfold counter_of. rewrite He. reflexivity.
Qed.

Lemma move_to_backup_frame E p b pol :
  preserves engine (FileManager.move_to_backup E p b pol).
Proof. frame. Qed.

Lemma move_to_backup_ok E p b pol w nd :
  fs w !! p = Some nd ->
  Os.dir_writable b (fs w) = true ->
  fs w !! backup_target b p = None ->
  Os.dir_writable (PyPath.parent p) (fs w) = true ->
  Os.dir_writable (PyPath.parent (backup_target b p)) (fs w) = true ->
  exists w',
    FileManager.move_to_backup E p b pol w = (Ret (Some (backup_target b p)), w')
    /\ fs w' = <[backup_target b p := nd]> (delete p (fs w))
    /\ backup_operations w' = (backup_operations w ++ [(p, backup_target b p)])%list
    /\ engine w' = engine w.
Proof.
  intros Hp Hb Hfree Hdp Hdt.
  assert (Hrun : exists w',
    FileManager.move_to_backup E p b pol w = (Ret (Some (backup_target b p)), w')
    /\ fs w' = <[backup_target b p := nd]> (delete p (fs w))
    /\ backup_operations w' = (backup_operations w ++ [(p, backup_target b p)])%list).
  { unfold FileManager.move_to_backup, FileManager._log.
    rewrite (bind_ret_eq _ _ _ _ _ (exists_spec w p)).
    rewrite bool_decide_eq_true_2 by (unfold present; rewrite Hp; eexists; reflexivity).
    cbn [negb].
    destruct (create_backup_folder_made b w) as (created & w0 & Hc & Hmade).
    destruct Hmade as (Hiff & _ & _ & Hk0).
    assert (Hbd : Os.is_dir_in b (fs w) = true).
    { apply dir_writable_lookup in Hb as (rb & Hb). unfold Os.is_dir_in.
      rewrite Hb. reflexivity. }
    destruct (create_backup_folder_there b w Hbd) as (c' & w0' & Hc' & Hf0 & _).
    rewrite Hc in Hc'. injection Hc' as <- <-.
    assert (created = true) as ->.
    { apply Hiff. apply dir_writable_lookup in Hb as (rb & Hb).
      exists rb. rewrite Hf0. exact Hb. }
    apply beside_logger_fs_eq in Hk0 as (_ & Hb0 & _ & _).
    rewrite (bind_ret_eq _ _ _ _ _ Hc). cbn [negb].
    fold (backup_target b p).
    assert (Hm : Os.move p (backup_target b p) w0
                 = (Ret tt, set_fs (fun m => <[backup_target b p := nd]> (delete p m))
                                   w0)).
    { apply move_ok; rewrite ?Hf0; auto. congruence. }
    eexists. split.
    - apply try_except_ret_eq.
      rewrite (bind_ret_eq _ _ _ _ _ (exists_spec _ _)).
      rewrite bool_decide_eq_false_2
        by (unfold present; rewrite Hf0, Hfree; intros [? [=]]).
      rewrite bind_ret, (bind_ret_eq _ _ _ _ _ Hm), bind_modify, bind_log.
      reflexivity.
    - cbn [fs set_fs set_logger set_backup_operations backup_operations].
      rewrite Hf0, Hb0. split; reflexivity. }
  destruct Hrun as (w' & Hrun & Hfs & Hops). exists w'.
  split; [exact Hrun |]. split; [exact Hfs |]. split; [exact Hops |].
  exact (run_preserved _ _ _ _ _ (move_to_backup_frame E p b pol) Hrun).
Qed.

Lemma dir_writable_insert_other q p x (m : gmap string node) :
  m !! p = None -> Os.dir_writable q m = true ->
  Os.dir_writable q (<[p := x]> m) = true.
Proof.
  intros Hp Hq. unfold Os.dir_writable in *.
  destruct (decide (p = q)) as [-> | Hne]; [rewrite Hp in Hq; discriminate |].
  rewrite lookup_insert_ne by exact Hne. exact Hq.
Qed.

(** X17. A file for which everything is in place goes through: with the
    name rendered from the template, the place of the archive free, the
    backup folder there and the target in it free, [process_one] counts the
    file as processed with the space saved, the archive stands beside the
    file's old place with the file's name and size as its one member, the
    file itself is in the backup folder as it was, the move is recorded,
    and the counter has moved on by one. *)
Theorem process_one_goes_through E f cfg pol pattern s t w wr z :
  chosen_pattern E cfg = Ok pattern ->
  rendered E f pattern (counter_of w) = Ok s ->
  ConflictResolution.of_value (CompressionConfig.conflict_resolution cfg) = Ok pol ->
  ready E cfg f s w wr z ->
  exists w',
    CompressorEngine.process_one E f cfg t w
    = (Ret (Tally (S (processed t)) (failed t) (skipped t)
                  (total_saved t
                   + (FileInfo.size f
                      - deflated_size E (CompressionConfig.compression_level cfg)
                                      (FileInfo.path f) (FileInfo.size f)))
                  (errors t)), w')
    /\ fs w'
       = <[backup_target (CompressionConfig.backup_folder cfg) (FileInfo.path f)
           := NFile (FileInfo.size f) true wr z]>
           (delete (FileInfo.path f)
              (<[archive_path f s := archive_of E cfg f]> (fs w)))
    /\ backup_operations w'
       = (backup_operations w
          ++ [(FileInfo.path f,
               backup_target (CompressionConfig.backup_folder cfg)
                             (FileInfo.path f))])%list
    /\ counter_of w' = counter_of w + 1.
Proof.
  intros Hpat Hrend Hpol [Hfile Hzfree Hzdir Hlevel Hmedia Hbk Htfree Htother Hsdir Htdir].
  destruct (compress_single_file_ok E f cfg pattern s w wr z Hpat Hrend Hzfree Hzdir
              Hfile Hlevel Hmedia) as (w1 & Hc & Hf1 & Hb1 & Hc1).
  set (zp := archive_path f s) in *.
  set (b := CompressionConfig.backup_folder cfg) in *.
  destruct (move_to_backup_ok E (FileInfo.path f) b pol w1
              (NFile (FileInfo.size f) true wr z)) as (w2 & Hm & Hf2 & Hb2 & He2).
  { rewrite Hf1. rewrite lookup_insert_ne by congruence. exact Hfile. }
  { rewrite Hf1. apply dir_writable_insert_other; assumption. }
  { rewrite Hf1. rewrite lookup_insert_ne by congruence. exact Htfree. }
  { rewrite Hf1. apply dir_writable_insert_other; assumption. }
  { rewrite Hf1. apply dir_writable_insert_other; assumption. }
  exists w2. split; [| split; [congruence | split]].
  - unfold CompressorEngine.process_one. apply try_except_ret_eq.
    rewrite (bind_ret_eq _ _ _ _ _ Hc). apply try_except_ret_eq.
    rewrite Hpol. cbn [lift]. rewrite bind_ret. fold b.
    rewrite (bind_ret_eq _ _ _ _ _ Hm). reflexivity.
  - rewrite Hb2, Hb1. reflexivity.
  - unfold counter_of in *. rewrite He2. exact Hc1.
Qed.

Lemma process_one_goes_through_witness :
  exists w',
    CompressorEngine.process_one Sample.env Sample_file_A Sample.config empty_tally
                                 Sample_with_backup
    = (Ret (Tally 1 0 0 (0 + (1000 - (1000 / 2 + 122))) []), w')
    /\ fs w'
       = <["respaldo/A.pdf" := NFile 1000 true true None]>
           (delete "src/A.pdf"
              (<["src/1_A.zip" := archive_of Sample.env Sample.config Sample_file_A]>
                 (fs Sample_with_backup)))
    /\ backup_operations w'
       = (backup_operations Sample_with_backup
          ++ [("src/A.pdf", "respaldo/A.pdf")])%list
    /\ counter_of w' = counter_of Sample_with_backup + 1.
Proof.
  apply (process_one_goes_through Sample.env Sample_file_A Sample.config
           ConflictResolution.RENAME "{contador}_{nombre_original}" "1_A"
           empty_tally Sample_with_backup true None).
  - reflexivity.
  - vm_compute. reflexivity.
  - reflexivity.
  - constructor; try (vm_compute; reflexivity).
    + cbn. lia.
    + vm_compute. discriminate.
Defined.

(** ** The progress callback *)

Lemma file_status_seen a b c w :
  seen_and_asked (set_ui (fun l => py_append l (FileStatus a b c)) w)
  = seen_and_asked w.
Proof.
  unfold seen_and_asked, progress_seen. cbn [ui set_ui engine].
  unfold py_append. rewrite omap_app. cbn. rewrite app_nil_r. reflexivity.
Qed.
#[local] Hint Resolve file_status_seen : core.

Lemma process_one_seen E f cfg t :
  preserves seen_and_asked (CompressorEngine.process_one E f cfg t).
Proof. frame. Qed.

Lemma next_slot_seen :
  preserves (fun w => (seen_and_asked w, engine w)) CompressorEngine.next_slot.
Proof. frame. Qed.

Lemma next_slot_total : total CompressorEngine.next_slot.
Proof. intros w. unfold CompressorEngine.next_slot. destruct (script w); eexists; reflexivity. Qed.

Lemma deliver_all_seen l :
  preserves seen_and_asked (for_each l CompressorEngine.deliver).
Proof. apply preserves_for_each. intros s. destruct s; frame. Qed.

Lemma wait_pause_event_seen s :
  preserves seen_and_asked (CompressorEngine.wait_pause_event s).
Proof.
  unfold CompressorEngine.wait_pause_event.
  apply preserves_bind; [frame | intros b]. destruct b; [frame |].
  apply preserves_bind; [apply deliver_all_seen | intros ?]. frame.
Qed.

(** The loop tells the callback of each file it comes to, and of no other;
    it stops short only with the stop flag up. *)
Lemma process_loop_progress E cfg files : forall i n t w,
  progress_callback (engine w) = true ->
  match CompressorEngine.process_loop E i n files cfg t w with
  | (Ret t', w') =>
      exists k, (k <= length files)%nat
        /\ progress_seen w' = (progress_seen w ++ take k (progress_calls i n files))%list
        /\ (k = length files \/ should_stop (engine w') = true)
  | _ => True
  end.
Proof.
  induction files as [| f rest IH]; intros i n t w Hcb.
  - cbn. exists 0%nat. split; [lia |]. split; [| left; reflexivity].
    cbn. rewrite app_nil_r. reflexivity.
  - cbn [CompressorEngine.process_loop].
    destruct (run_total _ next_slot_total w) as (s & w0 & Hns).
    pose proof (run_preserved _ _ _ _ _ next_slot_seen Hns) as H0.
    injection H0 as Hs0 Hc0 _.
    rewrite (bind_ret_eq _ _ _ _ _ Hns).
    destruct (run_total _ (total_for_each (before_check s) _ deliver_total) w0)
      as ([] & w1 & Hd).
    pose proof (run_preserved _ _ _ _ _ (deliver_all_seen (before_check s)) Hd) as H1.
    injection H1 as Hs1 Hc1.
    rewrite (bind_ret_eq _ _ _ _ _ Hd), bind_gets.
    destruct (should_stop (engine w1)) eqn:Hstop.
    + unfold CompressorEngine.log_operation. rewrite bind_log. cbn [ret].
      exists 0%nat. split; [lia |]. split; [| right; exact Hstop].
      cbn [take]. rewrite app_nil_r.
      change (progress_seen w1 = progress_seen w). congruence.
    + destruct (CompressorEngine.wait_pause_event s w1) as [[[] | e |] w2] eqn:Hw.
      2: { rewrite (bind_raise_eq _ _ _ _ _ Hw). exact I. }
      2: { rewrite (bind_hang_eq _ _ _ _ Hw). exact I. }
      pose proof (run_preserved _ _ _ _ _ (wait_pause_event_seen s) Hw) as H2.
      injection H2 as Hs2 Hc2.
      rewrite (bind_ret_eq _ _ _ _ _ Hw).
      unfold CompressorEngine.call_progress_callback at 1.
      assert (Hcb2 : progress_callback (engine w2) = true) by congruence.
      rewrite bind_assoc, bind_gets, Hcb2. cbn [when]. rewrite bind_modify.
      set (w3 := set_ui _ w2).
      assert (Hs3 : progress_seen w3
                    = (progress_seen w ++ [((i + 1)%nat, n, FileInfo.name f)])%list).
      { transitivity (progress_seen w2 ++ [((i + 1)%nat, n, FileInfo.name f)])%list;
          [| congruence].
        unfold w3, progress_seen. cbn [ui set_ui]. unfold py_append.
        rewrite omap_app. reflexivity. }
      destruct (run_total _ (process_one_total E f cfg t) w3) as (t1 & w4 & Hone).
      pose proof (run_preserved _ _ _ _ _ (process_one_seen E f cfg t) Hone) as H4.
      injection H4 as Hs4 Hc4.
      rewrite (bind_ret_eq _ _ _ _ _ Hone).
      assert (Hcb4 : progress_callback (engine w4) = true).
      { rewrite Hc4. exact Hcb2. }
      specialize (IH (S i) n t1 w4 Hcb4).
      destruct (CompressorEngine.process_loop E (S i) n rest cfg t1 w4)
        as [[t' | e |] w']; auto.
      destruct IH as (k & Hk & Hseen & Hend).
      exists (S k). split; [cbn; lia |]. split.
      * rewrite Hseen, Hs4, Hs3. cbn [progress_calls take].
        rewrite <- app_assoc. reflexivity.
      * destruct Hend as [-> | Hend]; [left; reflexivity | right; exact Hend].
Qed.

Lemma process_loop_never_stopped E cfg files : forall i n t w,
  never_stopped w ->
  match CompressorEngine.process_loop E i n files cfg t w with
  | (Ret _, w') => never_stopped w'
  | _ => True
  end.
Proof.
  induction files as [| f rest IH]; intros i n t w Hw.
  - cbn. exact Hw.
  - destruct (process_loop_turn E i n f cfg w Hw) as [[wh Hh] | (w1 & Hf & Hq & Heq)].
    + rewrite Hh. exact I.
    + rewrite Heq.
      destruct (run_total _ (process_one_total E f cfg t) w1) as (t1 & w2 & Hone).
      rewrite (bind_ret_eq _ _ _ _ _ Hone).
      apply IH. exact (process_one_never_stopped _ _ _ _ _ _ _ _ Hw Hf Hq Hone).
Qed.

(** X18. With a progress callback registered, [_process_files] calls it
    for the files it comes to, in the order of the list, with the rank from 1,
    the number of files and the name, and makes no other call of it; a run
    that is never told to stop calls it for every file. *)
Theorem process_files_reports_progress E files cfg w r w' :
  progress_callback (engine w) = true ->
  CompressorEngine._process_files E files cfg w = (Ret r, w') ->
  exists k, (k <= length files)%nat
    /\ progress_seen w'
       = (progress_seen w ++ take k (progress_calls 0 (length files) files))%list
    /\ (never_stopped w -> k = length files).
Proof.
  intros Hcb Hrun. unfold CompressorEngine._process_files in Hrun.
  pose proof (process_loop_progress E cfg files 0 (length files) (Tally 0 0 0 0 []) w Hcb)
    as Hp.
  pose proof (process_loop_never_stopped E cfg files 0 (length files)
                (Tally 0 0 0 0 []) w) as Hn.
  destruct (CompressorEngine.process_loop E 0 (length files) files cfg
              (Tally 0 0 0 0 []) w) as [[t | e |] w1] eqn:Hloop.
  2: { rewrite (bind_raise_eq _ _ _ _ _ Hloop) in Hrun. discriminate. }
  2: { rewrite (bind_hang_eq _ _ _ _ Hloop) in Hrun. discriminate. }
  rewrite (bind_ret_eq _ _ _ _ _ Hloop) in Hrun.
  destruct Hp as (k & Hk & Hseen & Hend).
  assert (Hw' : progress_seen w' = progress_seen w1
                /\ should_stop (engine w') = should_stop (engine w1)).
  { revert Hrun. unfold CompressorEngine.log_operation.
    destruct (negb _); cbn [when]; [rewrite bind_log | rewrite bind_ret];
      cbn [ret]; intros [= _ <-]; split; reflexivity. }
  destruct Hw' as [Hs' Hst']. exists k. split; [exact Hk |]. split.
  - rewrite Hs'. exact Hseen.
  - intros Hw. destruct Hend as [-> | Hend]; [reflexivity |].
    destruct (Hn Hw) as [Hns _]. congruence.
Qed.

Lemma process_files_reports_progress_witness :
  exists k, (k <= length Sample_files)%nat
    /\ progress_seen Sample_processed
       = (progress_seen Sample.world
          ++ take k (progress_calls 0 (length Sample_files) Sample_files))%list
    /\ (never_stopped Sample.world -> k = length Sample_files).
Proof.
  apply (process_files_reports_progress Sample.env Sample_files Sample.config Sample.world
           (CompressionResult.mk true 2 0 0 1256 [] "") Sample_processed).
  - reflexivity.
  - vm_compute. reflexivity.
Defined.

(** ** A conflict policy that is not of the enumeration *)

Lemma on_exception_frame E f t e :
  preserves (fun w => (fs w, backup_operations w, counter_of w))
            (CompressorEngine.on_exception E f t e).
Proof. frame. Qed.

Lemma on_exception_run E f t e w :
  exists w',
    CompressorEngine.on_exception E f t e w
    = (Ret (Tally (processed t) (S (failed t)) (skipped t) (total_saved t)
                  (py_append (errors t)
                     ("Error procesando " ++ FileInfo.name f ++ ": " ++ exn_str e))),
       w').
Proof.
  unfold CompressorEngine.on_exception.
  assert (Ht : total (CompressorEngine.log_file_operation E "compress" (FileInfo.path f)
                        "error" 0 0
                        (Some ("Error procesando " ++ FileInfo.name f ++ ": "
                               ++ exn_str e)))) by total_tac.
  destruct (run_total _ Ht w) as ([] & w' & Hlog).
  exists w'. rewrite (bind_ret_eq _ _ _ _ _ Hlog). reflexivity.
Qed.

(** X19. With a conflict policy that is none of the four of the
    enumeration, a file whose archive was written is counted as processed
    and as failed at once: the error names the file and the policy, the
    saving is counted, and the file is neither moved nor recorded as
    moved. *)
Theorem unknown_policy_counts_twice E f cfg e t w zip_path original compressed saved w1 :
  ConflictResolution.of_value (CompressionConfig.conflict_resolution cfg) = Err e ->
  CompressorEngine._compress_single_file E f cfg w
  = (Ret (RSuccess zip_path original compressed saved), w1) ->
  exists w',
    CompressorEngine.process_one E f cfg t w
    = (Ret (Tally (S (processed t)) (S (failed t)) (skipped t) (total_saved t + saved)
                  (py_append (errors t)
                     ("Error procesando " ++ FileInfo.name f ++ ": " ++ exn_str e))),
       w')
    /\ fs w' = fs w1
    /\ backup_operations w' = backup_operations w1.
Proof.
  intros Hpol Hc.
  set (t1 := Tally (S (processed t)) (failed t) (skipped t) (total_saved t + saved)
                   (errors t)).
  destruct (on_exception_run E f t1 e w1) as (w' & Hex).
  pose proof (run_preserved _ _ _ _ _ (on_exception_frame E f t1 e) Hex) as Hk.
  injection Hk as Hf Hb _.
  exists w'. split; [| split; assumption].
  unfold CompressorEngine.process_one. apply try_except_ret_eq.
  rewrite (bind_ret_eq _ _ _ _ _ Hc).
  cbv zeta. etransitivity; [| exact Hex].
  apply (try_except_raise_eq _ _ _ e w1). rewrite Hpol. reflexivity.
Qed.

Lemma unknown_policy_counts_twice_witness :
  exists w',
    CompressorEngine.process_one Sample.env Sample_file_A Sample_unknown_policy
                                 empty_tally Sample_with_backup
    = (Ret (Tally 1 1 0 (0 + 378)
              (py_append []
                 ("Error procesando " ++ FileInfo.name Sample_file_A ++ ": "
                  ++ exn_str (ValueError "'replace' is not a valid ConflictResolution")))),
       w')
    /\ fs w' = fs (snd (CompressorEngine._compress_single_file Sample.env Sample_file_A
                          Sample_unknown_policy Sample_with_backup))
    /\ backup_operations w'
       = backup_operations
           (snd (CompressorEngine._compress_single_file Sample.env Sample_file_A
                   Sample_unknown_policy Sample_with_backup)).
Proof.
  apply (unknown_policy_counts_twice Sample.env Sample_file_A Sample_unknown_policy
           (ValueError "'replace' is not a valid ConflictResolution") empty_tally
           Sample_with_backup "src/1_A.zip" 1000 622 378).
  - reflexivity.
  - vm_compute. reflexivity.
Defined.

(** ** A stop while the run is paused *)

Lemma for_each_snoc {A} (l : list A) (x : A) (body : A -> M unit) w :
  for_each (l ++ [x])%list body w = bind (for_each l body) (fun _ => body x) w.
Proof.
  revert w. induction l as [| y l IH]; intros w; cbn [for_each app].
  - unfold bind, ret. destruct (body x w) as [[[] | e |] w1]; reflexivity.
  - rewrite bind_assoc.
    destruct (body y w) as [[[] | e |] w1] eqn:Hy.
    + rewrite !(bind_ret_eq _ _ _ _ _ Hy). apply IH.
    + rewrite !(bind_raise_eq _ _ _ _ _ Hy). reflexivity.
    + rewrite !(bind_hang_eq _ _ _ _ Hy). reflexivity.
Qed.

Lemma deliver_all_running l :
  preserves (fun w => is_running (engine w)) (for_each l CompressorEngine.deliver).
Proof. apply preserves_for_each. intros s. destruct s; frame. Qed.

Lemma pause_run w :
  is_running (engine w) = true ->
  exists w', CompressorEngine.pause w = (Ret tt, w')
             /\ pause_event (engine w') = false
             /\ is_running (engine w') = true
             /\ kept w' = kept w /\ script w' = script w.
Proof.
  intros Hr. unfold CompressorEngine.pause, CompressorEngine.log_operation.
  rewrite bind_gets, Hr. cbn [when]. rewrite !bind_modify.
  unfold CustomLogger.log_operation. cbv [bind gets modify ret].
  eexists. split; [reflexivity |]. cbn. rewrite Hr. repeat split; reflexivity.
Qed.

Lemma stop_run w :
  is_running (engine w) = true ->
  exists w', CompressorEngine.stop w = (Ret tt, w')
             /\ pause_event (engine w') = true
             /\ should_stop (engine w') = true
             /\ fs w' = fs w /\ backup_operations w' = backup_operations w
             /\ counter_of w' = counter_of w /\ script w' = script w.
Proof.
  intros Hr. unfold CompressorEngine.stop, CompressorEngine.log_operation.
  rewrite bind_gets, Hr. cbn [when]. rewrite !bind_modify.
  unfold CustomLogger.log_operation. cbv [bind gets modify ret].
  eexists. split; [reflexivity |]. cbn. repeat split; reflexivity.
Qed.

(** With the stop flag up the loop ends at once. *)
Lemma process_loop_stopped E i n files cfg t w :
  should_stop (engine w) = true ->
  exists w', CompressorEngine.process_loop E i n files cfg t w = (Ret t, w')
             /\ should_stop (engine w') = true
             /\ fs w' = fs w /\ backup_operations w' = backup_operations w
             /\ counter_of w' = counter_of w.
Proof.
  intros Hs. destruct files as [| f rest].
  - exists w. repeat split; auto.
  - cbn [CompressorEngine.process_loop].
    destruct (run_total _ next_slot_total w) as (s & w0 & Hns).
    pose proof (run_preserved _ _ _ _ _ next_slot_seen Hns) as H0.
    injection H0 as _ _ He0.
    assert (Hk0 : fs w0 = fs w /\ backup_operations w0 = backup_operations w).
    { revert Hns. unfold CompressorEngine.next_slot.
      destruct (script w); intros [= _ <-]; split; reflexivity. }
    destruct Hk0 as [Hf0 Hb0].
    rewrite (bind_ret_eq _ _ _ _ _ Hns).
    destruct (deliver_all_stop (before_check s) w0)
      as (w1 & Hd & Hs1 & Hf1 & Hb1 & Hc1 & _); [left; rewrite He0; exact Hs |].
    rewrite (bind_ret_eq _ _ _ _ _ Hd), bind_gets, Hs1.
    unfold CompressorEngine.log_operation. rewrite bind_log. cbn [ret].
    eexists. split; [reflexivity |].
    cbn [engine set_logger fs backup_operations counter_of].
    unfold counter_of in *. cbn [engine set_logger].
    split; [exact Hs1 |]. split; [congruence |]. split; congruence.
Qed.

(** X20. A stop that comes while the worker waits on a pause wakes it,
    and the file it was about to take is still processed: when, in a running
    engine with the stop flag down, the last call before the worker reads the
    flag is [pause] with no [stop] before it, and the last call while it
    waits is [stop], the loop goes through exactly one more file, whatever
    the number of files left, and ends with the stop flag up. *)
Theorem stop_during_pause_takes_one_more E i n f rest cfg pol t w s more bc ww :
  ConflictResolution.of_value (CompressionConfig.conflict_resolution cfg) = Ok pol ->
  is_running (engine w) = true ->
  should_stop (engine w) = false ->
  script w = s :: more ->
  before_check s = (bc ++ [SigPause])%list ->
  SigStop ∉ bc ->
  while_waiting s = (ww ++ [SigStop])%list ->
  exists t' w',
    CompressorEngine.process_loop E i n (f :: rest) cfg t w = (Ret t', w')
    /\ tally_sum t' = S (tally_sum t)
    /\ should_stop (engine w') = true.
Proof.
  intros Hpol Hrun Hstop Hsc Hbc Hns Hww.
  cbn [CompressorEngine.process_loop].
  assert (Hslot : CompressorEngine.next_slot w = (Ret s, set_script (fun _ => more) w)).
  { unfold CompressorEngine.next_slot. rewrite Hsc. reflexivity. }
  rewrite (bind_ret_eq _ _ _ _ _ Hslot), Hbc.
  set (w0 := set_script (fun _ => more) w).
  destruct (deliver_all_run bc w0 Hns) as (w1 & Hd1 & Hk1 & _).
  pose proof (run_preserved _ _ _ _ _ (deliver_all_running bc) Hd1) as Hr1.
  cbn [set_script engine w0] in Hr1. unfold w0 in Hr1. cbn in Hr1.
  destruct (pause_run w1) as (w2 & Hp & Hev2 & Hr2 & Hk2 & _);
    [rewrite Hr1; exact Hrun |].
  assert (Hd : for_each (bc ++ [SigPause])%list CompressorEngine.deliver w0
               = (Ret tt, w2)).
  { rewrite for_each_snoc, (bind_ret_eq _ _ _ _ _ Hd1). exact Hp. }
  assert (Hstop2 : should_stop (engine w2) = false).
  { assert (H : kept w2 = kept w) by (rewrite Hk2, Hk1; reflexivity).
    exact (eq_trans (f_equal snd H) Hstop). }
  rewrite (bind_ret_eq _ _ _ _ _ Hd), bind_gets, Hstop2.
  destruct (run_total _ (total_for_each ww _ deliver_total) w2) as ([] & w3 & Hd3).
  pose proof (run_preserved _ _ _ _ _ (deliver_all_running ww) Hd3) as Hr3.
  destruct (stop_run w3) as (w4 & Hst & Hev4 & Hs4 & _); [congruence |].
  assert (Hwait : CompressorEngine.wait_pause_event s w2 = (Ret tt, w4)).
  { unfold CompressorEngine.wait_pause_event. rewrite bind_gets, Hev2, Hww.
    rewrite (bind_ret_eq _ _ _ _ _
               (eq_trans (for_each_snoc ww SigStop _ w2)
                         (eq_trans (bind_ret_eq _ _ _ _ _ Hd3) Hst))).
    rewrite bind_gets, Hev4. reflexivity. }
  rewrite (bind_ret_eq _ _ _ _ _ Hwait).
  destruct (call_progress_callback_run (i + 1) n (FileInfo.name f) w4)
    as (w5 & Hcall & Hk5 & _).
  assert (Hs5 : should_stop (engine w5) = should_stop (engine w4))
    by exact (f_equal snd Hk5).
  rewrite (bind_ret_eq _ _ _ _ _ Hcall).
  destruct (process_one_tally E f cfg t pol w5 Hpol) as (t1 & w6 & Hone & Hsum).
  pose proof (run_preserved _ _ _ _ _ (process_one_keeps_control E f cfg t) Hone) as H6.
  injection H6 as Hs6 _.
  rewrite (bind_ret_eq _ _ _ _ _ Hone).
  destruct (process_loop_stopped E (S i) n rest cfg t1 w6) as (w' & Hend & Hs' & _);
    [congruence |].
  exists t1, w'. split; [exact Hend |]. split; [exact Hsum | exact Hs'].
Qed.

Lemma stop_during_pause_takes_one_more_witness :
  exists t' w',
    CompressorEngine.process_loop Sample.env 0 2 (Sample_file_A :: [Sample_file_B])
                                  Sample.config empty_tally Sample_stop_in_pause
    = (Ret t', w')
    /\ tally_sum t' = S (tally_sum empty_tally)
    /\ should_stop (engine w') = true.
Proof.
  apply (stop_during_pause_takes_one_more Sample.env 0 2 Sample_file_A [Sample_file_B]
           Sample.config ConflictResolution.RENAME empty_tally Sample_stop_in_pause
           (Slot [SigPause] [SigStop]) [] [] []).
  - reflexivity.
  - reflexivity.
  - reflexivity.
  - reflexivity.
  - reflexivity.
  - apply not_elem_of_nil.
  - reflexivity.
Defined.
